(** * learn-gen-ai: the Flask company endpoint, [app/utils.py] and [app/routes.py]

    A shallow embedding of the helpers behind the [/api/analysis] and
    [/api/historical-data] routes: [normalize_symbol], [build_date_range],
    [normalize_history_payload] and [generate_insights_from_history],
    together with the fragments of Python, pandas and numpy they rely on;
    then of [extract_company_officers], [download_historical_data],
    [historical_records_from_dataframe] and of the four routes.

    - Python [float] and numpy [float64] are IEEE 754 binary64 values,
      computed with the Standard Library's [SpecFloat] operations
      (round to nearest even, one NaN).
    - Python exceptions are values of [exn]; a call returns [result A].
    - pandas [DataFrame]s are mutable objects: they live in a heap
      ([gmap loc DataFrame]) and the functions that touch them run in a
      state-and-exception monad over that heap.
    - Library routines whose result the repository does not determine
      (the ISO parser, the clock, [pd.to_datetime] on text, numpy's sort
      permutation, [np.polyfit]) are fields of the [Library] class;
      the answers of Yahoo Finance are those of the [Provider] class. *)

From Stdlib Require Import ZArith SpecFloat Ascii String.
From stdpp Require Import base option list sorting gmap strings.

Local Open Scope Z_scope.

(** ** Exceptions *)

Inductive exn :=
  | ValueError (msg : string)
  | KeyError (key : string)
  | IndexError
  | TypeError
  | OverflowError
  | ZeroDivisionError
  | LinAlgError
  | DanglingReference.

Inductive result (A : Type) :=
  | Ok (a : A)
  | Raise (e : exn).
Arguments Ok {A} a.
Arguments Raise {A} e.

#[global] Instance result_ret : MRet result := fun A a => Ok a.
#[global] Instance result_bind : MBind result := fun A B k r =>
  match r with
  | Ok a => k a
  | Raise e => Raise e
  end.

Fixpoint result_mapM {A B} (f : A -> result B) (l : list A) : result (list B) :=
  match l with
  | [] => Ok []
  | x :: l' => y ← f x; ys ← result_mapM f l'; Ok (y :: ys)
  end.

(** ** binary64 floating point *)

Module F64.

Definition prec : Z := 53.
Definition emax : Z := 1024.

Definition float := spec_float.

Definition nan : float := S754_nan.
Definition zero : float := S754_zero false.

Definition add : float -> float -> float := SFadd prec emax.
Definition sub : float -> float -> float := SFsub prec emax.
Definition mul : float -> float -> float := SFmul prec emax.
Definition div : float -> float -> float := SFdiv prec emax.
Definition sqrt : float -> float := SFsqrt prec emax.

(** [float(z)] for a Python int: the nearest binary64 value. *)
Definition of_Z (z : Z) : float := binary_normalize prec emax z 0 false.

(** The binary64 value nearest to the rational [n / d] ([0 <= n], [0 < d])
    with sign [s]: how a decimal literal or a decimal string is read. *)
Definition of_ratio (s : bool) (n d : Z) : float :=
  match n with
  | Z0 => S754_zero s
  | _ =>
      let '(mz, ez, lz) := SFdiv_core_binary prec emax n 0 d 0 in
      binary_round_aux prec emax s mz ez lz
  end.

(** The literal [n / d], e.g. [lit 3 100] for [0.03]. *)
Definition lit (n d : Z) : float := of_ratio (n <? 0) (Z.abs n) d.

Definition isnan (x : float) : bool :=
  match x with S754_nan => true | _ => false end.

Definition is_zero (x : float) : bool :=
  match x with S754_zero _ => true | _ => false end.

(** [x < y], [x > y], [x <= y], [x >= y]: false as soon as one side is NaN. *)
Definition ltb (x y : float) : bool := SFltb x y.
Definition gtb (x y : float) : bool := SFltb y x.
Definition leb (x y : float) : bool := SFleb x y.
Definition geb (x y : float) : bool := SFleb y x.

(** [bool(x)]: a float is falsy exactly when it equals zero, so NaN is
    truthy. *)
Definition truthy (x : float) : bool := negb (is_zero x).

(** [x or y] on floats. *)
Definition or_else (x y : float) : float := if truthy x then x else y.

(** Python's [x / y] on floats raises on a zero divisor. *)
Definition py_div (x y : float) : result float :=
  if is_zero y then Raise ZeroDivisionError else Ok (div x y).

(** [int(x)]: truncation toward zero. *)
Definition to_int (x : float) : result Z :=
  match x with
  | S754_nan => Raise (ValueError "cannot convert float NaN to integer")
  | S754_infinity _ => Raise OverflowError
  | S754_zero _ => Ok 0
  | S754_finite s m e =>
      let a := if 0 <=? e then Z.pos m * 2 ^ e else Z.pos m / 2 ^ (- e) in
      Ok (if s then - a else a)
  end.

(** Nearest integer to [n / d], ties to even ([0 <= n], [0 < d]). *)
Definition half_even (n d : Z) : Z :=
  let q := n / d in
  match 2 * (n mod d) ?= d with
  | Lt => q
  | Gt => q + 1
  | Eq => if Z.even q then q else q + 1
  end.

(** [round(x, nd)] for [0 <= nd]: the exact value of [x] is rounded to
    [nd] decimals, ties to even, and the decimal is read back as a
    float; infinities and NaN are returned unchanged. *)
Definition round (x : float) (nd : Z) : float :=
  match x with
  | S754_finite s m e =>
      let p := 10 ^ nd in
      let k := if 0 <=? e then Z.pos m * 2 ^ e * p
               else half_even (Z.pos m * p) (2 ^ (- e)) in
      of_ratio s k p
  | _ => x
  end.

End F64.

Abbreviation float := F64.float.

(** ** Python strings (ASCII) *)

Module Str.

(** [str.isspace] on one ASCII character. *)
Definition is_space (c : ascii) : bool :=
  let n := nat_of_ascii c in
  ((9 <=? n)%nat && (n <=? 13)%nat) || ((28 <=? n)%nat && (n <=? 32)%nat).

Definition upper_char (c : ascii) : ascii :=
  let n := nat_of_ascii c in
  if ((97 <=? n)%nat && (n <=? 122)%nat) then ascii_of_nat (n - 32) else c.

Definition lower_char (c : ascii) : ascii :=
  let n := nat_of_ascii c in
  if ((65 <=? n)%nat && (n <=? 90)%nat) then ascii_of_nat (n + 32) else c.

Fixpoint map (f : ascii -> ascii) (s : string) : string :=
  match s with
  | EmptyString => EmptyString
  | String c s' => String (f c) (map f s')
  end.

Definition upper : string -> string := map upper_char.
Definition lower : string -> string := map lower_char.

Fixpoint lstrip (s : string) : string :=
  match s with
  | EmptyString => EmptyString
  | String c s' => if is_space c then lstrip s' else s
  end.

Fixpoint rstrip (s : string) : string :=
  match s with
  | EmptyString => EmptyString
  | String c s' =>
      match rstrip s' with
      | EmptyString => if is_space c then EmptyString else String c EmptyString
      | t => String c t
      end
  end.

Definition strip (s : string) : string := rstrip (lstrip s).

Fixpoint all_space (s : string) : bool :=
  match s with
  | EmptyString => true
  | String c s' => is_space c && all_space s'
  end.

(** [bool(s)] *)
Definition truthy (s : string) : bool :=
  match s with EmptyString => false | _ => true end.


End Str.

(** ** [normalize_symbol] *)

Definition normalize_symbol (symbol : option string) : result string :=
  match symbol with
  | None => Raise (ValueError "A symbol must be provided.")
  | Some s =>
      if negb (Str.truthy s) then Raise (ValueError "A symbol must be provided.")
      else Ok (Str.upper (Str.strip s))
  end.

(** ** [datetime] *)

Module Datetime.

(** A [datetime.datetime]: the wall-clock reading in microseconds since
    0001-01-01T00:00:00 and, for an aware value, its UTC offset in
    microseconds. *)
Record datetime := mk {
  wall : Z;
  utcoffset : option Z;
}.

Definition MICROS_PER_DAY : Z := 86400000000.

(** [datetime.max] is 9999-12-31T23:59:59.999999, ordinal day 3652059. *)
Definition MAX_ORDINAL : Z := 3652059.
Definition in_range (w : Z) : bool :=
  (0 <=? w) && (w <? MAX_ORDINAL * MICROS_PER_DAY).

(** [timedelta(days=n)] *)
Definition timedelta_days (n : Z) : result Z :=
  if (Z.abs n <=? 999999999) then Ok (n * MICROS_PER_DAY) else Raise OverflowError.

(** [dt - delta] *)
Definition sub_delta (dt : datetime) (delta : Z) : result datetime :=
  let w := wall dt - delta in
  if in_range w then Ok (mk w (utcoffset dt)) else Raise OverflowError.

(** [a > b]: naive against naive, aware against aware. *)
Definition gt (a b : datetime) : result bool :=
  match utcoffset a, utcoffset b with
  | None, None => Ok (wall b <? wall a)
  | Some oa, Some ob => Ok (wall b - ob <? wall a - oa)
  | _, _ => Raise TypeError
  end.

Definition is_leap (y : Z) : bool :=
  (y mod 4 =? 0) && (negb (y mod 100 =? 0) || (y mod 400 =? 0)).

Definition days_in_month (y m : Z) : Z :=
  if m =? 2 then (if is_leap y then 29 else 28)
  else if (m =? 4) || (m =? 6) || (m =? 9) || (m =? 11) then 30 else 31.

Definition days_before_year (y : Z) : Z :=
  let y' := y - 1 in y' * 365 + y' / 4 - y' / 100 + y' / 400.

Definition days_before_month (y m : Z) : Z :=
  nth (Z.to_nat (m - 1)) [0; 31; 59; 90; 120; 151; 181; 212; 243; 273; 304; 334] 0
  + (if (2 <? m) && is_leap y then 1 else 0).

(** [date(y, m, d).toordinal()] *)
Definition ymd2ord (y m d : Z) : Z :=
  days_before_year y + days_before_month y m + d.

Definition digit (c : ascii) : option Z :=
  let n := Z.of_nat (nat_of_ascii c) in
  if (48 <=? n) && (n <=? 57) then Some (n - 48) else None.

Fixpoint digits (acc : Z) (cs : list ascii) : option Z :=
  match cs with
  | [] => Some acc
  | c :: cs' => d ← digit c; digits (10 * acc + d) cs'
  end.

(** [datetime.fromisoformat] on the calendar-date form [YYYY-MM-DD]
    (the form every Python 3 release accepts); other strings are
    rejected by this parser. *)
Definition fromisoformat_date (s : string) : option datetime :=
  match list_ascii_of_string s with
  | [y1; y2; y3; y4; "-"%char; m1; m2; "-"%char; d1; d2] =>
      y ← digits 0 [y1; y2; y3; y4];
      m ← digits 0 [m1; m2];
      d ← digits 0 [d1; d2];
      if (1 <=? y) && (1 <=? m) && (m <=? 12) && (1 <=? d) && (d <=? days_in_month y m)
      then Some (mk ((ymd2ord y m d - 1) * MICROS_PER_DAY) None)
      else None
  | _ => None
  end.

End Datetime.

Abbreviation datetime := Datetime.datetime.

(** ** Cells, rows and frames *)

(** A value held in a frame (or in a JSON record): [None], a Python int,
    a float, a string, or a [datetime64] timestamp in nanoseconds since
    1970-01-01. *)
Inductive cell :=
  | CNull
  | CInt (z : Z)
  | CNum (f : float)
  | CStr (s : string)
  | CTime (t : Z).

Record Row := mkRow {
  label : cell;
  cells : list cell;
}.

(** A [pandas.DataFrame]: the name of its index, its column labels and its
    rows, each row carrying its index label and one cell per column. *)
Record DataFrame := mkDataFrame {
  index_name : option string;
  columns : list string;
  rows : list Row;
}.

(** One record of a JSON payload: an object with distinct keys, in order. *)
Definition record := list (string * cell).

(** ** Library routines taken as given *)

Class Library := {
  (** [datetime.fromisoformat]; [None] when it raises [ValueError]. *)
  fromisoformat : string -> option datetime;
  (** [datetime.utcnow()] *)
  utcnow : datetime;
  (** [pd.to_datetime] on a column that is not yet [datetime64]. *)
  to_datetime_object : list cell -> result (list Z);
  (** [float(s)] on a string; [None] when it raises [ValueError]. *)
  float_of_str : string -> option float;
  (** [numpy.argsort(keys, kind="quicksort")], the permutation behind
      [sort_values]. *)
  argsort : list Z -> list nat;
  (** [np.polyfit(x, y, 1)[0]] *)
  polyfit_slope : list float -> list float -> result float;
  (** Whether [Series.pct_change] forward-fills first (its default before
      pandas 3) or not (pandas 3). *)
  pct_change_pad : bool;
}.

(** ** [parse_iso_date] and [build_date_range] *)

Definition DEFAULT_HISTORY_DAYS : Z := 180.
Definition TREND_SLOPE_THRESHOLD : float := F64.lit 1 100.

Definition parse_iso_date `{Library} (date_str : string) : result datetime :=
  match fromisoformat date_str with
  | Some dt => Ok dt
  | None => Raise (ValueError ("Invalid ISO date: " +:+ date_str))
  end.

(** [if s:] on an [Optional[str]]. *)
Definition supplied (s : option string) : option string :=
  match s with
  | Some v => if Str.truthy v then Some v else None
  | None => None
  end.

(** Lines 32-35: the end of the range. *)
Definition resolve_end `{Library} (end_ : option string) : result datetime :=
  match supplied end_ with
  | Some e => parse_iso_date e
  | None => Ok utcnow
  end.

(** Lines 37-40: the start of the range. *)
Definition resolve_start `{Library}
    (start : option string) (end_dt : datetime) (default_window : Z) : result datetime :=
  match supplied start with
  | Some s => parse_iso_date s
  | None =>
      delta ← Datetime.timedelta_days default_window;
      Datetime.sub_delta end_dt delta
  end.

Definition INVALID_RANGE : exn := ValueError "start date cannot be after end date".

Definition build_date_range `{Library}
    (start end_ : option string) (default_window : Z) : result (datetime * datetime) :=
  end_dt ← resolve_end end_;
  start_dt ← resolve_start start end_dt default_window;
  after ← Datetime.gt start_dt end_dt;
  if after : bool then Raise INVALID_RANGE
  else Ok (start_dt, end_dt).

(** ** pandas: series of floats *)

Module Series.

(** [s.sum()], accumulated from left to right (from 8 elements on numpy
    adds blocks pairwise, which can change the last bit of the result). *)
Definition sum (xs : list float) : float := foldl F64.add F64.zero xs.

(** Number of values that are not NaN. *)
Fixpoint count (xs : list float) : Z :=
  match xs with
  | [] => 0
  | x :: xs' => (if F64.isnan x then 0 else 1) + count xs'
  end.

(** The values with NaN replaced by zero, as pandas sums them. *)
Definition fill0 (xs : list float) : list float :=
  (fun x => if F64.isnan x then F64.zero else x) <$> xs.

(** [s.mean(skipna=True)] *)
Definition mean (xs : list float) : float :=
  let n := count xs in
  if 0 <? n then F64.div (sum (fill0 xs)) (F64.of_Z n) else F64.nan.

(** [s.std(skipna=True)], sample standard deviation ([ddof=1]). *)
Definition std (xs : list float) : float :=
  let n := count xs in
  if n <=? 1 then F64.nan
  else
    let avg := F64.div (sum (fill0 xs)) (F64.of_Z n) in
    let sqr := (fun x => if F64.isnan x then F64.zero
                         else F64.mul (F64.sub avg x) (F64.sub avg x)) <$> xs in
    F64.sqrt (F64.div (sum sqr) (F64.of_Z (n - 1))).

(** [s.ffill()]: a NaN takes the last value seen before it. *)
Fixpoint ffill_from (last : float) (xs : list float) : list float :=
  match xs with
  | [] => []
  | x :: xs' =>
      let v := if F64.isnan x then last else x in
      v :: ffill_from v xs'
  end.
Definition ffill (xs : list float) : list float := ffill_from F64.nan xs.

(** [s.shift(1)] *)
Definition shift (xs : list float) : list float :=
  match xs with
  | [] => []
  | _ => F64.nan :: removelast xs
  end.

(** [s.pct_change()]: [data / data.shift(1) - 1]. *)
Definition pct_change `{Library} (xs : list float) : list float :=
  let data := if pct_change_pad then ffill xs else xs in
  zip_with (fun x prev => F64.sub (F64.div x prev) (F64.of_Z 1)) data (shift data).

(** [s.tail(n)] *)
Definition tail (n : nat) (xs : list float) : list float :=
  drop (length xs - n)%nat xs.

End Series.

(** ** pandas: frames as values *)

Module Frame.

(** Positions of a column label. *)
Fixpoint positions (name : string) (cols : list string) (i : nat) : list nat :=
  match cols with
  | [] => []
  | c :: cols' =>
      (if String.eqb c name then [i] else []) ++ positions name cols' (S i)
  end.

(** [name in df.columns] *)
Definition has_column (df : DataFrame) (name : string) : bool :=
  existsb (String.eqb name) (columns df).

(** [df.empty] *)
Definition empty (df : DataFrame) : bool :=
  match rows df, columns df with
  | [], _ | _, [] => true
  | _, _ => false
  end.

Definition cell_at (i : nat) (r : Row) : cell := nth i (cells r) CNull.

(** [df[name]] where the code goes on to use it as a Series: [KeyError]
    for an absent label; for a repeated label pandas yields a frame and
    the statement that uses it fails with [dup]. *)
Definition getitem (df : DataFrame) (name : string) (dup : exn) : result (list cell) :=
  match positions name (columns df) 0 with
  | [] => Raise (KeyError name)
  | [i] => Ok (cell_at i <$> rows df)
  | _ => Raise dup
  end.

Definition set_cell (i : nat) (v : cell) (r : Row) : Row :=
  mkRow (label r) (<[i := v]> (cells r)).

(** [df[name] = values]: overwrite the column, or append it. *)
Definition setitem (df : DataFrame) (name : string) (values : list cell) : result DataFrame :=
  if negb (length values =? length (rows df))%nat then
    Raise (ValueError "Length of values does not match length of index")
  else
    match positions name (columns df) 0 with
    | [] =>
        Ok (mkDataFrame (index_name df) (columns df ++ [name])
              (zip_with (fun r v => mkRow (label r) (cells r ++ [v])) (rows df) values))
    | ps =>
        Ok (mkDataFrame (index_name df) (columns df)
              (zip_with (fun r v => foldr (fun i r' => set_cell i v r') r ps)
                 (rows df) values))
    end.

(** [df.take(indexer)] on rows. *)
Definition take (indexer : list nat) (rs : list Row) : list Row :=
  omap (fun i => rs !! i) indexer.

Definition timestamp (c : cell) : result Z :=
  match c with
  | CTime t => Ok t
  | _ => Raise TypeError
  end.

(** [df.sort_values(by)] on a [datetime64] column, default arguments. *)
Definition sort_values `{Library} (df : DataFrame) (by_ : string) : result DataFrame :=
  col ← getitem df by_ (ValueError "The column label is not unique.");
  keys ← result_mapM timestamp col;
  Ok (mkDataFrame (index_name df) (columns df) (take (argsort keys) (rows df))).

Definition range_index (rs : list Row) : list Row :=
  imap (fun i r => mkRow (CInt (Z.of_nat i)) (cells r)) rs.

(** [df.reset_index(drop=True)] *)
Definition reset_index_drop (df : DataFrame) : DataFrame :=
  mkDataFrame None (columns df) (range_index (rows df)).

(** [df.reset_index()] for an index named [name]: the index becomes the
    first column. *)
Definition reset_index (df : DataFrame) (name : string) : DataFrame :=
  mkDataFrame None (name :: columns df)
    (imap (fun i r => mkRow (CInt (Z.of_nat i)) (label r :: cells r)) (rows df)).

(** [pd.isna] on one value. *)
Definition isna (c : cell) : bool :=
  match c with
  | CNull => true
  | CNum f => F64.isnan f
  | _ => false
  end.

(** [df.dropna(subset=[name])] *)
Definition dropna (df : DataFrame) (name : string) : result DataFrame :=
  match positions name (columns df) 0 with
  | [] => Raise (KeyError name)
  | ps =>
      Ok (mkDataFrame (index_name df) (columns df)
            (List.filter (fun r => forallb (fun i => negb (isna (cell_at i r))) ps)
               (rows df)))
  end.

(** One value under [astype(float)]. *)
Definition to_float `{Library} (c : cell) : result float :=
  match c with
  | CNull => Ok F64.nan
  | CInt z => Ok (F64.of_Z z)
  | CNum f => Ok f
  | CStr s =>
      match float_of_str s with
      | Some f => Ok f
      | None => Raise (ValueError ("could not convert string to float: " +:+ s))
      end
  | CTime _ => Raise TypeError
  end.

(** [series.astype(float)] *)
Definition astype_float `{Library} (col : list cell) : result (list float) :=
  result_mapM to_float col.

(** One value as seen by a numeric reduction ([mean], [std]). *)
Definition to_num (c : cell) : result float :=
  match c with
  | CNull => Ok F64.nan
  | CInt z => Ok (F64.of_Z z)
  | CNum f => Ok f
  | CStr _ | CTime _ => Raise TypeError
  end.

Definition numeric (col : list cell) : result (list float) :=
  result_mapM to_num col.

(** [pd.to_datetime(series)]: a [datetime64] column is returned as it is. *)
Definition to_datetime `{Library} (col : list cell) : result (list Z) :=
  match result_mapM timestamp col with
  | Ok ts => Ok ts
  | Raise _ => to_datetime_object col
  end.

Definition NANOS_PER_DAY : Z := 86400000000000.

(** [datetime.toordinal] of a timestamp: the proleptic Gregorian day
    number of its date (1970-01-01 is day 719163). *)
Definition toordinal (t : Z) : Z := t / NANOS_PER_DAY + 719163.

(** [pd.DataFrame(data)] for a list of records: the columns are the keys
    in order of first appearance, a key a record lacks reads NaN. *)
Fixpoint keys_union (seen : list string) (data : list record) : list string :=
  match data with
  | [] => seen
  | r :: data' =>
      keys_union
        (foldl (fun acc k => if existsb (String.eqb k) acc then acc else acc ++ [k])
           seen (fst <$> r))
        data'
  end.

Fixpoint record_get (r : record) (k : string) : cell :=
  match r with
  | [] => CNum F64.nan
  | (k', v) :: r' => if String.eqb k' k then v else record_get r' k
  end.

Definition of_records (data : list record) : DataFrame :=
  let cols := keys_union [] data in
  mkDataFrame None cols
    (imap (fun i r => mkRow (CInt (Z.of_nat i)) (record_get r <$> cols)) data).

(** [df.rename(columns=column_map)] with the map given as a function. *)
Definition rename (column_map : string -> option string) (df : DataFrame) : DataFrame :=
  mkDataFrame (index_name df)
    ((fun c => default c (column_map c)) <$> columns df) (rows df).

End Frame.

(** ** The heap of frames and the monad of the stateful code *)

Definition loc := positive.
Definition heap := gmap loc DataFrame.

Definition M (A : Type) : Type := heap -> heap * result A.

#[global] Instance M_ret : MRet M := fun A a h => (h, Ok a).
#[global] Instance M_bind : MBind M := fun A B k m h =>
  match m h with
  | (h', Ok a) => k a h'
  | (h', Raise e) => (h', Raise e)
  end.

Module Heap.

(** A pure step that may raise. *)
Definition lift {A} (r : result A) : M A := fun h => (h, r).

Definition raise {A} (e : exn) : M A := lift (Raise e).

(** Bind a new object. *)
Definition new (df : DataFrame) : M loc := fun h =>
  let l := fresh (dom h) in (<[l := df]> h, Ok l).

(** Read the object a reference points to. *)
Definition get (l : loc) : M DataFrame := fun h =>
  match h !! l with
  | Some df => (h, Ok df)
  | None => (h, Raise DanglingReference)
  end.

(** Mutate the object a reference points to. *)
Definition put (l : loc) (df : DataFrame) : M unit := fun h =>
  match h !! l with
  | Some _ => (<[l := df]> h, Ok tt)
  | None => (h, Raise DanglingReference)
  end.

End Heap.

(** [wp m h Q]: started in heap [h], the computation [m] ends in a heap
    and with a result that satisfy [Q]. *)
Definition wp {A} (m : M A) (h : heap) (Q : heap -> result A -> Prop) : Prop :=
  Q (m h).1 (m h).2.

(** ** pandas: frames as objects *)

Module DF.

Import Heap.

(** [df.copy()] *)
Definition copy (df : loc) : M loc :=
  d ← get df; new d.

(** [df[name]] *)
Definition getitem (df : loc) (name : string) (dup : exn) : M (list cell) :=
  d ← get df; lift (Frame.getitem d name dup).

(** [df[name] = values], in place. *)
Definition setitem (df : loc) (name : string) (values : list cell) : M unit :=
  d ← get df; d' ← lift (Frame.setitem d name values); put df d'.

(** [df.sort_values(by)], a new object. *)
Definition sort_values `{Library} (df : loc) (by_ : string) : M loc :=
  d ← get df; d' ← lift (Frame.sort_values d by_); new d'.

(** [df.reset_index(drop=True)], a new object. *)
Definition reset_index_drop (df : loc) : M loc :=
  d ← get df; new (Frame.reset_index_drop d).

(** [df.reset_index()], a new object. *)
Definition reset_index (df : loc) (name : string) : M loc :=
  d ← get df; new (Frame.reset_index d name).

(** [df.dropna(subset=[name])], a new object. *)
Definition dropna (df : loc) (name : string) : M loc :=
  d ← get df; d' ← lift (Frame.dropna d name); new d'.

(** [df.rename(columns=column_map, inplace=True)] *)
Definition rename_inplace (df : loc) (column_map : string -> option string) : M unit :=
  d ← get df; put df (Frame.rename column_map d).

End DF.

(** ** [normalize_history_payload] *)

(** The [column_map] entry the loop makes for one header, if any. *)
Definition column_alias (original : string) : option string :=
  let normalized := Str.lower (Str.strip original) in
  if String.eqb normalized "date" then Some "Date"
  else if String.eqb normalized "open" then Some "Open"
  else if String.eqb normalized "high" || String.eqb normalized "high_price" then Some "High"
  else if String.eqb normalized "low" || String.eqb normalized "low_price" then Some "Low"
  else if String.eqb normalized "close" then Some "Close"
  else if String.eqb normalized "volume" || String.eqb normalized "vol" then Some "Volume"
  else None.

Definition EMPTY_PAYLOAD : exn := ValueError "Historical payload is empty.".
Definition MISSING_REQUIRED_FIELDS : exn :=
  ValueError "Historical payload must include at least 'date' and 'close' fields.".
Definition NOT_UNIQUE : exn := ValueError "The column label is not unique.".

Definition normalize_history_payload `{Library} (data : list record) : M loc :=
  df ← Heap.new (Frame.of_records data);
  d ← Heap.get df;
  if Frame.empty d then Heap.raise EMPTY_PAYLOAD
  else
    DF.rename_inplace df column_alias;;
    d ← Heap.get df;
    if negb (Frame.has_column d "Date") || negb (Frame.has_column d "Close")
    then Heap.raise MISSING_REQUIRED_FIELDS
    else
      date_col ← DF.getitem df "Date" NOT_UNIQUE;
      dates ← Heap.lift (Frame.to_datetime date_col);
      DF.setitem df "Date" (CTime <$> dates);;
      sorted ← DF.sort_values df "Date";
      DF.reset_index_drop sorted.

(** ** [generate_insights_from_history] *)

Record Report := mkReport {
  symbol : string;
  date_range_start : Z;  (** the date of the first row, as its ordinal *)
  date_range_end : Z;    (** the date of the last row, as its ordinal *)
  latest_close : float;
  percent_change : float;
  trend_direction : string;
  volatility_profile : string;
  volatility : float;
  average_daily_return : float;
  average_volume : option Z;
  moving_average_20 : float;
  momentum_slope : float;
  recommendation : string;
}.

Definition MISSING_DATE_COLUMN : exn :=
  ValueError "Historical data must contain a 'Date' column.".

(** [s.iloc[0]] and [s.iloc[-1]] *)
Definition iloc_first {A} (xs : list A) : result A :=
  match head xs with Some x => Ok x | None => Raise IndexError end.
Definition iloc_last {A} (xs : list A) : result A :=
  match last xs with Some x => Ok x | None => Raise IndexError end.

(** [((latest_close - first_close) / first_close * 100) if first_close else 0.0] *)
Definition percent_change_of (first_close latest_close : float) : result float :=
  if F64.truthy first_close then
    q ← F64.py_div (F64.sub latest_close first_close) first_close;
    Ok (F64.mul q (F64.of_Z 100))
  else Ok F64.zero.

Definition trend_of (slope_value : float) : string :=
  if F64.gtb slope_value TREND_SLOPE_THRESHOLD then "upward"
  else if F64.ltb slope_value (SFopp TREND_SLOPE_THRESHOLD) then "downward"
  else "flat".

Definition recommendation_of (trend : string) (avg_return : float) : string :=
  if String.eqb trend "upward" && F64.geb avg_return (F64.of_Z 0)
  then "Bullish momentum; consider accumulation with risk controls."
  else if String.eqb trend "downward" && F64.leb avg_return (F64.of_Z 0)
  then "Bearish momentum; prefer defensive posture."
  else "Neutral momentum; continue observing.".

Definition volatility_profile_of (vol : float) : string :=
  if F64.gtb vol (F64.lit 3 100) then "high"
  else if F64.gtb vol (F64.lit 15 1000) then "moderate"
  else "low".

Definition generate_insights_from_history `{Library} (sym : string) (df : loc) : M Report :=
  df_augmented ← DF.copy df;
  d ← Heap.get df_augmented;
  df_augmented ←
    (if negb (Frame.has_column d "Date") then
       match index_name d with
       | Some name =>
           if String.eqb name "Date" then DF.reset_index df_augmented name
           else Heap.raise MISSING_DATE_COLUMN
       | None => Heap.raise MISSING_DATE_COLUMN
       end
     else mret df_augmented);
  date_col ← DF.getitem df_augmented "Date" NOT_UNIQUE;
  dates ← Heap.lift (Frame.to_datetime date_col);
  DF.setitem df_augmented "Date" (CTime <$> dates);;
  df_augmented ← DF.sort_values df_augmented "Date";

  close_col ← DF.getitem df_augmented "Close" NOT_UNIQUE;
  close ← Heap.lift (Frame.astype_float close_col);
  DF.setitem df_augmented "daily_return" (CNum <$> Series.pct_change close);;

  let avg_return := F64.or_else (Series.mean (Series.pct_change close)) F64.zero in
  daily_return_col ← DF.getitem df_augmented "daily_return" NOT_UNIQUE;
  daily_return ← Heap.lift (Frame.numeric daily_return_col);
  let vol := F64.or_else (Series.std daily_return) F64.zero in

  latest ← Heap.lift (iloc_last close);
  close0 ← Heap.lift (iloc_first close);
  let first_close := if negb (F64.isnan close0) then close0 else latest in
  pct ← Heap.lift (percent_change_of first_close latest);

  valid_data ← DF.dropna df_augmented "Close";
  valid ← Heap.get valid_data;
  '(slope_value, trend) ←
    (if (2 <=? length (rows valid))%nat then
       valid_dates ← DF.getitem valid_data "Date" NOT_UNIQUE;
       stamps ← Heap.lift (result_mapM Frame.timestamp valid_dates);
       let x_values := (fun t => F64.of_Z (Frame.toordinal t)) <$> stamps in
       valid_close ← DF.getitem valid_data "Close" NOT_UNIQUE;
       y_values ← Heap.lift (Frame.astype_float valid_close);
       slope ← Heap.lift (polyfit_slope x_values y_values);
       mret (slope, trend_of slope)
     else mret (F64.zero, "flat"%string));

  avg_volume ←
    (if Frame.has_column valid "Volume" then
       volume_col ← DF.getitem valid_data "Volume" TypeError;
       volume ← Heap.lift (Frame.numeric volume_col);
       v ← Heap.lift (F64.to_int (Series.mean volume));
       mret (Some v)
     else mret None);
  let moving_average := Series.mean (Series.tail 20 close) in

  sorted_dates ← DF.getitem df_augmented "Date" NOT_UNIQUE;
  stamps ← Heap.lift (result_mapM Frame.timestamp sorted_dates);
  start_date ← Heap.lift (iloc_first stamps);
  end_date ← Heap.lift (iloc_last stamps);
  mret {|
    symbol := sym;
    date_range_start := Frame.toordinal start_date;
    date_range_end := Frame.toordinal end_date;
    latest_close := latest;
    percent_change := F64.round pct 2;
    trend_direction := trend;
    volatility_profile := volatility_profile_of vol;
    volatility := F64.round vol 4;
    average_daily_return := F64.round avg_return 4;
    average_volume := avg_volume;
    moving_average_20 := F64.round moving_average 4;
    momentum_slope := F64.round slope_value 6;
    recommendation := recommendation_of trend avg_return;
  |}.

(** ** numpy's index sort

    [numpy.argsort(kind="quicksort")] on 64-bit keys, after
    [npysort/quicksort.cpp] and [npysort/heapsort.cpp]: an introsort made
    of a median-of-three quicksort, an insertion sort for ranges of at
    most 17 elements and a heapsort once the depth budget is used up.
    The C code keeps the pending ranges on an explicit stack; the ranges
    are disjoint, so the model sorts them by recursion. *)

Module Numpy.

Definition SMALL_QUICKSORT : nat := 16.

Section Keys.
Variable v : list Z.

(** [v[tosort[i]]] *)
Definition key (tosort : list nat) (i : nat) : Z :=
  default 0 (v !! default 0%nat (tosort !! i)).

Definition less (a b : Z) : bool := a <? b.

(** [INTP_SWAP(tosort[i], tosort[j])] *)
Definition swap (tosort : list nat) (i j : nat) : list nat :=
  let a := default 0%nat (tosort !! i) in
  let b := default 0%nat (tosort !! j) in
  <[j := a]> (<[i := b]> tosort).

Definition swap_if (c : bool) (tosort : list nat) (i j : nat) : list nat :=
  if c then swap tosort i j else tosort.

(** [do ++pi; while (less(v[*pi], vp));] *)
Fixpoint scan_up (fuel : nat) (tosort : list nat) (vp : Z) (pi : nat) : nat :=
  match fuel with
  | O => pi
  | S fuel' =>
      let pi := S pi in
      if less (key tosort pi) vp then scan_up fuel' tosort vp pi else pi
  end.

(** [do --pj; while (less(vp, v[*pj]));] *)
Fixpoint scan_down (fuel : nat) (tosort : list nat) (vp : Z) (pj : nat) : nat :=
  match fuel with
  | O => pj
  | S fuel' =>
      let pj := pred pj in
      if less vp (key tosort pj) then scan_down fuel' tosort vp pj else pj
  end.

(** The [for (;;)] loop of the partition; returns the array and [pi]. *)
Fixpoint partition_loop (fuel : nat) (tosort : list nat) (vp : Z) (pi pj : nat)
    : list nat * nat :=
  match fuel with
  | O => (tosort, pi)
  | S fuel' =>
      let pi := scan_up (length tosort) tosort vp pi in
      let pj := scan_down (length tosort) tosort vp pj in
      if (pj <=? pi)%nat then (tosort, pi)
      else partition_loop fuel' (swap tosort pi pj) vp pi pj
  end.

(** One quicksort partition of [tosort[pl..pr]]; returns the array and
    the final place [pi] of the pivot. *)
Definition partition (tosort : list nat) (pl pr : nat) : list nat * nat :=
  let pm := (pl + (pr - pl) / 2)%nat in
  let tosort := swap_if (less (key tosort pm) (key tosort pl)) tosort pm pl in
  let tosort := swap_if (less (key tosort pr) (key tosort pm)) tosort pr pm in
  let tosort := swap_if (less (key tosort pm) (key tosort pl)) tosort pm pl in
  let vp := key tosort pm in
  let pj := (pr - 1)%nat in
  let tosort := swap tosort pm pj in
  let '(tosort, pi) := partition_loop (length tosort) tosort vp pl pj in
  (swap tosort pi (pr - 1)%nat, pi).

(** The [while (pj > pl && less(vp, v[*pk]))] loop of the insertion
    sort: shift the larger entries up and drop [vi] in the gap. *)
Fixpoint insert_down (fuel : nat) (tosort : list nat) (vi : nat) (vp : Z) (pl pj : nat)
    : list nat :=
  match fuel with
  | O => <[pj := vi]> tosort
  | S fuel' =>
      if (pl <? pj)%nat && less vp (key tosort (pj - 1)%nat)
      then insert_down fuel' (<[pj := default 0%nat (tosort !! (pj - 1)%nat)]> tosort)
             vi vp pl (pj - 1)%nat
      else <[pj := vi]> tosort
  end.

(** Insertion sort of [tosort[pl..pr]]. *)
Definition insertion_sort (tosort : list nat) (pl pr : nat) : list nat :=
  foldl (fun ts pi =>
           let vi := default 0%nat (ts !! pi) in
           insert_down (length ts) ts vi (default 0 (v !! vi)) pl pi)
    tosort (seq (S pl) (pr - pl)).

(** Heapsort of [tosort[pl..pr]]; [a[k]] is [tosort[pl + k - 1]]. *)
Definition heap_at (tosort : list nat) (pl k : nat) : nat :=
  default 0%nat (tosort !! (pl + k - 1)%nat).

Fixpoint sift (fuel : nat) (tosort : list nat) (pl tmp i j n : nat) : list nat :=
  match fuel with
  | O => <[(pl + i - 1)%nat := tmp]> tosort
  | S fuel' =>
      if (j <=? n)%nat then
        let j := if (j <? n)%nat
                    && less (default 0 (v !! heap_at tosort pl j))
                            (default 0 (v !! heap_at tosort pl (S j)))
                 then S j else j in
        if less (default 0 (v !! tmp)) (default 0 (v !! heap_at tosort pl j))
        then sift fuel' (<[(pl + i - 1)%nat := heap_at tosort pl j]> tosort)
               pl tmp j (j + j)%nat n
        else <[(pl + i - 1)%nat := tmp]> tosort
      else <[(pl + i - 1)%nat := tmp]> tosort
  end.

Definition heapsort (tosort : list nat) (pl pr : nat) : list nat :=
  let n := (pr - pl + 1)%nat in
  let built :=
    foldl (fun ts l => sift n ts pl (heap_at ts pl l) l (2 * l)%nat n)
      tosort (reverse (seq 1 (n / 2))) in
  foldl (fun ts m =>
           let tmp := heap_at ts pl m in
           let ts := <[(pl + m - 1)%nat := heap_at ts pl 1]> ts in
           sift n ts pl tmp 1 2 (m - 1)%nat)
    built (reverse (seq 2 (n - 1))).

(** The introsort on [tosort[pl..pr]] with depth budget [cdepth]; the
    budget is examined ([check]) when a range is taken off the stack,
    not while the loop goes on with the smaller half. *)
Fixpoint introsort (fuel : nat) (tosort : list nat) (pl pr : nat) (cdepth : Z)
    (check : bool) : list nat :=
  match fuel with
  | O => tosort
  | S fuel' =>
      if check && (cdepth <? 0) then heapsort tosort pl pr
      else if (SMALL_QUICKSORT <? pr - pl)%nat then
        let '(tosort, pi) := partition tosort pl pr in
        let cdepth := cdepth - 1 in
        if (pi - pl <? pr - pi)%nat then
          let tosort := introsort fuel' tosort pl (pi - 1)%nat cdepth false in
          introsort fuel' tosort (S pi) pr cdepth true
        else
          let tosort := introsort fuel' tosort (S pi) pr cdepth false in
          introsort fuel' tosort pl (pi - 1)%nat cdepth true
      else insertion_sort tosort pl pr
  end.

End Keys.

(** [np.argsort(v, kind="quicksort")] *)
Definition argsort_quicksort (v : list Z) : list nat :=
  let num := length v in
  introsort v (S num) (seq 0 num) 0 (num - 1)%nat (Z.log2 (Z.of_nat num) * 2) true.

End Numpy.

(** ** The value computed by [generate_insights_from_history]

    The same statements read on frame values: what the call returns as a
    function of the frame its argument points to. [run_generate_insights]
    below shows that the stateful function computes exactly this. *)

Definition with_date_column (d : DataFrame) : result DataFrame :=
  if negb (Frame.has_column d "Date") then
    match index_name d with
    | Some name =>
        if String.eqb name "Date" then Ok (Frame.reset_index d name)
        else Raise MISSING_DATE_COLUMN
    | None => Raise MISSING_DATE_COLUMN
    end
  else Ok d.

(** Lines 138-146: the internal copy with its dates coerced, sorted. *)
Definition sorted_by_date `{Library} (d : DataFrame) : result DataFrame :=
  d ← with_date_column d;
  date_col ← Frame.getitem d "Date" NOT_UNIQUE;
  dates ← Frame.to_datetime date_col;
  d ← Frame.setitem d "Date" (CTime <$> dates);
  Frame.sort_values d "Date".

(** Line 148: [close]. *)
Definition close_of `{Library} (sorted : DataFrame) : result (list float) :=
  close_col ← Frame.getitem sorted "Close" NOT_UNIQUE;
  Frame.astype_float close_col.

(** Lines 158-168: the slope and the trend over the valid rows. *)
Definition slope_and_trend `{Library} (valid : DataFrame) : result (float * string) :=
  if (2 <=? length (rows valid))%nat then
    valid_dates ← Frame.getitem valid "Date" NOT_UNIQUE;
    stamps ← result_mapM Frame.timestamp valid_dates;
    let x_values := (fun t => F64.of_Z (Frame.toordinal t)) <$> stamps in
    valid_close ← Frame.getitem valid "Close" NOT_UNIQUE;
    y_values ← Frame.astype_float valid_close;
    slope ← polyfit_slope x_values y_values;
    Ok (slope, trend_of slope)
  else Ok (F64.zero, "flat"%string).

(** Line 170: [avg_volume]. *)
Definition average_volume_of (valid : DataFrame) : result (option Z) :=
  if Frame.has_column valid "Volume" then
    volume_col ← Frame.getitem valid "Volume" TypeError;
    volume ← Frame.numeric volume_col;
    v ← F64.to_int (Series.mean volume);
    Ok (Some v)
  else Ok None.

Definition insights_of `{Library} (sym : string) (d : DataFrame) : result Report :=
  sorted ← sorted_by_date d;
  close ← close_of sorted;
  augmented ← Frame.setitem sorted "daily_return" (CNum <$> Series.pct_change close);
  let avg_return := F64.or_else (Series.mean (Series.pct_change close)) F64.zero in
  daily_return_col ← Frame.getitem augmented "daily_return" NOT_UNIQUE;
  daily_return ← Frame.numeric daily_return_col;
  let vol := F64.or_else (Series.std daily_return) F64.zero in
  latest ← iloc_last close;
  close0 ← iloc_first close;
  let first_close := if negb (F64.isnan close0) then close0 else latest in
  pct ← percent_change_of first_close latest;
  valid ← Frame.dropna augmented "Close";
  '(slope_value, trend) ← slope_and_trend valid;
  avg_volume ← average_volume_of valid;
  let moving_average := Series.mean (Series.tail 20 close) in
  sorted_dates ← Frame.getitem augmented "Date" NOT_UNIQUE;
  stamps ← result_mapM Frame.timestamp sorted_dates;
  start_date ← iloc_first stamps;
  end_date ← iloc_last stamps;
  Ok {|
    symbol := sym;
    date_range_start := Frame.toordinal start_date;
    date_range_end := Frame.toordinal end_date;
    latest_close := latest;
    percent_change := F64.round pct 2;
    trend_direction := trend;
    volatility_profile := volatility_profile_of vol;
    volatility := F64.round vol 4;
    average_daily_return := F64.round avg_return 4;
    average_volume := avg_volume;
    moving_average_20 := F64.round moving_average 4;
    momentum_slope := F64.round slope_value 6;
    recommendation := recommendation_of trend avg_return;
  |}.

(** ** The value computed by [normalize_history_payload] *)

(** Lines 90-114: the frame with its headers renamed and its dates parsed. *)
Definition parsed_payload `{Library} (data : list record) : result DataFrame :=
  let d := Frame.of_records data in
  if Frame.empty d then Raise EMPTY_PAYLOAD
  else
    let d := Frame.rename column_alias d in
    if negb (Frame.has_column d "Date") || negb (Frame.has_column d "Close")
    then Raise MISSING_REQUIRED_FIELDS
    else
      date_col ← Frame.getitem d "Date" NOT_UNIQUE;
      dates ← Frame.to_datetime date_col;
      Frame.setitem d "Date" (CTime <$> dates).

(** Lines 115-116. *)
Definition normalized_payload `{Library} (data : list record) : result DataFrame :=
  d ← parsed_payload data;
  sorted ← Frame.sort_values d "Date";
  Ok (Frame.reset_index_drop sorted).

(** ** Vocabulary of the statements *)

#[global] Instance spec_float_eq_dec : EqDecision spec_float.
Proof. solve_decision. Defined.
#[global] Instance cell_eq_dec : EqDecision cell.
Proof. solve_decision. Defined.


(** The timestamps of the [Date] column. *)
Definition dates_of (d : DataFrame) : result (list Z) :=
  col ← Frame.getitem d "Date" NOT_UNIQUE;
  result_mapM Frame.timestamp col.

(** What [sort_values] needs from numpy on one call: the indexer is a
    permutation of the positions and lists the keys in ascending order. *)
Definition sorting_permutation (indexer : list nat) (keys : list Z) : Prop :=
  indexer ≡ₚ seq 0 (length keys)
  /\ Sorted Z.le ((fun i => default 0 (keys !! i)) <$> indexer).

(** The rows of a frame dated [t], in the order the frame lists them. *)
Definition date_cell (d : DataFrame) (r : Row) : cell :=
  match Frame.positions "Date" (columns d) 0 with
  | i :: _ => Frame.cell_at i r
  | [] => CNull
  end.
Definition tied_rows (t : Z) (d : DataFrame) : list (list cell) :=
  cells <$> filter (fun r => date_cell d r = CTime t) (rows d).

(** A stable sort: rows with equal dates keep their relative order. *)
Definition keeps_tie_order (input output : DataFrame) : Prop :=
  forall t, tied_rows t output = tied_rows t input.

(** A price series with [Date] and [Close] columns. *)
Definition price_frame (points : list (Z * float)) : DataFrame :=
  mkDataFrame None ["Date"; "Close"]
    (imap (fun i p => mkRow (CInt (Z.of_nat i)) [CTime p.1; CNum p.2]) points).

(** A price series with [Date], [Close] and [Volume] columns. *)
Definition price_volume_frame (points : list (Z * float * float)) : DataFrame :=
  mkDataFrame None ["Date"; "Close"; "Volume"]
    (imap (fun i p => mkRow (CInt (Z.of_nat i)) [CTime p.1.1; CNum p.1.2; CNum p.2]) points).

(** A row that starts with a timestamp and a number, followed by [k]
    cells. *)
Definition price_row (k : nat) (r : Row) : Prop :=
  exists t c rest, cells r = CTime t :: CNum c :: rest /\ length rest = k.

(** ** A reference library

    One concrete choice for every routine of [Library], used to run the
    functions on examples: the calendar-date ISO parser, numpy's
    introsort, and the least-squares slope by the normal equations,
    evaluated in binary64 ([np.polyfit] solves the same problem through
    [numpy.linalg.lstsq]; its last bits can differ from this form). *)

Module Reference.

(** 2025-01-01T00:00:00 *)
Definition now : datetime :=
  Datetime.mk ((Datetime.ymd2ord 2025 1 1 - 1) * Datetime.MICROS_PER_DAY) None.

Definition timestamp_of_string (s : string) : result Z :=
  match Datetime.fromisoformat_date s with
  | Some dt =>
      Ok ((Datetime.wall dt / Datetime.MICROS_PER_DAY + 1 - 719163) * Frame.NANOS_PER_DAY)
  | None => Raise (ValueError ("Unknown datetime string format: " +:+ s))
  end.

Definition parse_column (col : list cell) : result (list Z) :=
  result_mapM (fun c => match c with
                        | CStr s => timestamp_of_string s
                        | CTime t => Ok t
                        | _ => Raise TypeError
                        end) col.

Definition parse_float (s : string) : option float :=
  match list_ascii_of_string s with
  | [] => None
  | cs => F64.of_Z <$> Datetime.digits 0 cs
  end.

Definition normal_equations_slope (x y : list float) : result float :=
  let n := F64.of_Z (Z.of_nat (length x)) in
  let sx := Series.sum x in
  let sy := Series.sum y in
  let sxy := Series.sum (zip_with F64.mul x y) in
  let sxx := Series.sum (zip_with F64.mul x x) in
  Ok (F64.div (F64.sub (F64.mul n sxy) (F64.mul sx sy))
              (F64.sub (F64.mul n sxx) (F64.mul sx sx))).

#[global] Instance library : Library := {|
  fromisoformat := Datetime.fromisoformat_date;
  utcnow := now;
  to_datetime_object := parse_column;
  float_of_str := parse_float;
  argsort := Numpy.argsort_quicksort;
  polyfit_slope := normal_equations_slope;
  pct_change_pad := true;
|}.

(** 2024-01-02 and 2024-01-03 as timestamps. *)
Definition day1 : Z := (Datetime.ymd2ord 2024 1 2 - 719163) * Frame.NANOS_PER_DAY.
Definition day2 : Z := day1 + Frame.NANOS_PER_DAY.

(** Eighteen records that share one date. *)
Definition ties_payload : list record :=
  (fun i => [("date"%string, CStr "2024-01-02"); ("close"%string, CInt i)]) <$> seqZ 0 18.

End Reference.

(** ** More of Python: JSON values, attribute errors, calendar dates *)

(** A value decoded from JSON. Objects keep their keys in order and hold
    each key once. *)
#[warning="-register-all"] Inductive json :=
  | JNull
  | JBool (b : bool)
  | JInt (z : Z)
  | JNum (f : float)
  | JStr (s : string)
  | JArr (items : list json)
  | JObj (fields : list (string * json)).

(** What ends a call that does not return: one of the exceptions of
    [exn], or an [AttributeError] for the attribute that is missing. *)
Inductive failure :=
  | Raised (e : exn)
  | AttributeError (attr : string).

Inductive outcome (A : Type) :=
  | Done (a : A)
  | Failed (f : failure).
Arguments Done {A} a.
Arguments Failed {A} f.

#[global] Instance outcome_ret : MRet outcome := fun A a => Done a.
#[global] Instance outcome_bind : MBind outcome := fun A B k r =>
  match r with
  | Done a => k a
  | Failed f => Failed f
  end.

Definition of_result {A} (r : result A) : outcome A :=
  match r with
  | Ok a => Done a
  | Raise e => Failed (Raised e)
  end.

Fixpoint outcome_mapM {A B} (f : A -> outcome B) (l : list A) : outcome (list B) :=
  match l with
  | [] => Done []
  | x :: l' => y ← f x; ys ← outcome_mapM f l'; Done (y :: ys)
  end.

Module Json.

(** [bool(v)] *)
Definition truthy (v : json) : bool :=
  match v with
  | JNull => false
  | JBool b => b
  | JInt z => negb (z =? 0)
  | JNum f => F64.truthy f
  | JStr s => Str.truthy s
  | JArr items => match items with [] => false | _ => true end
  | JObj fields => match fields with [] => false | _ => true end
  end.

(** [d.get(key)] *)
Fixpoint get (d : list (string * json)) (key : string) : json :=
  match d with
  | [] => JNull
  | (k, v) :: d' => if String.eqb k key then v else get d' key
  end.

(** [x or y] *)
Definition or_else (x y : json) : json := if truthy x then x else y.

Fixpoint chars (s : string) : list json :=
  match s with
  | EmptyString => []
  | String c s' => JStr (String c EmptyString) :: chars s'
  end.

(** The items a [for] loop draws from a value: the elements of a list,
    the keys of a dict, the characters of a string; other values are not
    iterable. *)
Definition iterate (v : json) : outcome (list json) :=
  match v with
  | JArr items => Done items
  | JObj fields => Done (JStr <$> fields.*1)
  | JStr s => Done (chars s)
  | _ => Failed (Raised TypeError)
  end.

End Json.

Module Calendar.

Definition DI400Y : Z := 146097.
Definition DI100Y : Z := 36524.
Definition DI4Y : Z := 1461.

(** The year, month and day of a day number of the proleptic Gregorian
    calendar, computed as [datetime._ord2ymd] does. *)
Definition ord2ymd (ordinal : Z) : Z * Z * Z :=
  let n := ordinal - 1 in
  let n400 := n / DI400Y in
  let n := n mod DI400Y in
  let year := n400 * 400 + 1 in
  let n100 := n / DI100Y in
  let n := n mod DI100Y in
  let n4 := n / DI4Y in
  let n := n mod DI4Y in
  let n1 := n / 365 in
  let n := n mod 365 in
  let year := year + n100 * 100 + n4 * 4 + n1 in
  if (n1 =? 4) || (n100 =? 4) then (year - 1, 12, 31)
  else
    let leapyear := (n1 =? 3) && (negb (n4 =? 24) || (n100 =? 3)) in
    let month := Z.shiftr (n + 50) 5 in
    let preceding :=
      nth (Z.to_nat (month - 1)) [0; 31; 59; 90; 120; 151; 181; 212; 243; 273; 304; 334] 0
      + (if (2 <? month) && leapyear then 1 else 0) in
    if n <? preceding then
      let month := month - 1 in
      let preceding :=
        preceding
        - (nth (Z.to_nat (month - 1)) [31; 28; 31; 30; 31; 30; 31; 31; 30; 31; 30; 31] 0
           + (if (month =? 2) && leapyear then 1 else 0)) in
      (year, month, n - preceding + 1)
    else (year, month, n - preceding + 1).

(** The last lines of [_ord2ymd] on their own: the month and the day of
    the day numbered [n] (from 0) of a year. *)
Definition month_day (leapyear : bool) (n : Z) : Z * Z :=
  let month := Z.shiftr (n + 50) 5 in
  let preceding :=
    nth (Z.to_nat (month - 1)) [0; 31; 59; 90; 120; 151; 181; 212; 243; 273; 304; 334] 0
    + (if (2 <? month) && leapyear then 1 else 0) in
  if n <? preceding then
    let month := month - 1 in
    let preceding :=
      preceding
      - (nth (Z.to_nat (month - 1)) [31; 28; 31; 30; 31; 30; 31; 31; 30; 31; 30; 31] 0
         + (if (month =? 2) && leapyear then 1 else 0)) in
    (month, n - preceding + 1)
  else (month, n - preceding + 1).

(** A month and a day that exist in a year, [leapyear] or not, and the
    number (from 1) of that day in the year. *)
Definition valid_month_day (leapyear : bool) (md : Z * Z) : Prop :=
  1 <= md.1 <= 12
  /\ 1 <= md.2 <= (if md.1 =? 2 then (if leapyear then 29 else 28)
                   else if (md.1 =? 4) || (md.1 =? 6) || (md.1 =? 9) || (md.1 =? 11)
                        then 30 else 31).
Definition day_of_year (leapyear : bool) (md : Z * Z) : Z :=
  nth (Z.to_nat (md.1 - 1)) [0; 31; 59; 90; 120; 151; 181; 212; 243; 273; 304; 334] 0
  + (if (2 <? md.1) && leapyear then 1 else 0) + md.2.

Definition digit_char (d : Z) : ascii := ascii_of_nat (Z.to_nat (48 + d mod 10)).

(** [z] in decimal on [width] digits, padded with zeros. *)
Fixpoint zero_padded (width : nat) (z : Z) : string :=
  match width with
  | O => EmptyString
  | S w => zero_padded w (z / 10) +:+ String (digit_char z) EmptyString
  end.

(** ["%04d-%02d-%02d"] *)
Definition format_ymd (ymd : Z * Z * Z) : string :=
  let '(y, m, d) := ymd in
  zero_padded 4 y +:+ "-" +:+ zero_padded 2 m +:+ "-" +:+ zero_padded 2 d.

(** [ts.strftime("%Y-%m-%d")] for a timestamp: its calendar date, the
    year on four digits (the years of [datetime64[ns]] are 1677 to
    2262). *)
Definition strftime_ymd (t : Z) : string := format_ymd (ord2ymd (Frame.toordinal t)).

(** The timestamps of [datetime64[ns]]: a signed 64-bit count of
    nanoseconds, the smallest value standing for NaT. *)
Definition in_timestamp_range (t : Z) : bool :=
  (- 2 ^ 63 <? t) && (t <? 2 ^ 63).

(** [dt + delta] *)
Definition add_delta (dt : datetime) (delta : Z) : result datetime :=
  Datetime.sub_delta dt (- delta).

Definition MICROS_PER_SECOND : Z := 1000000.

(** [datetime._format_offset] *)
Definition format_offset (off : option Z) : string :=
  match off with
  | None => EmptyString
  | Some off =>
      let sign := if off <? 0 then "-" else "+" in
      let off := Z.abs off in
      let hh := off / (3600 * MICROS_PER_SECOND) in
      let mm := off / (60 * MICROS_PER_SECOND) mod 60 in
      let ss := off / MICROS_PER_SECOND mod 60 in
      let us := off mod MICROS_PER_SECOND in
      sign +:+ zero_padded 2 hh +:+ ":" +:+ zero_padded 2 mm
      +:+ (if (ss =? 0) && (us =? 0) then EmptyString
           else ":" +:+ zero_padded 2 ss
                +:+ (if us =? 0 then EmptyString else "." +:+ zero_padded 6 us))
  end.

(** [dt.isoformat()] *)
Definition isoformat (dt : datetime) : string :=
  let w := Datetime.wall dt in
  let seconds := w mod Datetime.MICROS_PER_DAY / MICROS_PER_SECOND in
  let us := w mod MICROS_PER_SECOND in
  format_ymd (ord2ymd (w / Datetime.MICROS_PER_DAY + 1))
  +:+ "T" +:+ zero_padded 2 (seconds / 3600)
  +:+ ":" +:+ zero_padded 2 (seconds / 60 mod 60)
  +:+ ":" +:+ zero_padded 2 (seconds mod 60)
  +:+ (if us =? 0 then EmptyString else "." +:+ zero_padded 6 us)
  +:+ format_offset (Datetime.utcoffset dt).

End Calendar.

(** ** [extract_company_officers] *)

Record Officer := mkOfficer {
  officer_name : json;
  officer_title : json;
  officer_firm : json;
}.

(** Lines 123-132: one pass of the loop; [None] when nothing is appended. *)
Definition format_officer (officer : json) : outcome (option Officer) :=
  match officer with
  | JObj fields =>
      let name := Json.get fields "name" in
      let title := Json.get fields "title" in
      if Json.truthy name || Json.truthy title
      then Done (Some (mkOfficer name title (Json.get fields "firm")))
      else Done None
  | _ => Failed (AttributeError "get")
  end.

Definition extract_company_officers (company_info : list (string * json)) : outcome (list Officer) :=
  let officers := Json.or_else (Json.get company_info "companyOfficers") (JArr []) in
  items ← Json.iterate officers;
  formatted ← outcome_mapM format_officer items;
  Done (omap id (formatted : list (option Officer))).

(** An officer as the JSON object the response lists. *)
Definition officer_json (o : Officer) : json :=
  JObj [("name"%string, officer_name o); ("title"%string, officer_title o);
        ("firm"%string, officer_firm o)].

Definition named (o : Officer) : bool :=
  Json.truthy (officer_name o) || Json.truthy (officer_title o).

Definition is_object (v : json) : bool :=
  match v with JObj _ => true | _ => false end.

(** ** [historical_records_from_dataframe] *)

Class Builtins := {
  (** [int(s)] on a string. *)
  int_of_str : string -> result Z;
}.

Record HistoricalRecord := mkHistoricalRecord {
  rec_date : string;
  rec_open : float;
  rec_high : float;
  rec_low : float;
  rec_close : float;
  rec_volume : Z;
}.

(** [getattr(row, name)] on a tuple of [df.itertuples(index=False)]: a
    label that columns share names the first of them. *)
Definition row_attr (cols : list string) (row : Row) (name : string) : outcome cell :=
  match Frame.positions name cols 0 with
  | i :: _ => Done (Frame.cell_at i row)
  | [] => Failed (AttributeError name)
  end.

(** [v.strftime("%Y-%m-%d")] *)
Definition strftime (v : cell) : outcome string :=
  match v with
  | CTime t => Done (Calendar.strftime_ymd t)
  | _ => Failed (AttributeError "strftime")
  end.

(** [float(z)] for a Python int raises when [z] is too large. *)
Definition float_of_int (z : Z) : outcome float :=
  match F64.of_Z z with
  | S754_infinity _ => Failed (Raised OverflowError)
  | f => Done f
  end.

(** [float(round(v, 4) if not pd.isna(v) else 0.0)] *)
Definition price_field (v : cell) : outcome float :=
  if Frame.isna v then Done F64.zero
  else
    match v with
    | CNum f => Done (F64.round f 4)
    | CInt z => float_of_int z
    | _ => Failed (Raised TypeError)
    end.

(** [int(v) if not pd.isna(v) else 0] *)
Definition volume_field `{Builtins} (v : cell) : outcome Z :=
  if Frame.isna v then Done 0
  else
    match v with
    | CNum f => of_result (F64.to_int f)
    | CInt z => Done z
    | CStr s => of_result (int_of_str s)
    | _ => Failed (Raised TypeError)
    end.

(** Lines 76-83: the record of one row. *)
Definition historical_record `{Builtins} (cols : list string) (row : Row) : outcome HistoricalRecord :=
  date ← row_attr cols row "Date" ≫= strftime;
  open ← row_attr cols row "Open" ≫= price_field;
  high ← row_attr cols row "High" ≫= price_field;
  low ← row_attr cols row "Low" ≫= price_field;
  close ← row_attr cols row "Close" ≫= price_field;
  volume ← row_attr cols row "Volume" ≫= volume_field;
  Done (mkHistoricalRecord date open high low close volume).

(** The records of a frame value. *)
Definition historical_records `{Builtins} (d : DataFrame) : outcome (list HistoricalRecord) :=
  outcome_mapM (historical_record (columns d)) (rows d).

(** ** Calls that can end in any failure *)

Definition Call (A : Type) : Type := heap -> heap * outcome A.

#[global] Instance Call_ret : MRet Call := fun A a h => (h, Done a).
#[global] Instance Call_bind : MBind Call := fun A B k m h =>
  match m h with
  | (h', Done a) => k a h'
  | (h', Failed f) => (h', Failed f)
  end.

Module Calls.

Definition lift {A} (r : outcome A) : Call A := fun h => (h, r).

Definition pure {A} (r : result A) : Call A := lift (of_result r).

Definition raise {A} (e : exn) : Call A := lift (Failed (Raised e)).

(** A step of the frame monad. *)
Definition run {A} (m : M A) : Call A := fun h =>
  let '(h', r) := m h in (h', of_result r).

End Calls.

Definition historical_records_from_dataframe `{Builtins} (df : loc) : Call (list HistoricalRecord) :=
  d ← Calls.run (Heap.get df);
  Calls.lift (historical_records d).

(** ** [download_historical_data] *)

Class Provider := {
  (** [yf.Ticker(symbol).history(start=..., end=..., interval=..., actions=False)] *)
  ticker_history : string -> datetime -> datetime -> string -> outcome DataFrame;
  (** [yf.Ticker(symbol).info] *)
  ticker_info : string -> outcome json;
}.

Definition DEFAULT_INTERVAL : string := "1d".

Definition NO_HISTORY : exn :=
  ValueError "No historical data found for the requested range and symbol.".

Definition PRICE_COLUMNS : list string := ["Open"; "High"; "Low"; "Close"; "Volume"].

(** [df.loc[:, names]]: every column that bears one of the labels, in
    the order of [names]. When some labels are borne by no column
    pandas raises a [KeyError] that lists them; the model keeps the
    first of them. *)
Definition select_columns (names : list string) (d : DataFrame) : result DataFrame :=
  match List.filter (fun n => negb (Frame.has_column d n)) names with
  | missing :: _ => Raise (KeyError missing)
  | [] =>
      let ps := names ≫= (fun n => Frame.positions n (columns d) 0) in
      Ok (mkDataFrame (index_name d)
            ((fun i => nth i (columns d) EmptyString) <$> ps)
            ((fun r => mkRow (label r) ((fun i => Frame.cell_at i r) <$> ps)) <$> rows d))
  end.

Definition is_timestamp (c : cell) : bool :=
  match c with CTime _ => true | _ => false end.

(** [index.tz]: an attribute of a [DatetimeIndex] only. Timestamps are
    held in UTC, so that [tz_convert(None)] changes no label. *)
Definition index_tz (d : DataFrame) : outcome unit :=
  if forallb is_timestamp (label <$> rows d) then Done tt
  else Failed (AttributeError "tz").

(** [df.reset_index()]: the index becomes a first column that bears its
    name, [index] when it has none. *)
Definition reset_index_named (d : DataFrame) : result DataFrame :=
  let name := default "index"%string (index_name d) in
  if Frame.has_column d name
  then Raise (ValueError ("cannot insert " +:+ name +:+ ", already exists"))
  else Ok (Frame.reset_index d name).

(** The [columns] argument of line 68. *)
Definition date_to_date (c : string) : option string :=
  if String.eqb c "Date" then Some "Date"%string else None.

Definition download_historical_data `{Library} `{Provider}
    (sym : string) (start end_ : option string) (interval : string) : Call loc :=
  '(start_dt, end_dt) ← Calls.pure (build_date_range start end_ DEFAULT_HISTORY_DAYS);
  day ← Calls.pure (Datetime.timedelta_days 1);
  end_inclusive ← Calls.pure (Calendar.add_delta end_dt day);
  fetched ← Calls.lift (ticker_history sym start_dt end_inclusive interval);
  history ← Calls.run (Heap.new fetched);
  d ← Calls.run (Heap.get history);
  if Frame.empty d then Calls.raise NO_HISTORY
  else
    selected ← Calls.pure (select_columns PRICE_COLUMNS d);
    view ← Calls.run (Heap.new selected);
    history ← Calls.run (DF.copy view);
    d ← Calls.run (Heap.get history);
    Calls.lift (index_tz d);;
    flat ← Calls.pure (reset_index_named d);
    history ← Calls.run (Heap.new flat);
    Calls.run (DF.rename_inplace history date_to_date);;
    mret history.

(** The value computed by [download_historical_data]: what the provider
    is asked, and the frame made of its answer. *)
Definition requested_history `{Library} `{Provider}
    (sym : string) (start end_ : option string) (interval : string) : outcome DataFrame :=
  '(start_dt, end_dt) ← of_result (build_date_range start end_ DEFAULT_HISTORY_DAYS);
  day ← of_result (Datetime.timedelta_days 1);
  end_inclusive ← of_result (Calendar.add_delta end_dt day);
  ticker_history sym start_dt end_inclusive interval.

Definition flattened_history (fetched : DataFrame) : outcome DataFrame :=
  if Frame.empty fetched then Failed (Raised NO_HISTORY)
  else
    selected ← of_result (select_columns PRICE_COLUMNS fetched);
    index_tz selected;;
    flat ← of_result (reset_index_named selected);
    Done (Frame.rename date_to_date flat).

Definition downloaded_history `{Library} `{Provider}
    (sym : string) (start end_ : option string) (interval : string) : outcome DataFrame :=
  requested_history sym start end_ interval ≫= flattened_history.

(** ** The routes *)

Inductive body :=
  | Error (error : string)
  | CompanyInfo (symbol : string)
      (full_name summary industry sector country website employees : json)
      (key_officers : list Officer) (last_updated : string)
  | MarketData (symbol : string)
      (market_state current_price price_change percent_change previous_close open : json)
      (day_range_low day_range_high volume : json) (timestamp : string)
  | HistoricalData (symbol interval : string) (count : nat) (data : list HistoricalRecord)
  | Analysis (symbol : string) (insights : Report) (data_source : string).

(** What a view returns: the value handed to [jsonify] and the status. *)
Record response := mkResponse {
  content : body;
  status : Z;
}.

Definition _build_error (message : string) (status_code : Z) : response :=
  mkResponse (Error message) status_code.

Definition jsonify (b : body) : response := mkResponse b 200.

(** [try: x = m  except ValueError as exc: return _build_error(str(exc), 400)],
    followed by [k x]. [LinAlgError], which recent versions of numpy
    derive from [ValueError] and which carries no message in [exn], is
    raised by [np.polyfit] alone, outside of every [try] of the routes;
    the statements on a [try] leave it aside. *)
Definition try_ValueError {A} (m : Call A) (k : A -> Call response) : Call response :=
  fun h =>
    match m h with
    | (h', Done a) => k a h'
    | (h', Failed (Raised (ValueError msg))) => (h', Done (_build_error msg 400))
    | (h', Failed f) => (h', Failed f)
    end.

(** [try: x = m  except Exception: return fallback], followed by [k x]. *)
Definition try_Exception {A} (m : Call A) (fallback : response) (k : A -> Call response)
    : Call response :=
  fun h =>
    match m h with
    | (h', Done a) => k a h'
    | (h', Failed _) => (h', Done fallback)
    end.

(** The decoded body of a POST request that is a non-empty object: its
    entries, each a string or absent, and its [historical_data] entry,
    a list of records or absent. *)
Record Payload := mkPayload {
  payload_symbol : option string;
  payload_start : option string;
  payload_end : option string;
  payload_interval : option string;
  payload_historical_data : option (list record);
}.

(** [datetime.utcnow().isoformat() + "Z"] *)
Definition stamp `{Library} : string := Calendar.isoformat utcnow +:+ "Z".

(** [ticker.info or {}] *)
Definition info_or_empty `{Provider} (sym : string) : outcome json :=
  info ← ticker_info sym;
  Done (Json.or_else info (JObj [])).

(** [info.get(key)] *)
Definition info_get (info : json) (key : string) : outcome json :=
  match info with
  | JObj fields => Done (Json.get fields key)
  | _ => Failed (AttributeError "get")
  end.

Definition company_info `{Library} `{Provider} (sym : option string) : Call response :=
  try_ValueError (Calls.pure (normalize_symbol sym)) (fun sym =>
  try_Exception (Calls.lift (info_or_empty sym))
    (_build_error "Unable to reach Yahoo Finance for the symbol." 502) (fun info =>
  if negb (Json.truthy info)
  then mret (_build_error ("Symbol " +:+ sym +:+ " could not be resolved.") 404)
  else
    full_name ← Calls.lift (info_get info "longName");
    summary ← Calls.lift (info_get info "longBusinessSummary");
    industry ← Calls.lift (info_get info "industry");
    sector ← Calls.lift (info_get info "sector");
    country ← Calls.lift (info_get info "country");
    website ← Calls.lift (info_get info "website");
    employees ← Calls.lift (info_get info "fullTimeEmployees");
    key_officers ← Calls.lift
      (match info with
       | JObj fields => extract_company_officers fields
       | _ => Failed (AttributeError "get")
       end);
    mret (jsonify (CompanyInfo sym full_name summary industry sector country website
                     employees key_officers stamp)))).

Definition market_data `{Library} `{Provider} (sym : option string) : Call response :=
  try_ValueError (Calls.pure (normalize_symbol sym)) (fun sym =>
  try_Exception (Calls.lift (info_or_empty sym))
    (_build_error "Unable to reach Yahoo Finance for the market snapshot." 502) (fun info =>
  regular ← Calls.lift (info_get info "regularMarketPrice");
  current_price ←
    (if Json.truthy regular then mret regular
     else Calls.lift (info_get info "previousClose"));
  change ← Calls.lift (info_get info "regularMarketChange");
  percent_change ← Calls.lift (info_get info "regularMarketChangePercent");
  market_state ← Calls.lift (info_get info "marketState");
  previous_close ← Calls.lift (info_get info "regularMarketPreviousClose");
  open ← Calls.lift (info_get info "regularMarketOpen");
  low ← Calls.lift (info_get info "regularMarketDayLow");
  high ← Calls.lift (info_get info "regularMarketDayHigh");
  volume ← Calls.lift (info_get info "volume");
  mret (jsonify (MarketData sym market_state current_price change percent_change
                   previous_close open low high volume stamp)))).

Definition historical_data `{Library} `{Provider} `{Builtins}
    (payload : option Payload) : Call response :=
  match payload with
  | None => mret (_build_error "Payload is required." 400)
  | Some p =>
      try_ValueError (Calls.pure (normalize_symbol (payload_symbol p))) (fun sym =>
      let interval := default DEFAULT_INTERVAL (payload_interval p) in
      try_ValueError
        (download_historical_data sym (payload_start p) (payload_end p) interval) (fun df =>
      records ← historical_records_from_dataframe df;
      mret (jsonify (HistoricalData sym interval (length records) records))))
  end.

(** [if historical_payload:] *)
Definition given_records (historical_payload : option (list record)) : option (list record) :=
  match historical_payload with
  | Some (r :: data) => Some (r :: data)
  | _ => None
  end.

Definition analytical_insights `{Library} `{Provider}
    (payload : option Payload) : Call response :=
  match payload with
  | None => mret (_build_error "Payload is required for analysis." 400)
  | Some p =>
      try_ValueError (Calls.pure (normalize_symbol (payload_symbol p))) (fun sym =>
      let historical_payload := payload_historical_data p in
      let start := payload_start p in
      let end_ := payload_end p in
      let interval := default DEFAULT_INTERVAL (payload_interval p) in
      try_ValueError
        (match given_records historical_payload with
         | Some data =>
             history_df ← Calls.run (normalize_history_payload data);
             mret (history_df, "payload"%string)
         | None =>
             history_df ← download_historical_data sym start end_ interval;
             mret (history_df, "yfinance"%string)
         end) (fun '(history_df, data_source) =>
      insights ← Calls.run (generate_insights_from_history sym history_df);
      mret (jsonify (Analysis sym insights data_source))))
  end.

(** ** A sample provider

    A parser for [int] and a provider with two days of prices for one
    symbol, to run the functions on examples. *)

Module Sample.

Definition parse_int (s : string) : result Z :=
  match list_ascii_of_string s with
  | [] => Raise (ValueError "invalid literal for int() with base 10")
  | cs =>
      match Datetime.digits 0 cs with
      | Some z => Ok z
      | None => Raise (ValueError "invalid literal for int() with base 10")
      end
  end.

#[global] Instance builtins : Builtins := {| int_of_str := parse_int |}.

Definition quote (t : Z) (o hi lo c v : float) : Row :=
  mkRow (CTime t) [CNum o; CNum hi; CNum lo; CNum c; CNum v].

(** Two daily rows, the second one without a volume. *)
Definition prices : list Row :=
  [quote Reference.day1 (F64.lit 1000123 10000) (F64.lit 10250049 100000) (F64.of_Z 99)
     (F64.lit 1015 10) (F64.of_Z 12000);
   quote Reference.day2 (F64.lit 1015 10) (F64.of_Z 104) F64.nan
     (F64.lit 10325 100) F64.nan].

Definition daily : DataFrame := mkDataFrame (Some "Date"%string) PRICE_COLUMNS prices.
Definition hourly : DataFrame := mkDataFrame (Some "Datetime"%string) PRICE_COLUMNS prices.
Definition nothing : DataFrame := mkDataFrame (Some "Date"%string) PRICE_COLUMNS [].

Definition history (sym : string) (start end_ : datetime) (interval : string)
    : outcome DataFrame :=
  if String.eqb interval "1h" then Done hourly
  else if String.eqb sym "ACME" then Done daily
  else Done nothing.

Definition info (sym : string) : outcome json :=
  if String.eqb sym "ACME" then Done (JObj [("longName"%string, JStr "Acme Corporation")])
  else if String.eqb sym "DOWN" then Failed (Raised TypeError)
  else Done JNull.

#[global] Instance provider : Provider := {|
  ticker_history := history;
  ticker_info := info;
|}.

(** The daily prices as [download_historical_data] returns them, and
    their records. *)
Definition table : DataFrame := Frame.reset_index daily "Date".
Definition records : list HistoricalRecord :=
  Eval vm_compute in
    match historical_records table with
    | Done rs => rs
    | Failed _ => []
    end.

Definition request (sym : string) (interval : option string) : Payload :=
  mkPayload (Some sym) (Some "2024-01-01"%string) (Some "2024-01-10"%string) interval None.

End Sample.

(** * Properties *)

(** ** The heap discipline of the stateful operations *)

Section HeapSteps.

Lemma fresh_lookup (h : heap) : h !! fresh (dom h) = None.
Proof. apply not_elem_of_dom, is_fresh. Qed.

Lemma run_bind {A B} (m : M A) (k : A -> M B) (h : heap) :
  (m ≫= k) h =
  match m h with
  | (h', Ok a) => k a h'
  | (h', Raise e) => (h', Raise e)
  end.
Proof. reflexivity. Qed.

Lemma run_get (l : loc) (d : DataFrame) (h : heap) :
  h !! l = Some d -> Heap.get l h = (h, Ok d).
Proof. intros Hl. unfold Heap.get. by rewrite Hl. Qed.

Lemma run_put (l : loc) (d d' : DataFrame) (h : heap) :
  h !! l = Some d -> Heap.put l d' h = (<[l := d']> h, Ok tt).
Proof. intros Hl. unfold Heap.put. by rewrite Hl. Qed.

Lemma run_new (d : DataFrame) (h : heap) :
  Heap.new d h = (<[fresh (dom h) := d]> h, Ok (fresh (dom h))).
Proof. reflexivity. Qed.

End HeapSteps.


(** ** Running the stateful code

    The rules for [wp] carry a heap [h0] of objects the computation does
    not own: it may read them, and every write goes to an object
    allocated after [h0] was taken. *)

Section WP.
Context `{Library}.

Lemma wp_bind {A B} (m : M A) (k : A -> M B) h Q :
  wp m h (fun h' r => match r with
                      | Ok a => wp (k a) h' Q
                      | Raise e => Q h' (Raise e)
                      end) ->
  wp (m ≫= k) h Q.
Proof.
  unfold wp. rewrite run_bind. destruct (m h) as [h' [a|e]]; simpl; auto.
Qed.

Lemma wp_ret {A} (a : A) h (Q : heap -> result A -> Prop) :
  Q h (Ok a) -> wp (mret a) h Q.
Proof. auto. Qed.

Lemma wp_lift {A B} (r : result A) (k : A -> M B) h Q :
  match r with
  | Ok a => wp (k a) h Q
  | Raise e => Q h (Raise e)
  end ->
  wp (Heap.lift r ≫= k) h Q.
Proof. intros Hr. apply wp_bind. unfold wp. simpl. destruct r; auto. Qed.

Lemma wp_get {B} l d (k : DataFrame -> M B) h Q :
  h !! l = Some d -> wp (k d) h Q -> wp (Heap.get l ≫= k) h Q.
Proof. intros Hl Hk. apply wp_bind. unfold wp. rewrite (run_get _ _ _ Hl). auto. Qed.

Lemma wp_raise {A B} (e : exn) (k : A -> M B) h Q :
  Q h (Raise e) -> wp (Heap.raise e ≫= k) h Q.
Proof. auto. Qed.

Lemma wp_getitem {B} l d name dup (k : list cell -> M B) h Q :
  h !! l = Some d ->
  match Frame.getitem d name dup with
  | Ok c => wp (k c) h Q
  | Raise e => Q h (Raise e)
  end ->
  wp (DF.getitem l name dup ≫= k) h Q.
Proof.
  intros Hl Hk. apply wp_bind. unfold DF.getitem.
  eapply wp_get; [done|]. unfold wp. simpl. by destruct (Frame.getitem d name dup).
Qed.

Lemma wp_setitem {B} (h0 : heap) l d name vals (k : unit -> M B) h Q :
  h0 ⊆ h -> h !! l = Some d -> h0 !! l = None ->
  match Frame.setitem d name vals with
  | Ok d' => forall h', h0 ⊆ h' -> h' !! l = Some d' -> wp (k tt) h' Q
  | Raise e => Q h (Raise e)
  end ->
  wp (DF.setitem l name vals ≫= k) h Q.
Proof.
  intros Hinc Hl Hl0 Hk. apply wp_bind. unfold DF.setitem.
  eapply wp_get; [done|].
  destruct (Frame.setitem d name vals) as [d'|e]; [|done].
  apply wp_lift. unfold wp. rewrite (run_put _ _ _ _ Hl). simpl.
  apply Hk; [by apply insert_subseteq_r | apply lookup_insert_eq].
Qed.

(** An operation that reads [l] and binds its result to a new object. *)
Lemma wp_derive {B} (h0 : heap) l d (F : DataFrame -> result DataFrame)
    (k : loc -> M B) h Q :
  h0 ⊆ h -> h !! l = Some d ->
  match F d with
  | Ok d' => forall l' h', h0 ⊆ h' -> h ⊆ h' -> h' !! l' = Some d' -> h0 !! l' = None ->
                           wp (k l') h' Q
  | Raise e => Q h (Raise e)
  end ->
  wp ((x ← Heap.get l; y ← Heap.lift (F x); Heap.new y) ≫= k) h Q.
Proof.
  intros Hinc Hl Hk. apply wp_bind.
  eapply wp_get; [done|]. destruct (F d) as [d'|e]; [|done].
  apply wp_lift. unfold wp. simpl.
  pose proof (fresh_lookup h) as Hf.
  apply Hk.
  - apply insert_subseteq_r; [by eapply lookup_weaken_None|done].
  - by apply insert_subseteq.
  - apply lookup_insert_eq.
  - by eapply lookup_weaken_None.
Qed.

Lemma wp_new_from {B} (h0 : heap) l d (F : DataFrame -> DataFrame)
    (k : loc -> M B) h Q :
  h0 ⊆ h -> h !! l = Some d ->
  (forall l' h', h0 ⊆ h' -> h ⊆ h' -> h' !! l' = Some (F d) -> h0 !! l' = None ->
                 wp (k l') h' Q) ->
  wp ((x ← Heap.get l; Heap.new (F x)) ≫= k) h Q.
Proof.
  intros Hinc Hl Hk. apply wp_bind.
  eapply wp_get; [done|]. unfold wp. simpl.
  pose proof (fresh_lookup h) as Hf.
  apply Hk.
  - apply insert_subseteq_r; [by eapply lookup_weaken_None|done].
  - by apply insert_subseteq.
  - apply lookup_insert_eq.
  - by eapply lookup_weaken_None.
Qed.


Lemma wp_new {B} (h0 : heap) (d : DataFrame) (k : loc -> M B) h Q :
  h0 ⊆ h ->
  (forall l' h', h0 ⊆ h' -> h ⊆ h' -> h' !! l' = Some d -> h0 !! l' = None ->
                 wp (k l') h' Q) ->
  wp (Heap.new d ≫= k) h Q.
Proof.
  intros Hinc Hk. apply wp_bind. unfold wp. simpl.
  pose proof (fresh_lookup h) as Hf.
  apply Hk.
  - apply insert_subseteq_r; [by eapply lookup_weaken_None|done].
  - by apply insert_subseteq.
  - apply lookup_insert_eq.
  - by eapply lookup_weaken_None.
Qed.

Lemma wp_rename_inplace {B} (h0 : heap) l d column_map (k : unit -> M B) h Q :
  h0 ⊆ h -> h !! l = Some d -> h0 !! l = None ->
  (forall h', h0 ⊆ h' -> h' !! l = Some (Frame.rename column_map d) -> wp (k tt) h' Q) ->
  wp (DF.rename_inplace l column_map ≫= k) h Q.
Proof.
  intros Hinc Hl Hl0 Hk. apply wp_bind. unfold DF.rename_inplace.
  eapply wp_get; [done|]. unfold wp. rewrite (run_put _ _ _ _ Hl). simpl.
  apply Hk; [by apply insert_subseteq_r | apply lookup_insert_eq].
Qed.

End WP.

Ltac lookup := first [ eassumption | eapply lookup_weaken; eassumption ].
Ltac leave := simpl; split; [ reflexivity | eassumption ].
Ltac split_result h0 :=
  lazymatch goal with
  | |- match ?r with _ => _ end => destruct r; [ | leave ]
  end.
Ltac step h0 :=
  simpl;
  lazymatch goal with
  | |- wp (DF.getitem _ _ _ ≫= _) _ _ =>
      eapply wp_getitem; [ lookup | split_result h0 ]
  | |- wp (DF.setitem _ _ _ ≫= _) _ _ =>
      eapply (wp_setitem h0); [ eassumption | lookup | eassumption | split_result h0 ];
      intros ? ? ?
  | |- wp (DF.sort_values _ _ ≫= _) _ _ =>
      eapply (wp_derive h0); [ eassumption | lookup | split_result h0 ];
      intros ? ? ? ? ? ?
  | |- wp (DF.dropna _ _ ≫= _) _ _ =>
      eapply (wp_derive h0); [ eassumption | lookup | split_result h0 ];
      intros ? ? ? ? ? ?
  | |- wp (DF.rename_inplace _ _ ≫= _) _ _ =>
      eapply (wp_rename_inplace h0); [ eassumption | lookup | eassumption | ];
      intros ? ? ?
  | |- wp (Heap.lift ?r ≫= _) _ _ =>
      apply wp_lift; destruct r; [ | leave ]
  | |- wp (Heap.get _ ≫= _) _ _ =>
      eapply wp_get; [ lookup | ]
  | |- wp (Heap.raise _ ≫= _) _ _ =>
      apply wp_raise; leave
  | |- wp ((if ?c then _ else _) ≫= _) _ _ =>
      apply wp_bind; destruct c
  | |- wp (mret _) _ _ =>
      apply wp_ret; simpl; try leave
  | |- wp (mret _ ≫= _) _ _ =>
      apply wp_bind, wp_ret; simpl
  end.

Section Runs.
Context `{Library}.

(** The stateful function computes [insights_of] on the frame its
    argument points to, and every object of the initial heap is still
    there, unchanged, when it returns or raises. *)
Lemma wp_generate_insights sym df h d :
  h !! df = Some d ->
  wp (generate_insights_from_history sym df) h
     (fun h' r => r = insights_of sym d /\ h ⊆ h').
Proof.
  intros Hdf.
  unfold generate_insights_from_history, insights_of, sorted_by_date, with_date_column,
    close_of, slope_and_trend, average_volume_of.
  eapply (wp_new_from h _ _ (fun x => x)); [done|done|]. intros l1 h1 Hinc1 _ Hl1 Hl1'.
  step h.
  lazymatch goal with
  | |- wp (_ ≫= ?K) _ (fun h' r => r = (_ ≫= ?P) ≫= ?P2 /\ h ⊆ h') =>
      assert (forall l hc d1, h ⊆ hc -> hc !! l = Some d1 -> h !! l = None ->
                wp (K l) hc (fun h' r => r = (P d1 ≫= P2) /\ h ⊆ h')) as Tail
  end.
  { clear. intros l hc d1 Hinc Hl Hl'.
    repeat (step h). }
  destruct (Frame.has_column d "Date"); simpl.
  { apply wp_bind, wp_ret. exact (Tail l1 h1 d Hinc1 Hl1 Hl1'). }
  destruct (index_name d) as [name|]; [|apply wp_raise; leave].
  destruct (name =? "Date")%string; [|apply wp_raise; leave].
  eapply (wp_new_from h _ _ (fun x => Frame.reset_index x name)); [eassumption|eassumption|].
  intros l2 h2 Hinc2 _ Hl2 Hl2'. exact (Tail l2 h2 _ Hinc2 Hl2 Hl2').
Qed.

Lemma run_generate_insights sym df h d :
  h !! df = Some d ->
  (generate_insights_from_history sym df h).2 = insights_of sym d
  /\ h ⊆ (generate_insights_from_history sym df h).1.
Proof. intros Hdf. exact (wp_generate_insights sym df h d Hdf). Qed.

Lemma run_generate_insights_dangling sym df h :
  h !! df = None ->
  generate_insights_from_history sym df h = (h, Raise DanglingReference).
Proof.
  intros Hdf. unfold generate_insights_from_history, DF.copy.
  rewrite !run_bind. unfold Heap.get. by rewrite Hdf.
Qed.

(** The stateful function computes [normalized_payload] and binds it to
    a new object; the objects of the initial heap are left as they were. *)
Lemma wp_normalize_history_payload data h :
  wp (normalize_history_payload data) h
     (fun h' r =>
        match r with
        | Ok l => exists d, normalized_payload data = Ok d /\ h' !! l = Some d
        | Raise e => normalized_payload data = Raise e
        end /\ h ⊆ h').
Proof.
  unfold normalize_history_payload, normalized_payload, parsed_payload.
  eapply (wp_new h); [done|]. intros l1 h1 Hinc1 _ Hl1 Hl1'.
  step h.
  destruct (Frame.empty (Frame.of_records data)); [leave|].
  step h. step h.
  destruct (negb (Frame.has_column (Frame.rename column_alias (Frame.of_records data)) "Date")
            || negb (Frame.has_column (Frame.rename column_alias (Frame.of_records data)) "Close"));
    [leave|].
  do 4 step h.
  unfold DF.reset_index_drop. eapply wp_get; [lookup|].
  unfold wp. simpl. split.
  - eexists. split; [reflexivity|]. apply lookup_insert_eq.
  - apply insert_subseteq_r; [|done].
    eapply lookup_weaken_None; [apply fresh_lookup|done].
Qed.


Lemma run_normalize_ok data h d :
  normalized_payload data = Ok d ->
  exists l, (normalize_history_payload data h).2 = Ok l
            /\ (normalize_history_payload data h).1 !! l = Some d.
Proof.
  intros Hp. destruct (wp_normalize_history_payload data h) as [Hr _].
  destruct ((normalize_history_payload data h).2) as [l|e'].
  - destruct Hr as (d' & Hd & Hl). exists l. split; [done|]. congruence.
  - congruence.
Qed.

End Runs.

(** ** [normalize_symbol] *)

Section Symbol.

Lemma lstrip_all_space (s : string) :
  Str.all_space s = true -> Str.lstrip s = EmptyString.
Proof.
  induction s as [|c s IH]; simpl; [done|].
  destruct (Str.is_space c); simpl; [exact IH | discriminate].
Qed.

Lemma strip_all_space (s : string) :
  Str.all_space s = true -> Str.strip s = EmptyString.
Proof. intros Hs. unfold Str.strip. by rewrite lstrip_all_space. Qed.

Lemma lstrip_not_all_space (s : string) :
  Str.all_space s = false ->
  exists c t, Str.lstrip s = String c t /\ Str.is_space c = false.
Proof.
  induction s as [|c s IH]; simpl; [discriminate|].
  destruct (Str.is_space c) eqn:Hc; simpl; [exact IH | eauto].
Qed.

Lemma rstrip_keeps_head (c : ascii) (t : string) :
  Str.is_space c = false -> exists t', Str.rstrip (String c t) = String c t'.
Proof.
  intros Hc. simpl. destruct (Str.rstrip t); [rewrite Hc|]; eauto.
Qed.

(** A symbol with a character that is not white space is accepted and
    comes back trimmed, in upper case and not empty. *)
Lemma normalize_symbol_accepts (s : string) :
  Str.all_space s = false ->
  normalize_symbol (Some s) = Ok (Str.upper (Str.strip s))
  /\ Str.upper (Str.strip s) <> EmptyString.
Proof.
  intros Hs. split.
  - destruct s; [discriminate | reflexivity].
  - destruct (lstrip_not_all_space s Hs) as (c & t & Ht & Hc).
    unfold Str.strip. rewrite Ht.
    destruct (rstrip_keeps_head c t Hc) as [t' ->]. discriminate.
Qed.

Lemma normalize_symbol_rejects_missing :
  normalize_symbol None = Raise (ValueError "A symbol must be provided.")
  /\ normalize_symbol (Some EmptyString) = Raise (ValueError "A symbol must be provided.").
Proof. split; reflexivity. Qed.

End Symbol.

(** C6, on the code: a string that is not empty and holds nothing but
    white space passes the emptiness test, which runs before the
    trimming, so [normalize_symbol] returns the empty symbol instead of
    raising the "A symbol must be provided." error ([InvalidSymbol]). *)
Theorem normalize_symbol_blank (s : string) :
  s <> EmptyString ->
  Str.all_space s = true ->
  normalize_symbol (Some s) = Ok EmptyString.
Proof.
  intros Hne Hs. unfold normalize_symbol.
  destruct s as [|c s']; [done|]. simpl Str.truthy. simpl negb. cbv iota.
  by rewrite strip_all_space.
Qed.

Lemma normalize_symbol_blank_witness :
  normalize_symbol (Some "   "%string) = Ok EmptyString.
Proof. apply normalize_symbol_blank; [discriminate | reflexivity]. Defined.

(** ** [build_date_range] *)

Section DateRange.
Context `{Library}.

Lemma parse_iso_date_ok (s : string) (dt : datetime) :
  fromisoformat s = Some dt -> parse_iso_date s = Ok dt.
Proof. intros Hs. unfold parse_iso_date. by rewrite Hs. Qed.

Lemma supplied_truthy (s : string) :
  Str.truthy s = true -> supplied (Some s) = Some s.
Proof. intros Hs. unfold supplied. by rewrite Hs. Qed.

Lemma gt_sub_delta (dt start : datetime) (delta : Z) :
  0 <= delta ->
  Datetime.sub_delta dt delta = Ok start ->
  Datetime.gt start dt = Ok false.
Proof.
  unfold Datetime.sub_delta, Datetime.gt. intros Hd.
  destruct (Datetime.in_range _); [|discriminate].
  intros [= <-]. simpl. destruct (Datetime.utcoffset dt); f_equal; lia.
Qed.

End DateRange.

(** C7, as amended: with both bounds supplied, parsed and in order, the
    range is exactly that pair; with only [end] supplied, and [end] at
    least 180 days after the earliest datetime, the start is [end] minus
    180 days; and whenever the resolved start is strictly after the
    resolved end the call raises the invalid-range error. *)
Theorem build_date_range_spec `{Library} :
  (forall s e w sd ed,
      Str.truthy s = true -> Str.truthy e = true ->
      fromisoformat s = Some sd -> fromisoformat e = Some ed ->
      Datetime.gt sd ed = Ok false ->
      build_date_range (Some s) (Some e) w = Ok (sd, ed))
  /\ (forall start e ed,
         supplied start = None -> Str.truthy e = true ->
         fromisoformat e = Some ed ->
         Datetime.in_range (Datetime.wall ed - 180 * Datetime.MICROS_PER_DAY) = true ->
         build_date_range start (Some e) DEFAULT_HISTORY_DAYS
         = Ok (Datetime.mk (Datetime.wall ed - 180 * Datetime.MICROS_PER_DAY)
                 (Datetime.utcoffset ed), ed))
  /\ (forall start end_ w sd ed,
         resolve_end end_ = Ok ed ->
         resolve_start start ed w = Ok sd ->
         Datetime.gt sd ed = Ok true ->
         build_date_range start end_ w = Raise INVALID_RANGE).
Proof.
  split; [|split].
  - intros s e w sd ed Hs He Hsd Hed Hgt.
    unfold build_date_range, resolve_end, resolve_start.
    rewrite !supplied_truthy by done.
    rewrite (parse_iso_date_ok _ _ Hsd), (parse_iso_date_ok _ _ Hed). simpl.
    by rewrite Hgt.
  - intros start e ed Hstart He Hed Hrange.
    unfold build_date_range, resolve_end, resolve_start.
    rewrite Hstart, supplied_truthy by done.
    rewrite (parse_iso_date_ok _ _ Hed). simpl.
    assert (Datetime.sub_delta ed (DEFAULT_HISTORY_DAYS * Datetime.MICROS_PER_DAY)
            = Ok (Datetime.mk (Datetime.wall ed - 180 * Datetime.MICROS_PER_DAY)
                    (Datetime.utcoffset ed))) as Hsub.
    { unfold Datetime.sub_delta. change DEFAULT_HISTORY_DAYS with 180. by rewrite Hrange. }
    rewrite Hsub. simpl.
    by rewrite (gt_sub_delta _ _ (DEFAULT_HISTORY_DAYS * Datetime.MICROS_PER_DAY)
                 ltac:(done) Hsub).
  - intros start end_ w sd ed Hend Hstart Hgt.
    unfold build_date_range. rewrite Hend. simpl. rewrite Hstart. simpl.
    by rewrite Hgt.
Qed.

Lemma build_date_range_spec_witness :
  build_date_range (Some "2024-01-01"%string) (Some "2024-01-10"%string) DEFAULT_HISTORY_DAYS
  = Ok (Datetime.mk 63839664000000000 None, Datetime.mk 63840441600000000 None)
  /\ build_date_range None (Some "2024-01-10"%string) DEFAULT_HISTORY_DAYS
     = Ok (Datetime.mk 63824889600000000 None, Datetime.mk 63840441600000000 None)
  /\ build_date_range (Some "2024-01-10"%string) (Some "2024-01-01"%string)
       DEFAULT_HISTORY_DAYS = Raise INVALID_RANGE.
Proof.
  destruct (build_date_range_spec (H := Reference.library)) as (Hboth & Hend & Hafter).
  split; [|split].
  - apply Hboth; reflexivity.
  - apply (Hend None "2024-01-10"%string (Datetime.mk 63840441600000000 None)); reflexivity.
  - apply (Hafter _ _ _ (Datetime.mk 63840441600000000 None)
             (Datetime.mk 63839664000000000 None)); reflexivity.
Defined.

(** C7, as stated, fails on the first half of year 1: the end parses, and
    subtracting the 180-day window leaves the range of [datetime]. *)
Lemma build_date_range_year_one :
  build_date_range (H := Reference.library) None (Some "0001-01-01"%string)
    DEFAULT_HISTORY_DAYS = Raise OverflowError.
Proof. reflexivity. Qed.

(** ** [generate_insights_from_history]: the frame of the caller *)

(** C10: whatever the symbol, the heap and the reference, every object of
    the caller is, after the call, the object it was before it; in
    particular the frame passed in keeps its columns, rows and row order.
    The call only adds objects of its own. *)
Theorem generate_insights_preserves_input `{Library}
    (sym : string) (df : loc) (h : heap) :
  h ⊆ (generate_insights_from_history sym df h).1
  /\ (generate_insights_from_history sym df h).1 !! df = h !! df.
Proof.
  destruct (h !! df) as [d|] eqn:Hdf.
  - destruct (run_generate_insights sym df h d Hdf) as [_ Hinc].
    split; [done|]. by eapply lookup_weaken.
  - rewrite (run_generate_insights_dangling sym df h Hdf). by split.
Qed.

(** C9: two calls in a row on the same symbol and the same frame return
    the same report (or raise the same exception). *)
Theorem generate_insights_idempotent `{Library}
    (sym : string) (df : loc) (h : heap) :
  let first := generate_insights_from_history sym df h in
  let second := generate_insights_from_history sym df first.1 in
  second.2 = first.2.
Proof.
  simpl.
  destruct (h !! df) as [d|] eqn:Hdf.
  - destruct (run_generate_insights sym df h d Hdf) as [Hr Hinc].
    assert ((generate_insights_from_history sym df h).1 !! df = Some d) as Hdf'
      by (by eapply lookup_weaken).
    destruct (run_generate_insights sym df _ d Hdf') as [Hr' _].
    by rewrite Hr, Hr'.
  - rewrite (run_generate_insights_dangling sym df h Hdf). simpl.
    by rewrite (run_generate_insights_dangling sym df h Hdf).
Qed.

(** ** [generate_insights_from_history]: the statistics *)

Section Statistics.
Context `{Library}.

Lemma div_nan_r (x : float) : F64.div x F64.nan = F64.nan.
Proof. by destruct x. Qed.

Lemma sub_nan_l (y : float) : F64.sub F64.nan y = F64.nan.
Proof. by destruct y. Qed.

(** The first return of a series is undefined. *)
Lemma pct_change_singleton (c : float) : Series.pct_change [c] = [F64.nan].
Proof.
  unfold Series.pct_change.
  destruct pct_change_pad; simpl; by rewrite div_nan_r, sub_nan_l.
Qed.

Lemma pct_change_pair (c1 c2 : float) :
  exists r, Series.pct_change [c1; c2] = [F64.nan; r].
Proof.
  unfold Series.pct_change.
  destruct pct_change_pad; simpl; rewrite div_nan_r, sub_nan_l; eauto.
Qed.

(** With at most one defined value there is no sample deviation. *)
Lemma std_singleton (x : float) : Series.std [x] = F64.nan.
Proof. unfold Series.std. simpl Series.count. by destruct (F64.isnan x). Qed.

Lemma std_nan_pair (x : float) : Series.std [F64.nan; x] = F64.nan.
Proof. unfold Series.std. simpl Series.count. by destruct (F64.isnan x). Qed.

Lemma mean_nan : Series.mean [F64.nan] = F64.nan.
Proof. reflexivity. Qed.

(** NaN is truthy: [nan or 0.0] is NaN. *)
Lemma or_else_nan (y : float) : F64.or_else F64.nan y = F64.nan.
Proof. reflexivity. Qed.

(** The guard on [first_close] leaves no division by zero. *)
Lemma percent_change_of_total (first_close latest : float) :
  percent_change_of first_close latest
  = Ok (if F64.is_zero first_close then F64.zero
        else F64.mul (F64.div (F64.sub latest first_close) first_close) (F64.of_Z 100)).
Proof.
  unfold percent_change_of, F64.py_div, F64.truthy.
  by destruct (F64.is_zero first_close).
Qed.

End Statistics.

Ltac run_insights :=
  cbn -[Series.pct_change percent_change_of F64.round Series.mean Series.std
        Series.tail F64.of_Z Frame.toordinal].

(** C1, on the code: on a series of one row no return is defined, the
    mean and the deviation of the returns are NaN, and NaN being truthy
    the [or 0.0] fallback is not taken: the report carries NaN, not 0.0,
    for [average_daily_return] and for [volatility]. *)
Theorem single_row_statistics_nan `{Library}
    (sym : string) (df : loc) (h : heap) (t : Z) (c : float) :
  h !! df = Some (price_frame [(t, c)]) ->
  argsort [t] = [0%nat] ->
  exists rep,
    (generate_insights_from_history sym df h).2 = Ok rep
    /\ average_daily_return rep = F64.nan
    /\ volatility rep = F64.nan.
Proof.
  intros Hdf Hsort.
  destruct (run_generate_insights sym df h _ Hdf) as [-> _].
  unfold insights_of, sorted_by_date, close_of. run_insights.
  rewrite Hsort. run_insights.
  rewrite pct_change_singleton. run_insights.
  rewrite percent_change_of_total, std_singleton, mean_nan, or_else_nan.
  destruct (F64.isnan c); run_insights; eexists; (split; [reflexivity|]); split; reflexivity.
Qed.

Lemma single_row_statistics_nan_witness :
  exists rep,
    (generate_insights_from_history (H := Reference.library) "AAPL" 1%positive
       {[ 1%positive := price_frame [(Reference.day1, F64.of_Z 100)] ]}).2 = Ok rep
    /\ average_daily_return rep = F64.nan
    /\ volatility rep = F64.nan.
Proof.
  apply (single_row_statistics_nan (H := Reference.library)
           _ _ _ Reference.day1 (F64.of_Z 100)); reflexivity.
Defined.

(** C2, on the code: on two rows with one and the same Close there is a
    single defined return, hence no sample deviation; the NaN goes
    through [or 0.0] and the report carries [volatility] NaN (profile
    "low"), not 0.0. *)
Theorem identical_closes_volatility_nan `{Library}
    (sym : string) (df : loc) (h : heap) (t1 t2 : Z) (c slope : float) :
  h !! df = Some (price_frame [(t1, c); (t2, c)]) ->
  argsort [t1; t2] = [0%nat; 1%nat] ->
  F64.isnan c = false ->
  polyfit_slope [F64.of_Z (Frame.toordinal t1); F64.of_Z (Frame.toordinal t2)] [c; c]
  = Ok slope ->
  exists rep,
    (generate_insights_from_history sym df h).2 = Ok rep
    /\ volatility rep = F64.nan
    /\ volatility_profile rep = "low"%string.
Proof.
  intros Hdf Hsort Hc Hfit.
  destruct (run_generate_insights sym df h _ Hdf) as [-> _].
  unfold insights_of, sorted_by_date, close_of. run_insights.
  rewrite Hsort. run_insights.
  destruct (pct_change_pair c c) as [r ->]. run_insights.
  rewrite percent_change_of_total, std_nan_pair, or_else_nan, Hc. run_insights.
  unfold slope_and_trend. run_insights. rewrite Hfit. run_insights.
  eexists; (split; [reflexivity|]); split; reflexivity.
Qed.

Lemma identical_closes_volatility_nan_witness :
  exists rep,
    (generate_insights_from_history (H := Reference.library) "AAPL" 1%positive
       {[ 1%positive := price_frame [(Reference.day1, F64.of_Z 100);
                                     (Reference.day2, F64.of_Z 100)] ]}).2 = Ok rep
    /\ volatility rep = F64.nan
    /\ volatility_profile rep = "low"%string.
Proof.
  apply (identical_closes_volatility_nan (H := Reference.library)
           _ _ _ Reference.day1 Reference.day2 (F64.of_Z 100) F64.zero); reflexivity.
Defined.

(** C8, on the code: with a Volume column whose entries are undefined the
    mean of Volume is NaN and [int(...)] raises; no report is returned. *)
Theorem undefined_volume_raises `{Library}
    (sym : string) (df : loc) (h : heap) (t : Z) (c : float) :
  h !! df = Some (price_volume_frame [(t, c, F64.nan)]) ->
  argsort [t] = [0%nat] ->
  (generate_insights_from_history sym df h).2
  = Raise (ValueError "cannot convert float NaN to integer").
Proof.
  intros Hdf Hsort.
  destruct (run_generate_insights sym df h _ Hdf) as [-> _].
  unfold insights_of, sorted_by_date, close_of. run_insights.
  rewrite Hsort. run_insights.
  rewrite pct_change_singleton. run_insights.
  rewrite percent_change_of_total.
  destruct (F64.isnan c); reflexivity.
Qed.

Lemma undefined_volume_raises_witness :
  (generate_insights_from_history (H := Reference.library) "AAPL" 1%positive
     {[ 1%positive := price_volume_frame [(Reference.day1, F64.of_Z 100, F64.nan)] ]}).2
  = Raise (ValueError "cannot convert float NaN to integer").
Proof.
  apply (undefined_volume_raises (H := Reference.library)
           _ _ _ Reference.day1 (F64.of_Z 100)); reflexivity.
Defined.

(** ** [normalize_history_payload]: the headers *)

Section Headers.





Section MapStrip.
Variable f : ascii -> ascii.
Hypothesis f_space : forall c, Str.is_space (f c) = Str.is_space c.



End MapStrip.












End Headers.




(** ** [normalize_history_payload]: the order of the rows *)

Section Sorting.
Context `{Library}.

Lemma positions_bound name cols i0 i :
  i ∈ Frame.positions name cols i0 -> (i0 <= i < i0 + length cols)%nat.
Proof.
  revert i0. induction cols as [|c cols IH]; intros i0; simpl.
  - by intros ?%elem_of_nil.
  - rewrite elem_of_app. intros [Hi|Hi].
    + destruct (String.eqb c name); [|by apply elem_of_nil in Hi].
      apply list_elem_of_singleton in Hi as ->. lia.
    + apply IH in Hi. lia.
Qed.

(** Every row of a frame built from records has one cell per column. *)
Lemma of_records_cells data :
  Forall (fun r => length (cells r) = length (columns (Frame.of_records data)))
    (rows (Frame.of_records data)).
Proof.
  apply Forall_lookup. intros i r. unfold Frame.of_records. simpl.
  rewrite list_lookup_imap. destruct (data !! i); simpl; [|done].
  intros [= <-]. simpl. by rewrite length_fmap.
Qed.

Lemma mapM_timestamp (ts : list Z) :
  result_mapM Frame.timestamp (CTime <$> ts) = Ok ts.
Proof.
  induction ts as [|t ts IH]; [done|].
  rewrite fmap_cons. cbn [result_mapM Frame.timestamp mbind result_bind]. by rewrite IH.
Qed.

Lemma mapM_length {A B} (f : A -> result B) l l' :
  result_mapM f l = Ok l' -> length l' = length l.
Proof.
  revert l'. induction l as [|x l IH]; intros l'; simpl.
  - by intros [= <-].
  - destruct (f x); simpl; [|done]. destruct (result_mapM f l); simpl; [|done].
    intros [= <-]. simpl. by rewrite (IH _ eq_refl).
Qed.

Lemma cell_at_set_column i rs vals :
  Forall (fun r => (i < length (cells r))%nat) rs ->
  length vals = length rs ->
  Frame.cell_at i <$> zip_with (fun r v => Frame.set_cell i v r) rs vals = vals.
Proof.
  intros Hrs. revert vals. induction Hrs as [|r rs Hr _ IH]; intros [|v vals]; simpl;
    try done.
  intros [= Hlen]. rewrite IH by done. f_equal.
  unfold Frame.cell_at, Frame.set_cell. simpl.
  apply nth_lookup_Some. by apply list_lookup_insert_eq.
Qed.

Lemma cells_range_index rs : cells <$> Frame.range_index rs = cells <$> rs.
Proof. unfold Frame.range_index. by rewrite fmap_imap, <- imap_const. Qed.

Lemma omap_lookup_cons {A} (x : A) (l : list A) (idx : list nat) :
  omap ((x :: l) !!.) (S <$> idx) = omap (l !!.) idx.
Proof.
  induction idx as [|i idx IH]; [done|].
  rewrite fmap_cons. cbn [omap list_omap]. simpl lookup. by rewrite <- IH.
Qed.

Lemma omap_lookup_seq {A} (l : list A) : omap (l !!.) (seq 0 (length l)) = l.
Proof.
  induction l as [|x l IH]; [done|].
  cbn [length seq omap list_omap]. simpl lookup. cbn [omap list_omap]. f_equal.
  by rewrite <- fmap_S_seq, omap_lookup_cons.
Qed.

(** Taking the rows along a permutation of the positions permutes them. *)
Lemma take_permutation (idx : list nat) (rs : list Row) :
  idx ≡ₚ seq 0 (length rs) -> Frame.take idx rs ≡ₚ rs.
Proof.
  intros Hidx. unfold Frame.take. rewrite Hidx. by rewrite omap_lookup_seq.
Qed.

Lemma omap_lookup_in_range {A} (l : list A) (d : A) (idx : list nat) :
  Forall (fun j => (j < length l)%nat) idx ->
  omap (l !!.) idx = (fun j => default d (l !! j)) <$> idx.
Proof.
  induction 1 as [|j idx Hj _ IH]; [done|]. csimpl.
  destruct (lookup_lt_is_Some_2 l j Hj) as [x Hx]. rewrite Hx. csimpl. by rewrite IH.
Qed.

Lemma permutation_in_range (idx : list nat) (n : nat) :
  idx ≡ₚ seq 0 n -> Forall (fun j => (j < n)%nat) idx.
Proof.
  intros ->. apply Forall_forall. intros j Hj%elem_of_seq. lia.
Qed.

Lemma fmap_take {B} (f : Row -> B) idx rs :
  f <$> Frame.take idx rs = omap ((f <$> rs) !!.) idx.
Proof.
  unfold Frame.take. induction idx as [|i idx IH]; [done|]. csimpl.
  rewrite list_lookup_fmap. destruct (rs !! i); csimpl; by rewrite IH.
Qed.

Lemma getitem_inv d name dup col :
  Frame.getitem d name dup = Ok col ->
  exists i, Frame.positions name (columns d) 0 = [i]
            /\ col = Frame.cell_at i <$> rows d
            /\ (i < length (columns d))%nat.
Proof.
  unfold Frame.getitem.
  destruct (Frame.positions name (columns d) 0) as [|i [|? ?]] eqn:Hpos; try done.
  intros [= <-]. exists i. repeat split.
  assert (i ∈ Frame.positions name (columns d) 0) as Hi by (rewrite Hpos; left).
  apply positions_bound in Hi. lia.
Qed.

Lemma cell_at_range_index i rs :
  Frame.cell_at i <$> Frame.range_index rs = Frame.cell_at i <$> rs.
Proof.
  change (Frame.cell_at i) with ((fun c => nth i c CNull) ∘ cells).
  by rewrite !list_fmap_compose, cells_range_index.
Qed.

Lemma take_times i idx rs ts :
  Frame.cell_at i <$> rs = CTime <$> ts ->
  Forall (fun j => (j < length ts)%nat) idx ->
  Frame.cell_at i <$> Frame.take idx rs
  = CTime <$> ((fun j => default 0 (ts !! j)) <$> idx).
Proof.
  intros Hrs Hidx. rewrite fmap_take, Hrs.
  rewrite (omap_lookup_in_range _ (CTime 0)) by (by rewrite length_fmap).
  rewrite <- list_fmap_compose. apply list_fmap_ext. intros _ j _. simpl.
  rewrite list_lookup_fmap. by destruct (ts !! j).
Qed.

(** The parsed frame has a timestamp in every row of its Date column;
    when numpy's indexer sorts these timestamps, the normalized frame
    lists the same rows, in ascending order of date. *)
Lemma normalized_payload_sorted data parsed :
  parsed_payload data = Ok parsed ->
  exists ts,
    dates_of parsed = Ok ts
    /\ (sorting_permutation (argsort ts) ts ->
        exists out ts',
          normalized_payload data = Ok out
          /\ columns out = columns parsed
          /\ cells <$> rows out ≡ₚ cells <$> rows parsed
          /\ dates_of out = Ok ts'
          /\ Sorted Z.le ts').
Proof.
  unfold normalized_payload, parsed_payload.
  destruct (Frame.empty _); [done|].
  destruct (negb _ || negb _); [done|].
  remember (Frame.rename column_alias (Frame.of_records data)) as d eqn:Hd.
  destruct (Frame.getitem d "Date" NOT_UNIQUE) as [col|] eqn:Hcol; [|done].
  cbn [mbind result_bind].
  destruct (Frame.to_datetime col) as [dates|] eqn:Hdates; [|done].
  cbn [mbind result_bind].
  apply getitem_inv in Hcol as (i & Hpos & Hcol & Hi).
  unfold Frame.setitem. rewrite Hpos.
  destruct (negb _) eqn:Hlen; [done|].
  apply negb_false_iff, Nat.eqb_eq in Hlen. rewrite length_fmap in Hlen.
  intros [= <-].
  assert (Forall (fun r => (i < length (cells r))%nat) (rows d)) as Hwf.
  { rewrite Hd in Hi |- *. unfold Frame.rename in Hi |- *. simpl in Hi |- *.
    rewrite length_fmap in Hi.
    eapply Forall_impl; [apply (of_records_cells data)|].
    intros r Hr. simpl in Hr. by rewrite Hr. }
  remember (zip_with _ (rows d) (CTime <$> dates)) as rs eqn:Hrs_def.
  assert (Frame.cell_at i <$> rs = CTime <$> dates) as Hrs.
  { rewrite Hrs_def. apply cell_at_set_column; [done|]. by rewrite length_fmap. }
  assert (length rs = length dates) as Hlen_rs.
  { rewrite <- (length_fmap (Frame.cell_at i) rs), Hrs. by rewrite length_fmap. }
  exists dates. split.
  { unfold dates_of, Frame.getitem. cbn [columns rows]. rewrite Hpos.
    cbn [mbind result_bind]. rewrite Hrs. apply mapM_timestamp. }
  intros [Hperm Hsorted].
  unfold Frame.sort_values, Frame.getitem. cbn [columns rows mbind result_bind].
  rewrite Hpos. cbn [mbind result_bind]. rewrite Hrs, mapM_timestamp.
  cbn [mbind result_bind].
  eexists. eexists. split; [reflexivity|].
  cbn [Frame.reset_index_drop columns rows index_name]. split; [done|]. split.
  { rewrite cells_range_index. apply fmap_Permutation, take_permutation.
    by rewrite Hlen_rs. }
  split; [|exact Hsorted].
  unfold dates_of, Frame.getitem. cbn [Frame.reset_index_drop columns rows]. rewrite Hpos.
  cbn [mbind result_bind].
  rewrite cell_at_range_index, (take_times i _ _ dates Hrs).
  - apply mapM_timestamp.
  - by apply permutation_in_range.
Qed.
End Sorting.

(** C4, as amended: for a payload that passes the header checks and whose
    dates parse (the parsed frame then has a timestamp in every row, see
    [normalized_payload_sorted]), and a numpy indexer that sorts these
    timestamps, the call returns a new frame with the same columns, whose
    rows are a permutation of the parsed rows, in ascending order of
    date. Nothing is promised about rows with equal dates. *)
Theorem normalize_history_payload_sorted `{Library}
    (data : list record) (h : heap) (parsed : DataFrame) (ts : list Z) :
  parsed_payload data = Ok parsed ->
  dates_of parsed = Ok ts ->
  sorting_permutation (argsort ts) ts ->
  exists l out ts',
    (normalize_history_payload data h).2 = Ok l
    /\ (normalize_history_payload data h).1 !! l = Some out
    /\ columns out = columns parsed
    /\ cells <$> rows out ≡ₚ cells <$> rows parsed
    /\ dates_of out = Ok ts'
    /\ Sorted Z.le ts'.
Proof.
  intros Hparsed Hts Hsort.
  destruct (normalized_payload_sorted data parsed Hparsed) as (ts0 & Hts0 & Hout).
  assert (ts0 = ts) as -> by congruence.
  destruct (Hout Hsort) as (out & ts' & Hnorm & Hcols & Hperm & Hdates & Hsorted).
  destruct (run_normalize_ok data h out Hnorm) as (l & Hl & Hlook).
  exists l, out, ts'. done.
Qed.

Lemma normalize_history_payload_sorted_witness :
  exists l out ts',
    (normalize_history_payload (H := Reference.library)
       [[("date"%string, CStr "2024-01-03"); ("close"%string, CInt 110)];
        [("date"%string, CStr "2024-01-02"); ("close"%string, CInt 100)]] ∅).2 = Ok l
    /\ (normalize_history_payload (H := Reference.library)
          [[("date"%string, CStr "2024-01-03"); ("close"%string, CInt 110)];
           [("date"%string, CStr "2024-01-02"); ("close"%string, CInt 100)]] ∅).1 !! l
       = Some out
    /\ columns out = ["Date"; "Close"]%string
    /\ cells <$> rows out
       ≡ₚ [[CTime Reference.day2; CInt 110]; [CTime Reference.day1; CInt 100]]
    /\ dates_of out = Ok ts'
    /\ Sorted Z.le ts'.
Proof.
  apply (normalize_history_payload_sorted (H := Reference.library) _ ∅
           (mkDataFrame None ["Date"; "Close"]%string
              [mkRow (CInt 0) [CTime Reference.day2; CInt 110];
               mkRow (CInt 1) [CTime Reference.day1; CInt 100]])
           [Reference.day2; Reference.day1]).
  - by vm_compute.
  - by vm_compute.
  - split; apply (bool_decide_unpack _); by vm_compute.
Defined.

(** C4, as stated, fails on eighteen records that share one date: the
    rows come back sorted, but not in the order the payload lists them
    (numpy's quicksort partitions a range of more than 17 elements, and
    its swaps move equal keys past one another). *)
Lemma payload_ties_reordered :
  exists parsed out l,
    parsed_payload (H := Reference.library) Reference.ties_payload = Ok parsed
    /\ (normalize_history_payload (H := Reference.library) Reference.ties_payload ∅).2
       = Ok l
    /\ (normalize_history_payload (H := Reference.library) Reference.ties_payload ∅).1 !! l
       = Some out
    /\ ~ keeps_tie_order parsed out.
Proof.
  eexists. eexists. eexists.
  split; [vm_compute; reflexivity|].
  split; [vm_compute; reflexivity|].
  split; [vm_compute; reflexivity|].
  intros Hties. specialize (Hties Reference.day1).
  vm_compute in Hties. discriminate Hties.
Qed.

(** ** [generate_insights_from_history]: [percent_change] *)

Ltac bind_inv H :=
  repeat match type of H with
    | (?r ≫= _) = Ok _ =>
        let E := fresh "E" in
        destruct r eqn:E; cbn [mbind result_bind] in H; [|discriminate H]
    | (let '(_, _) := ?p in _) = Ok _ => destruct p
    end.

Section PercentChange.
Context `{Library}.

Lemma iloc_first_inv {A} (xs : list A) x : iloc_first xs = Ok x -> head xs = Some x.
Proof. unfold iloc_first. destruct (head xs); [by intros [= ->]|done]. Qed.

Lemma iloc_last_inv {A} (xs : list A) x : iloc_last xs = Ok x -> last xs = Some x.
Proof. unfold iloc_last. destruct (last xs); [by intros [= ->]|done]. Qed.

(** What a report says of [percent_change], in terms of the closes in
    date order. *)
Lemma insights_of_percent_change sym d rep :
  insights_of sym d = Ok rep ->
  exists sorted close latest close0,
    sorted_by_date d = Ok sorted
    /\ close_of sorted = Ok close
    /\ last close = Some latest
    /\ head close = Some close0
    /\ let first_close := if F64.isnan close0 then latest else close0 in
       percent_change rep
       = F64.round
           (if F64.is_zero first_close then F64.zero
            else F64.mul (F64.div (F64.sub latest first_close) first_close)
                   (F64.of_Z 100)) 2.
Proof.
  unfold insights_of. intros Hrep. bind_inv Hrep.
  injection Hrep as <-.
  rewrite percent_change_of_total in E6. injection E6 as <-.
  eexists _, _, _, _. split; [done|]. split; [done|].
  split; [by apply iloc_last_inv|]. split; [by apply iloc_first_inv|].
  simpl. by destruct (F64.isnan _).
Qed.

(** *** Price series: every step succeeds *)

Lemma price_rows_times k rs :
  Forall (price_row k) rs -> exists ts, Frame.cell_at 0 <$> rs = CTime <$> ts.
Proof.
  induction 1 as [|r rs (t & c & rest & Hr & _) _ (ts & IH)]; [by exists []|].
  exists (t :: ts). csimpl. rewrite IH. unfold Frame.cell_at. by rewrite Hr.
Qed.

Lemma price_rows_closes k rs :
  Forall (price_row k) rs -> exists cs, Frame.cell_at 1 <$> rs = CNum <$> cs.
Proof.
  induction 1 as [|r rs (t & c & rest & Hr & _) _ (cs & IH)]; [by exists []|].
  exists (c :: cs). csimpl. rewrite IH. unfold Frame.cell_at. by rewrite Hr.
Qed.

Lemma astype_float_nums (cs : list float) : Frame.astype_float (CNum <$> cs) = Ok cs.
Proof.
  unfold Frame.astype_float. induction cs as [|c cs IH]; [done|].
  rewrite fmap_cons. cbn [result_mapM Frame.to_float mbind result_bind]. by rewrite IH.
Qed.

Lemma numeric_nums (cs : list float) : Frame.numeric (CNum <$> cs) = Ok cs.
Proof.
  unfold Frame.numeric. induction cs as [|c cs IH]; [done|].
  rewrite fmap_cons. cbn [result_mapM Frame.to_num mbind result_bind]. by rewrite IH.
Qed.

Lemma to_datetime_times (ts : list Z) : Frame.to_datetime (CTime <$> ts) = Ok ts.
Proof. unfold Frame.to_datetime. by rewrite mapM_timestamp. Qed.

Lemma price_rows_set_time k rs ts :
  Forall (price_row k) rs ->
  Forall (price_row k) (zip_with (fun r v => Frame.set_cell 0 v r) rs (CTime <$> ts)).
Proof.
  intros Hrs. revert ts. induction Hrs as [|r rs (t & c & rest & Hr & Hk) _ IH];
    intros [|t' ts]; csimpl; try constructor; [|apply IH].
  exists t', c, rest. unfold Frame.set_cell. simpl. by rewrite Hr.
Qed.

Lemma price_rows_take k idx rs :
  Forall (price_row k) rs -> Forall (price_row k) (Frame.take idx rs).
Proof.
  intros Hrs. unfold Frame.take. apply Forall_forall. intros r Hr.
  apply list_elem_of_omap in Hr as (i & _ & Hi).
  eapply Forall_lookup_1; eauto.
Qed.

Lemma price_rows_append k rs vals :
  Forall (price_row k) rs ->
  Forall (price_row (S k))
    (zip_with (fun r v => mkRow (label r) (cells r ++ [v])) rs vals).
Proof.
  intros Hrs. revert vals. induction Hrs as [|r rs (t & c & rest & Hr & Hk) _ IH];
    intros [|v vals]; csimpl; try constructor; [|apply IH].
  exists t, c, (rest ++ [v]). rewrite Hr. split; [done|].
  rewrite length_app. simpl. lia.
Qed.

Lemma price_rows_filter k (f : Row -> bool) rs :
  Forall (price_row k) rs -> Forall (price_row k) (List.filter f rs).
Proof.
  intros Hrs. apply Forall_forall. intros r Hr.
  apply list_elem_of_In, filter_In in Hr as [Hr _]. apply list_elem_of_In in Hr.
  eapply Forall_forall in Hrs; eauto.
Qed.

Lemma length_shift (xs : list float) : length (Series.shift xs) = length xs.
Proof.
  destruct xs as [|x xs]; [done|]. unfold Series.shift. cbn [length]. f_equal.
  rewrite removelast_firstn_len, length_take. cbn [length]. lia.
Qed.

Lemma length_ffill_from (v : float) (xs : list float) :
  length (Series.ffill_from v xs) = length xs.
Proof. revert v. induction xs as [|x xs IH]; intros v; simpl; [done|]. by rewrite IH. Qed.

Lemma length_pct_change (close : list float) :
  length (Series.pct_change close) = length close.
Proof.
  unfold Series.pct_change, Series.ffill.
  rewrite length_zip_with, length_shift.
  destruct pct_change_pad; [rewrite length_ffill_from|]; lia.
Qed.

Lemma take_length (idx : list nat) (rs : list Row) :
  idx ≡ₚ seq 0 (length rs) -> length (Frame.take idx rs) = length rs.
Proof. intros Hidx. by rewrite (take_permutation idx rs Hidx). Qed.

Lemma price_frame_rows (points : list (Z * float)) :
  Forall (price_row 0) (rows (price_frame points))
  /\ Frame.cell_at 0 <$> rows (price_frame points) = CTime <$> points.*1
  /\ length (rows (price_frame points)) = length points.
Proof.
  unfold price_frame. cbn [rows]. split; [|split].
  - apply Forall_lookup. intros i r. rewrite list_lookup_imap.
    destruct (points !! i) as [[t c]|]; [|done]. intros [= <-]. by exists t, c, [].
  - rewrite fmap_imap, <- list_fmap_compose, <- imap_const.
    apply imap_ext. by intros i [t c] _.
  - apply length_imap.
Qed.

Lemma set_time_same rs ts :
  Frame.cell_at 0 <$> rs = CTime <$> ts ->
  Forall (price_row 0) rs ->
  zip_with (fun r v => Frame.set_cell 0 v r) rs (CTime <$> ts) = rs.
Proof.
  intros Hts Hrs. revert ts Hts.
  induction Hrs as [|r rs (t & c & rest & Hr & Hk) _ IH]; intros [|t' ts]; csimpl;
    try done.
  intros [= Ht Hts]. rewrite IH by done. f_equal.
  unfold Frame.cell_at in Ht. rewrite Hr in Ht. simpl in Ht. injection Ht as <-.
  destruct r as [lbl cs]. unfold Frame.set_cell. simpl in *. by rewrite Hr.
Qed.

Lemma appended_column rs vals :
  Forall (price_row 0) rs ->
  length vals = length rs ->
  Frame.cell_at 2 <$> zip_with (fun r v => mkRow (label r) (cells r ++ [v])) rs vals
  = vals.
Proof.
  intros Hrs. revert vals.
  induction Hrs as [|r rs (t & c & rest & Hr & Hk) _ IH]; intros [|v vals]; csimpl;
    try done.
  intros [= Hlen]. rewrite IH by done. f_equal.
  unfold Frame.cell_at. simpl. rewrite Hr. by destruct rest.
Qed.

Lemma iloc_nonempty {A} (xs : list A) :
  xs <> [] -> exists x y, iloc_first xs = Ok x /\ iloc_last xs = Ok y.
Proof.
  intros Hne. unfold iloc_first, iloc_last.
  destruct (head_is_Some xs) as [_ Hh]. destruct (Hh Hne) as [x ->].
  destruct (last_is_Some xs) as [_ Hl]. destruct (Hl Hne) as [y ->]. eauto.
Qed.

Lemma slope_and_trend_price_rows k rs :
  (forall x y, exists slope, polyfit_slope x y = Ok slope) ->
  Forall (price_row k) rs ->
  exists st,
    slope_and_trend (mkDataFrame None ["Date"; "Close"; "daily_return"]%string rs) = Ok st.
Proof.
  intros Hfit Hrs. unfold slope_and_trend. cbn [rows].
  destruct (2 <=? length rs)%nat; [|eauto].
  destruct (price_rows_times _ _ Hrs) as (ts & Hts).
  destruct (price_rows_closes _ _ Hrs) as (cs & Hcs).
  unfold Frame.getitem.
  cbn [columns rows Frame.positions String.eqb Ascii.eqb Bool.eqb app mbind result_bind].
  rewrite Hts, mapM_timestamp. cbn [mbind result_bind].
  rewrite Hcs, astype_float_nums. cbn [mbind result_bind].
  destruct (Hfit ((fun t => F64.of_Z (Frame.toordinal t)) <$> ts) cs) as [slope ->].
  cbn [mbind result_bind]. eauto.
Qed.

Lemma sorted_price_frame (points : list (Z * float)) :
  sorted_by_date (price_frame points)
  = Ok (mkDataFrame None ["Date"; "Close"]%string
          (Frame.take (argsort points.*1) (rows (price_frame points)))).
Proof.
  destruct (price_frame_rows points) as (Hrows & Htimes & Hlen).
  unfold sorted_by_date, with_date_column, Frame.sort_values, Frame.getitem, Frame.setitem.
  cbn [price_frame columns Frame.has_column existsb String.eqb Ascii.eqb Bool.eqb negb orb
       Frame.positions app mbind result_bind index_name].
  fold (price_frame points).
  rewrite Htimes, to_datetime_times. cbn [mbind result_bind].
  rewrite length_fmap, length_fmap, Hlen, Nat.eqb_refl. cbn [negb mbind result_bind foldr].
  rewrite (set_time_same _ _ Htimes Hrows).
  cbn [columns rows index_name Frame.positions String.eqb Ascii.eqb Bool.eqb app].
  cbn [mbind result_bind]. by rewrite Htimes, mapM_timestamp.
Qed.

(** On a series with a date and a close in every row the call returns a
    report, as soon as numpy's indexer is a permutation of the positions
    and [np.polyfit] returns. *)
Lemma insights_of_price_frame sym (points : list (Z * float)) :
  points <> [] ->
  argsort points.*1 ≡ₚ seq 0 (length points) ->
  (forall x y, exists slope, polyfit_slope x y = Ok slope) ->
  exists rep, insights_of sym (price_frame points) = Ok rep.
Proof.
  intros Hne Hperm Hfit.
  destruct (price_frame_rows points) as (Hrows & _ & Hlen).
  unfold insights_of. rewrite sorted_price_frame. cbn [mbind result_bind].
  rewrite <- Hlen in Hperm.
  pose proof (take_length _ _ Hperm) as Hlen_s.
  pose proof (price_rows_take 0 (argsort points.*1) _ Hrows) as Hsorted.
  remember (Frame.take (argsort points.*1) (rows (price_frame points))) as rs eqn:Hrs.
  clear Hrs Hperm Hrows.
  destruct (price_rows_closes _ _ Hsorted) as (close & Hclose).
  assert (length close = length rs) as Hlen_c.
  { rewrite <- (length_fmap CNum close), <- Hclose. by rewrite length_fmap. }
  unfold close_of, Frame.getitem.
  cbn [columns rows Frame.positions String.eqb Ascii.eqb Bool.eqb app mbind result_bind].
  rewrite Hclose, astype_float_nums. cbn [mbind result_bind].
  unfold Frame.setitem.
  cbn [columns rows Frame.positions String.eqb Ascii.eqb Bool.eqb app mbind result_bind].
  rewrite length_fmap, length_pct_change, Hlen_c, Nat.eqb_refl.
  cbn [negb mbind result_bind index_name].
  remember (zip_with _ rs (CNum <$> Series.pct_change close)) as aug eqn:Haug.
  assert (Forall (price_row 1) aug) as Hrows_aug.
  { rewrite Haug. by apply price_rows_append. }
  assert (Frame.cell_at 2 <$> aug = CNum <$> Series.pct_change close) as Hdr.
  { rewrite Haug. apply appended_column; [done|].
    by rewrite length_fmap, length_pct_change. }
  assert (length aug = length rs) as Hlen_aug.
  { rewrite Haug, length_zip_with, length_fmap, length_pct_change. lia. }
  clear Haug.
  unfold Frame.getitem.
  cbn [columns rows Frame.positions String.eqb Ascii.eqb Bool.eqb app mbind result_bind].
  rewrite Hdr, numeric_nums. cbn [mbind result_bind].
  assert (close <> []) as Hclose_ne.
  { intros ->. simpl in Hlen_c. rewrite <- Hlen_c in Hlen_s. rewrite <- Hlen_s in Hlen.
    destruct points; [done|discriminate Hlen]. }
  destruct (iloc_nonempty close Hclose_ne) as (c0 & latest & -> & ->).
  cbn [mbind result_bind]. rewrite percent_change_of_total. cbn [mbind result_bind].
  unfold Frame.dropna.
  cbn [columns rows Frame.positions String.eqb Ascii.eqb Bool.eqb app mbind result_bind
       index_name].
  match goal with
  | |- context [List.filter ?f aug] =>
      destruct (slope_and_trend_price_rows 1 _ Hfit (price_rows_filter 1 f aug Hrows_aug))
        as ([slope trend] & ->)
  end.
  cbn [mbind result_bind].
  unfold average_volume_of, Frame.has_column.
  cbn [columns existsb String.eqb Ascii.eqb Bool.eqb orb mbind result_bind].
  destruct (price_rows_times _ _ Hrows_aug) as (ts & Hts). rewrite Hts, mapM_timestamp.
  cbn [mbind result_bind].
  assert (ts <> []) as Hts_ne.
  { intros ->. destruct aug; [|discriminate Hts]. destruct rs; [|discriminate Hlen_aug].
    destruct close; [done|discriminate Hlen_c]. }
  destruct (iloc_nonempty ts Hts_ne) as (t0 & t1 & -> & ->).
  cbn [mbind result_bind]. eauto.
Qed.
End PercentChange.

(** C3: in every report, [percent_change] is
    [(latest_close - first_close) / first_close * 100] rounded to two
    decimals, where the closes are read in date order and [first_close]
    falls back on [latest_close] when the first close is NaN, and it is
    0.0 when [first_close] is zero; the percent-change step never raises;
    on a series with a date and a close in every row the call does return
    a report (given an indexer that is a permutation and a fit that
    returns); and the two-point series 100, 110 reports 10.0 and, for
    [average_daily_return], 0.1. *)
Theorem percent_change_spec `{Library} :
  (forall sym df h rep,
      (generate_insights_from_history sym df h).2 = Ok rep ->
      exists d sorted close latest close0,
        h !! df = Some d
        /\ sorted_by_date d = Ok sorted
        /\ close_of sorted = Ok close
        /\ last close = Some latest
        /\ head close = Some close0
        /\ let first_close := if F64.isnan close0 then latest else close0 in
           percent_change rep
           = F64.round
               (if F64.is_zero first_close then F64.zero
                else F64.mul (F64.div (F64.sub latest first_close) first_close)
                       (F64.of_Z 100)) 2)
  /\ (forall first_close latest,
         percent_change_of first_close latest
         = Ok (if F64.is_zero first_close then F64.zero
               else F64.mul (F64.div (F64.sub latest first_close) first_close)
                      (F64.of_Z 100)))
  /\ (forall sym df h (points : list (Z * float)),
         points <> [] ->
         h !! df = Some (price_frame points) ->
         argsort points.*1 ≡ₚ seq 0 (length points) ->
         (forall x y, exists slope, polyfit_slope x y = Ok slope) ->
         exists rep, (generate_insights_from_history sym df h).2 = Ok rep)
  /\ (forall sym df h t slope,
         h !! df = Some (price_frame [(t, F64.of_Z 100);
                                      (t + Frame.NANOS_PER_DAY, F64.of_Z 110)]) ->
         argsort [t; t + Frame.NANOS_PER_DAY] = [0%nat; 1%nat] ->
         polyfit_slope [F64.of_Z (Frame.toordinal t);
                        F64.of_Z (Frame.toordinal (t + Frame.NANOS_PER_DAY))]
           [F64.of_Z 100; F64.of_Z 110] = Ok slope ->
         exists rep,
           (generate_insights_from_history sym df h).2 = Ok rep
           /\ percent_change rep = F64.of_Z 10
           /\ average_daily_return rep = F64.lit 1 10).
Proof.
  split; [|split; [|split]].
  - intros sym df h rep Hrep.
    destruct (h !! df) as [d|] eqn:Hdf.
    + destruct (run_generate_insights sym df h d Hdf) as [Hrun _].
      rewrite Hrun in Hrep.
      destruct (insights_of_percent_change sym d rep Hrep)
        as (sorted & close & latest & close0 & ?).
      by exists d, sorted, close, latest, close0.
    + by rewrite (run_generate_insights_dangling sym df h Hdf) in Hrep.
  - apply percent_change_of_total.
  - intros sym df h points Hne Hdf Hperm Hfit.
    destruct (run_generate_insights sym df h _ Hdf) as [-> _].
    by apply insights_of_price_frame.
  - intros sym df h t slope Hdf Hsort Hfit.
    destruct (run_generate_insights sym df h _ Hdf) as [-> _].
    unfold Frame.NANOS_PER_DAY in *.
    unfold insights_of, sorted_by_date, close_of. run_insights.
    rewrite Hsort. run_insights.
    assert (Series.pct_change [F64.of_Z 100; F64.of_Z 110]
            = [F64.nan; F64.sub (F64.div (F64.of_Z 110) (F64.of_Z 100)) (F64.of_Z 1)])
      as -> by (unfold Series.pct_change; by destruct pct_change_pad).
    run_insights. rewrite percent_change_of_total.
    change (F64.isnan (F64.of_Z 100)) with false.
    change (F64.isnan (F64.of_Z 110)) with false.
    unfold slope_and_trend. run_insights. rewrite Hfit. run_insights.
    eexists. split; [reflexivity|]. split; by vm_compute.
Qed.

Lemma percent_change_spec_witness :
  exists rep,
    (generate_insights_from_history (H := Reference.library) "AAPL" 1%positive
       {[ 1%positive := price_frame [(Reference.day1, F64.of_Z 100);
                                     (Reference.day2, F64.of_Z 110)] ]}).2 = Ok rep
    /\ percent_change rep = F64.of_Z 10
    /\ average_daily_return rep = F64.lit 1 10.
Proof.
  destruct (percent_change_spec (H := Reference.library)) as (_ & _ & _ & Hexample).
  apply (Hexample _ _ _ Reference.day1 (F64.of_Z 10)); by vm_compute.
Defined.

(** ** Examples, run with the reference library *)

Section Examples.
Import Reference.

(** From three rows on, identical closes do give a volatility of 0.0. *)
Example three_identical_closes :
  exists rep,
    insights_of "AAPL" (price_frame [(day1, F64.of_Z 100); (day2, F64.of_Z 100);
                                     (day2 + Frame.NANOS_PER_DAY, F64.of_Z 100)]) = Ok rep
    /\ volatility rep = F64.zero
    /\ momentum_slope rep = F64.zero
    /\ trend_direction rep = "flat"%string
    /\ volatility_profile rep = "low"%string.
Proof. eexists. split; [by vm_compute|]. repeat split. Qed.

(** A first close of zero: no fault, and a change of 0.0. *)
Example first_close_zero :
  exists rep,
    insights_of "AAPL" (price_frame [(day1, F64.of_Z 0); (day2, F64.of_Z 5)]) = Ok rep
    /\ percent_change rep = F64.zero.
Proof. eexists. split; [by vm_compute|]. reflexivity. Qed.

(** A defined mean of Volume is truncated to an integer; without a Volume
    column the field is [None]. *)
Example average_volume_truncated :
  exists rep,
    insights_of "AAPL"
      (price_volume_frame [(day1, F64.of_Z 100, F64.of_Z 7);
                           (day2, F64.of_Z 101, F64.of_Z 8)]) = Ok rep
    /\ average_volume rep = Some 7.
Proof. eexists. split; [by vm_compute|]. reflexivity. Qed.

(** The symbol of the specification. *)
Example normalize_symbol_aapl : normalize_symbol (Some "  aapl "%string) = Ok "AAPL"%string.
Proof. reflexivity. Qed.

End Examples.

(** * Further properties *)

(** ** [normalize_symbol]: the form of an accepted symbol *)

Section Canonical.






End Canonical.



(** ** [build_date_range]: what it returns and what it reports *)

(** X2: a range that is returned is in order: its start compares as not
    after its end, and the two are both naive or both aware. *)
Theorem build_date_range_ordered `{Library}
    (start end_ : option string) (default_window : Z) (start_dt end_dt : datetime) :
  build_date_range start end_ default_window = Ok (start_dt, end_dt) ->
  Datetime.gt start_dt end_dt = Ok false
  /\ (is_Some (Datetime.utcoffset start_dt) <-> is_Some (Datetime.utcoffset end_dt)).
Proof.
  unfold build_date_range. intros Hrun.
  destruct (resolve_end end_) as [ed|] eqn:Hend; [|discriminate]. simpl in Hrun.
  destruct (resolve_start start ed default_window) as [sd|] eqn:Hstart; [|discriminate].
  simpl in Hrun.
  destruct (Datetime.gt sd ed) as [[]|] eqn:Hgt; try discriminate.
  simpl in Hrun. injection Hrun as <- <-. split; [done|].
  unfold Datetime.gt in Hgt.
  destruct (Datetime.utcoffset sd), (Datetime.utcoffset ed); try discriminate;
    split; intros [? ?]; eauto; discriminate.
Qed.

Lemma build_date_range_ordered_witness :
  Datetime.gt (Datetime.mk 63839664000000000 None) (Datetime.mk 63840441600000000 None)
  = Ok false
  /\ (is_Some (None : option Z) <-> is_Some (None : option Z)).
Proof.
  apply (build_date_range_ordered (H := Reference.library)
           (Some "2024-01-01"%string) (Some "2024-01-10"%string) DEFAULT_HISTORY_DAYS).
  reflexivity.
Defined.

(** X3: a supplied end that is no ISO date is reported with the text
    supplied, whatever the start is; once the end is settled, a
    supplied start that is no ISO date is reported in the same way. *)
Theorem build_date_range_invalid `{Library} (default_window : Z) :
  (forall start e,
      Str.truthy e = true -> fromisoformat e = None ->
      build_date_range start (Some e) default_window
      = Raise (ValueError ("Invalid ISO date: " +:+ e)))
  /\ (forall s end_ end_dt,
         Str.truthy s = true -> fromisoformat s = None ->
         resolve_end end_ = Ok end_dt ->
         build_date_range (Some s) end_ default_window
         = Raise (ValueError ("Invalid ISO date: " +:+ s))).
Proof.
  split.
  - intros start e He Hparse. unfold build_date_range, resolve_end.
    rewrite supplied_truthy by done. unfold parse_iso_date. by rewrite Hparse.
  - intros s end_ end_dt Hs Hparse Hend.
    assert (resolve_start (Some s) end_dt default_window
            = Raise (ValueError ("Invalid ISO date: " +:+ s))) as Hstart.
    { unfold resolve_start. rewrite supplied_truthy by done.
      unfold parse_iso_date. by rewrite Hparse. }
    unfold build_date_range. rewrite Hend. simpl. by rewrite Hstart.
Qed.

Lemma build_date_range_invalid_witness :
  build_date_range (H := Reference.library) (Some "soon"%string) (Some "2024-13-01"%string)
    DEFAULT_HISTORY_DAYS
  = Raise (ValueError "Invalid ISO date: 2024-13-01")
  /\ build_date_range (H := Reference.library) (Some "01/02/2024"%string) None
       DEFAULT_HISTORY_DAYS
     = Raise (ValueError "Invalid ISO date: 01/02/2024").
Proof.
  destruct (build_date_range_invalid (H := Reference.library) DEFAULT_HISTORY_DAYS)
    as [Hend Hstart].
  split.
  - apply Hend; reflexivity.
  - apply (Hstart _ None Reference.now); reflexivity.
Defined.

(** ** [extract_company_officers] *)

Section Officers.

Lemma format_officer_inv (v : json) (r : option Officer) :
  format_officer v = Done r ->
  exists fields,
    v = JObj fields
    /\ r = (if Json.truthy (Json.get fields "name") || Json.truthy (Json.get fields "title")
            then Some (mkOfficer (Json.get fields "name") (Json.get fields "title")
                         (Json.get fields "firm"))
            else None).
Proof.
  destruct v; try discriminate. simpl. intros Hr. exists fields. split; [done|].
  destruct (_ || _); congruence.
Qed.

Lemma mapM_format_inv (items : list json) (formatted : list (option Officer)) :
  outcome_mapM format_officer items = Done formatted ->
  Forall2 (fun v r => format_officer v = Done r) items formatted.
Proof.
  revert formatted. induction items as [|v items IH]; simpl; intros formatted.
  - intros [= <-]. constructor.
  - destruct (format_officer v) as [r|] eqn:Hv; [|discriminate]. simpl.
    destruct (outcome_mapM format_officer items) as [rs|]; [|discriminate]. simpl.
    intros [= <-]. constructor; auto.
Qed.

Lemma mapM_format_failed (items : list json) :
  Exists (fun v => is_object v = false) items ->
  outcome_mapM format_officer items = Failed (AttributeError "get").
Proof.
  induction 1 as [v items Hv | v items _ IH]; simpl.
  - by destruct v.
  - destruct (format_officer v) as [r|f] eqn:Hf; simpl.
    + by rewrite IH.
    + destruct v; simpl in Hf; try (by injection Hf as <-).
      destruct (_ || _) in Hf; discriminate.
Qed.

Lemma format_officer_json (o : Officer) :
  named o = true -> format_officer (officer_json o) = Done (Some o).
Proof. unfold named. destruct o. simpl. by intros ->. Qed.

Lemma mapM_officer_json (out : list Officer) :
  Forall (fun o => named o = true) out ->
  outcome_mapM format_officer (officer_json <$> out) = Done (Some <$> out).
Proof.
  induction 1 as [|o out Ho _ IH]; [done|].
  rewrite fmap_cons. cbn [outcome_mapM]. rewrite (format_officer_json o Ho), IH. done.
Qed.

Lemma omap_id_Some {A} (l : list A) : omap id (Some <$> l) = l.
Proof. induction l as [|x l IH]; [done|]. rewrite fmap_cons. csimpl. by rewrite IH. Qed.

Lemma officers_list (info : list (string * json)) (items : list json) :
  Json.get info "companyOfficers" = JArr items ->
  extract_company_officers info
  = formatted ← outcome_mapM format_officer items;
    Done (omap id (formatted : list (option Officer))).
Proof.
  intros Hget. unfold extract_company_officers. rewrite Hget.
  by destruct items.
Qed.

Lemma extracted_named (items : list json) (formatted : list (option Officer)) :
  Forall2 (fun v r => format_officer v = Done r) items formatted ->
  Forall (fun o => named o = true
                   /\ exists fields,
                        JObj fields ∈ items
                        /\ o = mkOfficer (Json.get fields "name") (Json.get fields "title")
                                 (Json.get fields "firm"))
    (omap id formatted)
  /\ (length (omap id formatted) <= length items)%nat.
Proof.
  induction 1 as [|v r items formatted Hv _ [IH Hlen]]; [by split; [constructor | ]|].
  destruct (format_officer_inv v r Hv) as (fields & -> & ->).
  assert (forall o, (named o = true
                     /\ exists fs, JObj fs ∈ items
                          /\ o = mkOfficer (Json.get fs "name") (Json.get fs "title")
                                   (Json.get fs "firm")) ->
                    named o = true
                    /\ exists fs, JObj fs ∈ JObj fields :: items
                          /\ o = mkOfficer (Json.get fs "name") (Json.get fs "title")
                                   (Json.get fs "firm")) as Hweak.
  { intros o (Ho & fs & Hin & ->). split; [done|]. exists fs. split; [by right | done]. }
  destruct (_ || _) eqn:Hnamed; csimpl.
  - split; [|simpl; lia]. constructor.
    + split; [exact Hnamed|]. exists fields. split; [by left | done].
    + eapply Forall_impl; [exact IH | exact Hweak].
  - split; [|simpl; lia]. eapply Forall_impl; [exact IH | exact Hweak].
Qed.

End Officers.

(** X4: every officer returned from a list has a name or a title and
    carries the name, title and firm of an entry of the list; there are
    no more officers than entries. *)
Theorem extract_company_officers_named
    (info : list (string * json)) (items : list json) (out : list Officer) :
  Json.get info "companyOfficers" = JArr items ->
  extract_company_officers info = Done out ->
  Forall (fun o => named o = true
                   /\ exists fields,
                        JObj fields ∈ items
                        /\ o = mkOfficer (Json.get fields "name") (Json.get fields "title")
                                 (Json.get fields "firm")) out
  /\ (length out <= length items)%nat.
Proof.
  intros Hget. rewrite (officers_list info items Hget).
  destruct (outcome_mapM format_officer items) as [formatted|] eqn:Hm; [|discriminate].
  simpl. intros [= <-]. by apply extracted_named, mapM_format_inv.
Qed.

Lemma extract_company_officers_named_witness :
  Forall (fun o => named o = true
                   /\ exists fields,
                        JObj fields ∈ [JObj [("name"%string, JStr "Ada")]; JObj []]
                        /\ o = mkOfficer (Json.get fields "name") (Json.get fields "title")
                                 (Json.get fields "firm"))
    [mkOfficer (JStr "Ada") JNull JNull]
  /\ (length [mkOfficer (JStr "Ada") JNull JNull] <= 2)%nat.
Proof.
  apply (extract_company_officers_named
           [("companyOfficers"%string, JArr [JObj [("name"%string, JStr "Ada")]; JObj []])]);
    reflexivity.
Defined.

(** X5: the officers returned, listed again as JSON objects under
    [companyOfficers], are extracted as they are: the extraction keeps
    all of them, in the same order. *)
Theorem extract_company_officers_round_trip
    (info : list (string * json)) (out : list Officer) :
  extract_company_officers info = Done out ->
  extract_company_officers [("companyOfficers"%string, JArr (officer_json <$> out))]
  = Done out.
Proof.
  intros Hout.
  assert (Forall (fun o => named o = true) out) as Hnamed.
  { unfold extract_company_officers in Hout.
    destruct (Json.iterate _) as [items|] eqn:Hitems; [|discriminate]. simpl in Hout.
    destruct (outcome_mapM format_officer items) as [formatted|] eqn:Hm; [|discriminate].
    simpl in Hout. injection Hout as <-.
    eapply Forall_impl; [apply extracted_named, mapM_format_inv, Hm|].
    by intros o [Ho _]. }
  rewrite (officers_list _ (officer_json <$> out)) by reflexivity.
  rewrite (mapM_officer_json out Hnamed). simpl. by rewrite omap_id_Some.
Qed.

Lemma extract_company_officers_round_trip_witness :
  extract_company_officers
    [("companyOfficers"%string,
      JArr (officer_json <$> [mkOfficer (JStr "Ada") JNull (JStr "Acme")]))]
  = Done [mkOfficer (JStr "Ada") JNull (JStr "Acme")].
Proof.
  apply (extract_company_officers_round_trip
           [("companyOfficers"%string,
             JArr [JObj [("firm"%string, JStr "Acme"); ("name"%string, JStr "Ada")];
                   JObj [("firm"%string, JStr "Acme")]])]).
  reflexivity.
Defined.

(** X6: without a [companyOfficers] entry, or with one that is null or
    an empty list, no officer is returned and nothing is raised; a list
    with an entry that is not an object ends the call with an
    [AttributeError], whatever the other entries are. *)
Theorem extract_company_officers_edges (info : list (string * json)) :
  (Json.truthy (Json.get info "companyOfficers") = false ->
   extract_company_officers info = Done [])
  /\ (forall items,
         Json.get info "companyOfficers" = JArr items ->
         Exists (fun v => is_object v = false) items ->
         extract_company_officers info = Failed (AttributeError "get")).
Proof.
  split.
  - intros Hfalsy. unfold extract_company_officers, Json.or_else. by rewrite Hfalsy.
  - intros items Hget Hbad. rewrite (officers_list info items Hget).
    by rewrite (mapM_format_failed items Hbad).
Qed.

Lemma extract_company_officers_edges_witness :
  extract_company_officers [("longName"%string, JStr "Acme")] = Done []
  /\ extract_company_officers
       [("companyOfficers"%string, JArr [JObj [("name"%string, JStr "Ada")]; JStr "Bob"])]
     = Failed (AttributeError "get").
Proof.
  split.
  - apply (proj1 (extract_company_officers_edges [("longName"%string, JStr "Acme")])).
    reflexivity.
  - apply (proj2 (extract_company_officers_edges
                    [("companyOfficers"%string,
                      JArr [JObj [("name"%string, JStr "Ada")]; JStr "Bob"])])
             [JObj [("name"%string, JStr "Ada")]; JStr "Bob"]).
    + reflexivity.
    + apply Exists_cons_tl, Exists_cons_hd. reflexivity.
Defined.

(** ** Calendar dates: from a day number to its text and back *)

Section CalendarDates.

Lemma digit_digit_char (z : Z) : Datetime.digit (Calendar.digit_char z) = Some (z mod 10).
Proof.
  unfold Datetime.digit, Calendar.digit_char.
  assert (0 <= z mod 10 < 10) as Hz by (apply Z.mod_pos_bound; lia).
  rewrite nat_ascii_embedding by lia.
  rewrite Z2Nat.id by lia.
  replace ((48 <=? 48 + z mod 10) && (48 + z mod 10 <=? 57)) with true
    by (symmetry; apply andb_true_intro; split; apply Z.leb_le; lia).
  f_equal. lia.
Qed.

Lemma digits_cons (acc z : Z) (cs : list ascii) :
  Datetime.digits acc (Calendar.digit_char z :: cs) = Datetime.digits (10 * acc + z mod 10) cs.
Proof. cbn [Datetime.digits]. by rewrite digit_digit_char. Qed.

Lemma digits_padded_2 (z : Z) :
  0 <= z < 100 ->
  Datetime.digits 0 [Calendar.digit_char (z / 10); Calendar.digit_char z] = Some z.
Proof.
  intros Hz. rewrite !digits_cons. cbn [Datetime.digits]. f_equal. Z.div_mod_to_equations. lia.
Qed.

Lemma digits_padded_4 (z : Z) :
  0 <= z < 10000 ->
  Datetime.digits 0
    [Calendar.digit_char (z / 10 / 10 / 10); Calendar.digit_char (z / 10 / 10);
     Calendar.digit_char (z / 10); Calendar.digit_char z] = Some z.
Proof.
  intros Hz. rewrite !digits_cons. cbn [Datetime.digits]. f_equal. Z.div_mod_to_equations. lia.
Qed.

Lemma month_day_spec (leapyear : bool) (n : Z) :
  0 <= n < 365 ->
  Calendar.valid_month_day leapyear (Calendar.month_day leapyear n)
  /\ Calendar.day_of_year leapyear (Calendar.month_day leapyear n) = n + 1.
Proof.
  intros Hn.
  assert (Forall (fun n => Calendar.valid_month_day leapyear (Calendar.month_day leapyear n)
                           /\ Calendar.day_of_year leapyear (Calendar.month_day leapyear n) = n + 1)
            (seqZ 0 365)) as Hall.
  { unfold Calendar.valid_month_day, Calendar.day_of_year.
    destruct leapyear; apply (bool_decide_unpack _); by vm_compute. }
  rewrite Forall_forall in Hall. apply Hall, elem_of_seqZ. lia.
Qed.

Lemma ord2ymd_eq (ordinal : Z) :
  Calendar.ord2ymd ordinal
  = let n0 := ordinal - 1 in
    let n400 := n0 / 146097 in
    let r400 := n0 mod 146097 in
    let n100 := r400 / 36524 in
    let r100 := r400 mod 36524 in
    let n4 := r100 / 1461 in
    let r4 := r100 mod 1461 in
    let n1 := r4 / 365 in
    let r1 := r4 mod 365 in
    let year := n400 * 400 + 1 + n100 * 100 + n4 * 4 + n1 in
    if (n1 =? 4) || (n100 =? 4) then (year - 1, 12, 31)
    else
      let md := Calendar.month_day ((n1 =? 3) && (negb (n4 =? 24) || (n100 =? 3))) r1 in
      (year, md.1, md.2).
Proof.
  unfold Calendar.ord2ymd, Calendar.month_day, Calendar.DI400Y, Calendar.DI100Y, Calendar.DI4Y.
  cbv zeta. repeat case_match; reflexivity.
Qed.

Lemma is_leap_cycle (n400 n100 n4 n1 : Z) :
  0 <= n100 <= 3 -> 0 <= n4 <= 24 -> 0 <= n1 <= 3 ->
  Datetime.is_leap (n400 * 400 + 1 + n100 * 100 + n4 * 4 + n1)
  = (n1 =? 3) && (negb (n4 =? 24) || (n100 =? 3)).
Proof.
  intros H100 H4 H1. unfold Datetime.is_leap.
  destruct (n1 =? 3) eqn:E1.
  - apply Z.eqb_eq in E1. subst n1.
    replace ((n400 * 400 + 1 + n100 * 100 + n4 * 4 + 3) mod 4 =? 0) with true
      by (symmetry; apply Z.eqb_eq; Z.div_mod_to_equations; lia).
    simpl andb.
    destruct (n4 =? 24) eqn:E4.
    + apply Z.eqb_eq in E4. subst n4. simpl negb.
      replace ((n400 * 400 + 1 + n100 * 100 + 24 * 4 + 3) mod 100 =? 0) with true
        by (symmetry; apply Z.eqb_eq; Z.div_mod_to_equations; lia).
      simpl. destruct (n100 =? 3) eqn:E100.
      * apply Z.eqb_eq in E100. subst n100. apply Z.eqb_eq. Z.div_mod_to_equations; lia.
      * apply Z.eqb_neq in E100. apply Z.eqb_neq. Z.div_mod_to_equations; lia.
    + apply Z.eqb_neq in E4. simpl negb.
      replace (n400 * 400 + 1 + n100 * 100 + n4 * 4 + 3)
        with (n4 * 4 + 4 + (n400 * 4 + n100) * 100) by lia.
      rewrite Z_mod_plus_full, Z.mod_small by lia.
      replace (n4 * 4 + 4 =? 0) with false by (symmetry; apply Z.eqb_neq; lia).
      reflexivity.
  - apply Z.eqb_neq in E1.
    replace ((n400 * 400 + 1 + n100 * 100 + n4 * 4 + n1) mod 4 =? 0) with false
      by (symmetry; apply Z.eqb_neq; Z.div_mod_to_equations; lia).
    reflexivity.
Qed.

Lemma days_before_year_cycle (n400 n100 n4 n1 : Z) :
  0 <= n400 -> 0 <= n100 <= 3 -> 0 <= n4 <= 24 -> 0 <= n1 <= 3 ->
  Datetime.days_before_year (n400 * 400 + 1 + n100 * 100 + n4 * 4 + n1)
  = n400 * 146097 + n100 * 36524 + n4 * 1461 + n1 * 365.
Proof.
  intros H400 H100 H4 H1. unfold Datetime.days_before_year. cbv zeta.
  Z.div_mod_to_equations. lia.
Qed.

(** The date of a day number is a date of the calendar, in the years 1
    to 9999, and that date has this day number. *)
Lemma ord2ymd_ymd2ord (ordinal : Z) :
  1 <= ordinal <= Datetime.MAX_ORDINAL ->
  exists y m d,
    Calendar.ord2ymd ordinal = (y, m, d)
    /\ 1 <= y <= 9999 /\ 1 <= m <= 12 /\ 1 <= d <= Datetime.days_in_month y m
    /\ Datetime.ymd2ord y m d = ordinal.
Proof.
  unfold Datetime.MAX_ORDINAL. intros Hn. rewrite ord2ymd_eq. cbv zeta.
  pose proof (Z.div_mod (ordinal - 1) 146097 ltac:(lia)) as E400.
  pose proof (Z.mod_pos_bound (ordinal - 1) 146097 ltac:(lia)) as B400.
  assert (0 <= (ordinal - 1) / 146097) as P400 by (apply Z.div_pos; lia).
  set (n400 := (ordinal - 1) / 146097) in *.
  set (r400 := (ordinal - 1) mod 146097) in *.
  pose proof (Z.div_mod r400 36524 ltac:(lia)) as E100.
  pose proof (Z.mod_pos_bound r400 36524 ltac:(lia)) as B100.
  assert (0 <= r400 / 36524 <= 4) as P100
    by (split; [apply Z.div_pos | apply Z.lt_succ_r, Z.div_lt_upper_bound]; lia).
  set (n100 := r400 / 36524) in *.
  set (r100 := r400 mod 36524) in *.
  pose proof (Z.div_mod r100 1461 ltac:(lia)) as E4.
  pose proof (Z.mod_pos_bound r100 1461 ltac:(lia)) as B4.
  assert (0 <= r100 / 1461 <= 24) as P4
    by (split; [apply Z.div_pos | apply Z.lt_succ_r, Z.div_lt_upper_bound]; lia).
  set (n4 := r100 / 1461) in *.
  set (r4 := r100 mod 1461) in *.
  pose proof (Z.div_mod r4 365 ltac:(lia)) as E1.
  pose proof (Z.mod_pos_bound r4 365 ltac:(lia)) as B1.
  assert (0 <= r4 / 365 <= 4) as P1
    by (split; [apply Z.div_pos | apply Z.lt_succ_r, Z.div_lt_upper_bound]; lia).
  set (n1 := r4 / 365) in *.
  set (r1 := r4 mod 365) in *.
  clearbody n400 r400 n100 r100 n4 r4 n1 r1.
  destruct (n1 =? 4) eqn:S1; [|destruct (n100 =? 4) eqn:S100]; cbn [orb].
  - apply Z.eqb_eq in S1. subst n1.
    assert (0 <= n100 <= 3 /\ 0 <= n4 <= 23) as [Q100 Q4] by lia.
    eexists _, _, _. split; [reflexivity|].
    replace (n400 * 400 + 1 + n100 * 100 + n4 * 4 + 4 - 1)
      with (n400 * 400 + 1 + n100 * 100 + n4 * 4 + 3) by lia.
    unfold Datetime.ymd2ord, Datetime.days_in_month, Datetime.days_before_month.
    rewrite is_leap_cycle, days_before_year_cycle by lia.
    replace (n4 =? 24) with false by (symmetry; apply Z.eqb_neq; lia).
    simpl. lia.
  - apply Z.eqb_eq in S100. subst n100.
    assert (n4 = 0 /\ n1 = 0) as [-> ->] by lia.
    eexists _, _, _. split; [reflexivity|].
    replace (n400 * 400 + 1 + 4 * 100 + 0 * 4 + 0 - 1)
      with (n400 * 400 + 1 + 3 * 100 + 24 * 4 + 3) by lia.
    unfold Datetime.ymd2ord, Datetime.days_in_month, Datetime.days_before_month.
    rewrite is_leap_cycle, days_before_year_cycle by lia. simpl. lia.
  - apply Z.eqb_neq in S1. apply Z.eqb_neq in S100.
    assert (0 <= n100 <= 3 /\ 0 <= n1 <= 3) as [Q100 Q1] by lia.
    destruct (month_day_spec ((n1 =? 3) && (negb (n4 =? 24) || (n100 =? 3))) r1 B1)
      as [(Hm & Hd) Hday].
    eexists _, _, _. split; [reflexivity|].
    unfold Datetime.ymd2ord, Datetime.days_in_month, Datetime.days_before_month.
    rewrite is_leap_cycle, days_before_year_cycle by lia.
    unfold Calendar.day_of_year in Hday.
    split; [lia|]. split; [exact Hm|]. split; [exact Hd|]. lia.
Qed.

Lemma format_ymd_chars (y m d : Z) :
  list_ascii_of_string (Calendar.format_ymd (y, m, d))
  = [Calendar.digit_char (y / 10 / 10 / 10); Calendar.digit_char (y / 10 / 10);
     Calendar.digit_char (y / 10); Calendar.digit_char y; "-"%char;
     Calendar.digit_char (m / 10); Calendar.digit_char m; "-"%char;
     Calendar.digit_char (d / 10); Calendar.digit_char d].
Proof. reflexivity. Qed.

(** The text of a date of the calendar reads back as that date. *)
Lemma fromisoformat_format_ymd (y m d : Z) :
  1 <= y <= 9999 -> 1 <= m <= 12 -> 1 <= d <= Datetime.days_in_month y m ->
  Datetime.fromisoformat_date (Calendar.format_ymd (y, m, d))
  = Some (Datetime.mk ((Datetime.ymd2ord y m d - 1) * Datetime.MICROS_PER_DAY) None).
Proof.
  intros Hy Hm Hd.
  assert (Datetime.days_in_month y m <= 31) as Hdim.
  { unfold Datetime.days_in_month. repeat case_match; lia. }
  unfold Datetime.fromisoformat_date. rewrite format_ymd_chars.
  rewrite digits_padded_4 by lia. rewrite !digits_padded_2 by lia. csimpl.
  replace ((1 <=? y) && (1 <=? m) && (m <=? 12) && (1 <=? d)
           && (d <=? Datetime.days_in_month y m)) with true; [done|].
  symmetry. repeat (apply andb_true_intro; split); apply Z.leb_le; lia.
Qed.

Lemma isoformat_of_ordinal (ordinal : Z) :
  1 <= ordinal <= Datetime.MAX_ORDINAL ->
  Datetime.fromisoformat_date (Calendar.format_ymd (Calendar.ord2ymd ordinal))
  = Some (Datetime.mk ((ordinal - 1) * Datetime.MICROS_PER_DAY) None).
Proof.
  intros Hn. destruct (ord2ymd_ymd2ord ordinal Hn) as (y & m & d & -> & Hy & Hm & Hd & <-).
  by apply fromisoformat_format_ymd.
Qed.

Lemma toordinal_in_range (t : Z) :
  Calendar.in_timestamp_range t = true ->
  1 <= Frame.toordinal t <= Datetime.MAX_ORDINAL.
Proof.
  unfold Calendar.in_timestamp_range, Frame.toordinal, Frame.NANOS_PER_DAY,
    Datetime.MAX_ORDINAL.
  intros [H1 H2]%andb_prop. apply Z.ltb_lt in H1, H2.
  change (2 ^ 63) with 9223372036854775808 in *.
  Z.div_mod_to_equations. lia.
Qed.

End CalendarDates.

(** ** Rounding never makes a NaN *)

Section Rounding.










End Rounding.

(** ** [historical_records_from_dataframe] *)

Section Records.
Context `{Builtins}.


Lemma outcome_bind_inv {A B} (m : outcome A) (k : A -> outcome B) (b : B) :
  m ≫= k = Done b -> exists a, m = Done a /\ k a = Done b.
Proof. destruct m as [a|f]; [|discriminate]. intros Hk. by exists a. Qed.

Lemma historical_record_inv (cols : list string) (row : Row) (r : HistoricalRecord) :
  historical_record cols row = Done r ->
  exists t o hi lo c v,
    row_attr cols row "Date" = Done (CTime t)
    /\ rec_date r = Calendar.strftime_ymd t
    /\ row_attr cols row "Open" = Done o /\ price_field o = Done (rec_open r)
    /\ row_attr cols row "High" = Done hi /\ price_field hi = Done (rec_high r)
    /\ row_attr cols row "Low" = Done lo /\ price_field lo = Done (rec_low r)
    /\ row_attr cols row "Close" = Done c /\ price_field c = Done (rec_close r)
    /\ row_attr cols row "Volume" = Done v /\ volume_field v = Done (rec_volume r).
Proof.
  unfold historical_record. intros Hr.
  apply outcome_bind_inv in Hr as (date & Hdate & Hr).
  apply outcome_bind_inv in Hdate as (dc & Hdc & Hdate).
  apply outcome_bind_inv in Hr as (o' & Ho & Hr).
  apply outcome_bind_inv in Ho as (o & Hoc & Ho).
  apply outcome_bind_inv in Hr as (hi' & Hhi & Hr).
  apply outcome_bind_inv in Hhi as (hi & Hhic & Hhi).
  apply outcome_bind_inv in Hr as (lo' & Hlo & Hr).
  apply outcome_bind_inv in Hlo as (lo & Hloc & Hlo).
  apply outcome_bind_inv in Hr as (c' & Hc & Hr).
  apply outcome_bind_inv in Hc as (c & Hcc & Hc).
  apply outcome_bind_inv in Hr as (v' & Hv & Hr).
  apply outcome_bind_inv in Hv as (v & Hvc & Hv).
  injection Hr as <-. simpl.
  destruct dc as [| | | |t]; try discriminate. injection Hdate as <-.
  exists t, o, hi, lo, c, v. done.
Qed.

Lemma outcome_mapM_inv {A B} (f : A -> outcome B) (l : list A) (l' : list B) :
  outcome_mapM f l = Done l' -> Forall2 (fun a b => f a = Done b) l l'.
Proof.
  revert l'. induction l as [|a l IH]; simpl; intros l'.
  - intros [= <-]. constructor.
  - intros Hl. apply outcome_bind_inv in Hl as (b & Hb & Hl).
    apply outcome_bind_inv in Hl as (bs & Hbs & Hl). injection Hl as <-.
    constructor; auto.
Qed.

Lemma positions_absent (name : string) (cols : list string) (i : nat) :
  existsb (String.eqb name) cols = false -> Frame.positions name cols i = [].
Proof.
  revert i. induction cols as [|c cs IH]; intros i; cbn [existsb Frame.positions]; [done|].
  rewrite (String.eqb_sym c). destruct (String.eqb name c); cbn [orb]; [discriminate|].
  intros Hcs. by rewrite IH.
Qed.

End Records.


(** X8: the date of each record is the calendar date of the timestamp
    in the [Date] cell of its row, written [YYYY-MM-DD]: for a timestamp
    that [datetime64[ns]] can hold, reading the text back gives midnight
    of the day of the timestamp. *)
Theorem historical_records_dates `{Builtins} (d : DataFrame) (records : list HistoricalRecord) :
  historical_records d = Done records ->
  Forall2 (fun row r =>
             exists t,
               row_attr (columns d) row "Date" = Done (CTime t)
               /\ rec_date r = Calendar.strftime_ymd t
               /\ String.length (rec_date r) = 10%nat
               /\ (Calendar.in_timestamp_range t = true ->
                   Datetime.fromisoformat_date (rec_date r)
                   = Some (Datetime.mk
                             ((Frame.toordinal t - 1) * Datetime.MICROS_PER_DAY) None)))
    (rows d) records.
Proof.
  unfold historical_records. intros Hrecs%outcome_mapM_inv.
  eapply Forall2_impl; [exact Hrecs|]. intros row r Hr. simpl in Hr.
  apply historical_record_inv in Hr as (t & _ & _ & _ & _ & _ & Ht & Hdate & _).
  exists t. split; [done|]. split; [done|]. rewrite Hdate. split.
  - unfold Calendar.strftime_ymd. by destruct (Calendar.ord2ymd _) as [[y m] dd].
  - intros Hrange. by apply isoformat_of_ordinal, toordinal_in_range.
Qed.

(** X9: a frame without rows has no records, whatever its columns are; a
    frame with a row and no [Date] column ends the call with an
    [AttributeError] for [Date], and one whose first row holds in its
    [Date] cell something else than a timestamp with an
    [AttributeError] for [strftime]. *)
Theorem historical_records_edges `{Builtins} (d : DataFrame) :
  (rows d = [] -> historical_records d = Done [])
  /\ (rows d <> [] -> Frame.has_column d "Date" = false ->
      historical_records d = Failed (AttributeError "Date"))
  /\ (forall row rest v,
         rows d = row :: rest ->
         row_attr (columns d) row "Date" = Done v ->
         is_timestamp v = false ->
         historical_records d = Failed (AttributeError "strftime")).
Proof.
  unfold historical_records. split; [|split].
  - by intros ->.
  - intros Hrows Hcol. destruct (rows d) as [|row rest]; [done|].
    pose proof (positions_absent "Date" (columns d) 0 Hcol) as Hpos.
    simpl. unfold historical_record, row_attr. by rewrite Hpos.
  - intros row rest v -> Hv Hts. simpl. unfold historical_record. rewrite Hv.
    by destruct v.
Qed.


Lemma historical_records_dates_witness :
  Forall2 (fun row r =>
             exists t,
               row_attr (columns Sample.table) row "Date" = Done (CTime t)
               /\ rec_date r = Calendar.strftime_ymd t
               /\ String.length (rec_date r) = 10%nat
               /\ (Calendar.in_timestamp_range t = true ->
                   Datetime.fromisoformat_date (rec_date r)
                   = Some (Datetime.mk
                             ((Frame.toordinal t - 1) * Datetime.MICROS_PER_DAY) None)))
    (rows Sample.table) Sample.records.
Proof. apply (historical_records_dates Sample.table). vm_compute. reflexivity. Defined.

Lemma historical_records_edges_witness :
  historical_records (mkDataFrame None ["Date"; "Close"]%string []) = Done []
  /\ historical_records Sample.daily = Failed (AttributeError "Date")
  /\ historical_records
       (mkDataFrame None ["Date"; "Close"]%string
          [mkRow (CInt 0) [CStr "2024-01-02"; CNum (F64.of_Z 1)]])
     = Failed (AttributeError "strftime").
Proof.
  split; [|split].
  - apply (proj1 (historical_records_edges (mkDataFrame None ["Date"; "Close"]%string []))).
    reflexivity.
  - apply (proj1 (proj2 (historical_records_edges Sample.daily))).
    + discriminate.
    + reflexivity.
  - apply (proj2 (proj2 (historical_records_edges
                           (mkDataFrame None ["Date"; "Close"]%string
                              [mkRow (CInt 0) [CStr "2024-01-02"; CNum (F64.of_Z 1)]])))
             (mkRow (CInt 0) [CStr "2024-01-02"; CNum (F64.of_Z 1)]) []
             (CStr "2024-01-02")); reflexivity.
Defined.

(** ** [download_historical_data] *)

Section Download.
Context `{Library} `{Provider}.

Lemma call_bind {A B} (m : Call A) (k : A -> Call B) (h : heap) :
  (m ≫= k) h
  = match m h with
    | (h', Done a) => k a h'
    | (h', Failed f) => (h', Failed f)
    end.
Proof. reflexivity. Qed.

Lemma call_new {B} (d : DataFrame) (k : loc -> Call B) (h : heap) :
  (Calls.run (Heap.new d) ≫= k) h = k (fresh (dom h)) (<[fresh (dom h) := d]> h).
Proof. reflexivity. Qed.

Lemma call_get {B} (l : loc) (d : DataFrame) (k : DataFrame -> Call B) (h : heap) :
  h !! l = Some d -> (Calls.run (Heap.get l) ≫= k) h = k d h.
Proof. intros Hl. rewrite call_bind. unfold Calls.run, Heap.get. by rewrite Hl. Qed.

Lemma call_lift {A B} (r : outcome A) (k : A -> Call B) (h : heap) :
  (Calls.lift r ≫= k) h
  = match r with Done a => k a h | Failed f => (h, Failed f) end.
Proof. rewrite call_bind. unfold Calls.lift. by destruct r. Qed.

Lemma call_pure {A B} (r : result A) (k : A -> Call B) (h : heap) :
  (Calls.pure r ≫= k) h
  = match r with Ok a => k a h | Raise e => (h, Failed (Raised e)) end.
Proof. unfold Calls.pure. rewrite call_lift. by destruct r. Qed.

Lemma insert_fresh_subseteq (h0 h : heap) (d : DataFrame) :
  h0 ⊆ h -> h0 ⊆ <[fresh (dom h) := d]> h.
Proof.
  intros Hinc. etrans; [exact Hinc|]. apply insert_subseteq, fresh_lookup.
Qed.

(** The stateful function computes [downloaded_history] and binds it to
    a new object; the objects of the initial heap are left as they
    were. *)
Lemma run_download sym start end_ interval h h' r :
  download_historical_data sym start end_ interval h = (h', r) ->
  h ⊆ h'
  /\ match r with
     | Done l =>
         exists d, downloaded_history sym start end_ interval = Done d
                   /\ h' !! l = Some d /\ h !! l = None
     | Failed f => downloaded_history sym start end_ interval = Failed f
     end.
Proof.
  unfold download_historical_data, downloaded_history, requested_history.
  rewrite call_pure.
  destruct (build_date_range start end_ DEFAULT_HISTORY_DAYS) as [[start_dt end_dt]|e];
    [|by intros [= <- <-]]. cbn [of_result mbind outcome_bind].
  rewrite call_pure.
  destruct (Datetime.timedelta_days 1) as [day|e]; [|by intros [= <- <-]].
  cbn [of_result mbind outcome_bind]. rewrite call_pure.
  destruct (Calendar.add_delta end_dt day) as [end_inclusive|e]; [|by intros [= <- <-]].
  cbn [of_result mbind outcome_bind]. rewrite call_lift.
  destruct (ticker_history sym start_dt end_inclusive interval) as [fetched|f];
    [|by intros [= <- <-]].
  cbn [mbind outcome_bind]. unfold flattened_history.
  rewrite call_new. set (l1 := fresh (dom h)). set (h1 := <[l1 := fetched]> h).
  assert (h ⊆ h1) as Hinc1 by (by apply insert_fresh_subseteq).
  rewrite (call_get l1 fetched) by apply lookup_insert_eq.
  destruct (Frame.empty fetched); [by intros [= <- <-]|].
  rewrite call_pure.
  destruct (select_columns PRICE_COLUMNS fetched) as [selected|e]; [|by intros [= <- <-]].
  cbn [of_result mbind outcome_bind].
  rewrite call_new. set (l2 := fresh (dom h1)). set (h2 := <[l2 := selected]> h1).
  assert (h ⊆ h2) as Hinc2 by (by apply insert_fresh_subseteq).
  unfold DF.copy. rewrite call_bind. unfold Calls.run at 1. rewrite run_bind.
  rewrite (run_get l2 selected) by apply lookup_insert_eq. rewrite run_new.
  cbn [of_result]. set (l3 := fresh (dom h2)). set (h3 := <[l3 := selected]> h2).
  assert (h ⊆ h3) as Hinc3 by (by apply insert_fresh_subseteq).
  rewrite (call_get l3 selected) by apply lookup_insert_eq.
  rewrite call_lift. destruct (index_tz selected) as [[]|f]; [|by intros [= <- <-]].
  cbn [mbind outcome_bind]. rewrite call_pure.
  destruct (reset_index_named selected) as [flat|e]; [|by intros [= <- <-]].
  cbn [of_result mbind outcome_bind].
  rewrite call_new. set (l4 := fresh (dom h3)). set (h4 := <[l4 := flat]> h3).
  unfold DF.rename_inplace. rewrite call_bind. unfold Calls.run at 1. rewrite run_bind.
  rewrite (run_get l4 flat) by apply lookup_insert_eq.
  rewrite (run_put l4 flat) by apply lookup_insert_eq.
  cbv beta iota zeta. unfold mret, Call_ret. cbn [of_result].
  intros [= <- <-]. split.
  - assert (h !! l4 = None) as Hl4
      by (eapply lookup_weaken_None; [apply (fresh_lookup h3)|exact Hinc3]).
    by do 2 (apply insert_subseteq_r; [exact Hl4|]).
  - eexists. split; [reflexivity|]. split; [apply lookup_insert_eq|].
    eapply lookup_weaken_None; [apply (fresh_lookup h3)|exact Hinc3].
Qed.

End Download.

Section DownloadShape.
Context `{Library} `{Provider}.

Lemma download_failed sym start end_ interval h f :
  downloaded_history sym start end_ interval = Failed f ->
  (download_historical_data sym start end_ interval h).2 = Failed f.
Proof.
  intros Hd. destruct (download_historical_data sym start end_ interval h) as [h' r] eqn:Hrun.
  destruct (run_download _ _ _ _ _ _ _ Hrun) as [_ Hr]. simpl.
  destruct r as [l|f']; [destruct Hr as (d & Hd' & _)|]; congruence.
Qed.

Lemma positions_name (name : string) (cols : list string) (k i : nat) :
  i ∈ Frame.positions name cols k -> nth (i - k) cols EmptyString = name.
Proof.
  revert k. induction cols as [|c cols IH]; intros k; cbn [Frame.positions].
  - by intros ?%elem_of_nil.
  - rewrite elem_of_app. intros [Hi|Hi].
    + destruct (String.eqb c name) eqn:Hc; [|by apply elem_of_nil in Hi].
      apply list_elem_of_singleton in Hi as ->. rewrite Nat.sub_diag. simpl.
      by apply String.eqb_eq.
    + pose proof (positions_bound _ _ _ _ Hi) as Hb. apply IH in Hi.
      replace (i - k)%nat with (S (i - S k)) by lia. exact Hi.
Qed.

Lemma positions_present (name : string) (cols : list string) (k : nat) :
  existsb (String.eqb name) cols = true -> exists i, i ∈ Frame.positions name cols k.
Proof.
  revert k. induction cols as [|c cols IH]; intros k; cbn [existsb Frame.positions]; [done|].
  rewrite (String.eqb_sym c). destruct (String.eqb name c); cbn [orb].
  - intros _. exists k. apply elem_of_app. left. by left.
  - intros [i Hi]%(IH (S k)). exists i. apply elem_of_app. by right.
Qed.

(** The frame [df.loc[:, names]] keeps the index and the rows; its
    columns are labelled in [names], and every label of [names] is
    there. *)
Lemma select_columns_inv (names : list string) (d s : DataFrame) :
  select_columns names d = Ok s ->
  index_name s = index_name d
  /\ label <$> rows s = label <$> rows d
  /\ Forall (fun c => c ∈ names) (columns s)
  /\ Forall (fun n => n ∈ columns s) names.
Proof.
  unfold select_columns.
  destruct (List.filter _ names) as [|missing ?] eqn:Hmiss; [|discriminate].
  intros [= <-]. cbn [index_name rows columns]. split; [done|]. split.
  { rewrite <- list_fmap_compose. by apply list_fmap_ext. }
  assert (forall n, n ∈ names -> Frame.has_column d n = true) as Hall.
  { intros n Hn. destruct (Frame.has_column d n) eqn:Hc; [done|].
    assert (In n (List.filter (fun n => negb (Frame.has_column d n)) names)) as Hin.
    { apply filter_In. split; [by apply list_elem_of_In|]. by rewrite Hc. }
    rewrite Hmiss in Hin. destruct Hin. }
  split.
  - apply Forall_forall. intros c Hc.
    apply list_elem_of_fmap in Hc as (i & -> & Hi).
    apply list_elem_of_bind in Hi as (n & Hi & Hn).
    pose proof (positions_name _ _ _ _ Hi) as Hnth. rewrite Nat.sub_0_r in Hnth.
    by rewrite Hnth.
  - apply Forall_forall. intros n Hn.
    destruct (positions_present n (columns d) 0 (Hall n Hn)) as [i Hi].
    apply list_elem_of_fmap. exists i. split.
    + pose proof (positions_name _ _ _ _ Hi) as Hnth. by rewrite Nat.sub_0_r in Hnth.
    + apply list_elem_of_bind. by exists n.
Qed.

Lemma rename_date_to_date (d : DataFrame) : Frame.rename date_to_date d = d.
Proof.
  destruct d as [name cols rs]. unfold Frame.rename. cbn [index_name columns rows].
  f_equal. rewrite <- (list_fmap_id cols) at 2. apply list_fmap_ext. intros _ c _.
  unfold date_to_date. destruct (String.eqb c "Date") eqn:Hc; [|done].
  apply String.eqb_eq in Hc. by subst c.
Qed.

Lemma flattened_history_inv (fetched d : DataFrame) :
  flattened_history fetched = Done d ->
  Frame.empty fetched = false
  /\ index_name d = None
  /\ label <$> rows d = (fun i => CInt (Z.of_nat i)) <$> seq 0 (length (rows fetched))
  /\ Frame.cell_at 0 <$> rows d = label <$> rows fetched
  /\ exists cols,
       columns d = default "index"%string (index_name fetched) :: cols
       /\ Forall (fun c => c ∈ PRICE_COLUMNS) cols
       /\ Forall (fun n => n ∈ cols) PRICE_COLUMNS.
Proof.
  unfold flattened_history. destruct (Frame.empty fetched); [discriminate|].
  destruct (select_columns PRICE_COLUMNS fetched) as [s|] eqn:Hs; [|discriminate].
  cbn [of_result mbind outcome_bind].
  destruct (index_tz s) as [[]|]; [|discriminate]. cbn [mbind outcome_bind].
  unfold reset_index_named.
  destruct (Frame.has_column s _); [discriminate|]. cbn [of_result mbind outcome_bind].
  rewrite rename_date_to_date. intros [= <-].
  destruct (select_columns_inv _ _ _ Hs) as (Hname & Hlabels & Hcols & Hall).
  split; [done|]. split; [done|]. cbn [Frame.reset_index rows columns].
  assert (length (rows s) = length (rows fetched)) as Hlen
    by (by rewrite <- (length_fmap label), Hlabels, length_fmap).
  split; [|split].
  - rewrite fmap_imap. rewrite <- Hlen. clear. generalize (rows s). intros rs.
    apply list_eq. intros i. rewrite list_lookup_imap, list_lookup_fmap.
    destruct (rs !! i) as [r|] eqn:Hr; simpl.
    + apply lookup_lt_Some in Hr as Hi. by rewrite lookup_seq_lt.
    + apply lookup_ge_None in Hr. by rewrite lookup_seq_ge.
  - rewrite fmap_imap, <- Hlabels. apply list_eq. intros i.
    rewrite list_lookup_imap, list_lookup_fmap. by destruct (rows s !! i).
  - exists (columns s). by rewrite Hname.
Qed.

End DownloadShape.

(** X10: a frame is returned for a fetched history that has rows and
    columns. It is a new object, the objects of the caller are as they
    were, and it has one row per fetched row, numbered from 0, whose
    first cell is the index label of the fetched row; its first column
    bears the name of the fetched index ([index] when it has none), and
    its other columns are the five price columns: each of them is there,
    and no other column of the provider is. *)
Theorem download_historical_data_shape `{Library} `{Provider}
    (sym : string) (start end_ : option string) (interval : string) (h h' : heap) (l : loc) :
  download_historical_data sym start end_ interval h = (h', Done l) ->
  exists fetched d cols,
    requested_history sym start end_ interval = Done fetched
    /\ Frame.empty fetched = false
    /\ h' !! l = Some d /\ h !! l = None /\ h ⊆ h'
    /\ label <$> rows d = (fun i => CInt (Z.of_nat i)) <$> seq 0 (length (rows fetched))
    /\ Frame.cell_at 0 <$> rows d = label <$> rows fetched
    /\ columns d = default "index"%string (index_name fetched) :: cols
    /\ Forall (fun c => c ∈ PRICE_COLUMNS) cols
    /\ Forall (fun n => n ∈ cols) PRICE_COLUMNS.
Proof.
  intros Hrun. destruct (run_download _ _ _ _ _ _ _ Hrun) as (Hinc & d & Hd & Hl & Hnew).
  unfold downloaded_history in Hd.
  destruct (requested_history sym start end_ interval) as [fetched|]; [|discriminate].
  cbn [mbind outcome_bind] in Hd.
  destruct (flattened_history_inv fetched d Hd)
    as (Hne & _ & Hlabels & Hfirst & cols & Hcols & Hin & Hall).
  exists fetched, d, cols. done.
Qed.

(** X11: when the provider has no row (or no column) for the range, the
    call ends with the [ValueError] that says so, whatever else the
    fetched frame holds. *)
Theorem download_historical_data_no_history `{Library} `{Provider}
    (sym : string) (start end_ : option string) (interval : string) (h : heap)
    (fetched : DataFrame) :
  requested_history sym start end_ interval = Done fetched ->
  Frame.empty fetched = true ->
  (download_historical_data sym start end_ interval h).2
  = Failed (Raised (ValueError "No historical data found for the requested range and symbol.")).
Proof.
  intros Hreq Hempty. apply download_failed.
  unfold downloaded_history. rewrite Hreq. cbn [mbind outcome_bind].
  unfold flattened_history. by rewrite Hempty.
Qed.

(** X12: the provider is asked for the history from the start of the
    range to one day past its end, with the interval given; when the
    day past the end is beyond the last [datetime], the call ends with
    an [OverflowError] and the provider is not asked. *)
Theorem download_historical_data_window `{Library} `{Provider}
    (sym : string) (start end_ : option string) (interval : string)
    (start_dt end_dt : datetime) :
  build_date_range start end_ DEFAULT_HISTORY_DAYS = Ok (start_dt, end_dt) ->
  (Datetime.in_range (Datetime.wall end_dt + Datetime.MICROS_PER_DAY) = true ->
   requested_history sym start end_ interval
   = ticker_history sym start_dt
       (Datetime.mk (Datetime.wall end_dt + Datetime.MICROS_PER_DAY)
          (Datetime.utcoffset end_dt))
       interval)
  /\ (Datetime.in_range (Datetime.wall end_dt + Datetime.MICROS_PER_DAY) = false ->
      forall h,
        (download_historical_data sym start end_ interval h).2 = Failed (Raised OverflowError)).
Proof.
  intros Hrange.
  assert (forall b, Datetime.in_range (Datetime.wall end_dt + Datetime.MICROS_PER_DAY) = b ->
            requested_history sym start end_ interval
            = if b then ticker_history sym start_dt
                          (Datetime.mk (Datetime.wall end_dt + Datetime.MICROS_PER_DAY)
                             (Datetime.utcoffset end_dt)) interval
              else Failed (Raised OverflowError)) as Hreq.
  { intros b Hb. unfold requested_history. rewrite Hrange.
    cbn [of_result mbind outcome_bind]. unfold Calendar.add_delta, Datetime.sub_delta.
    change (Datetime.timedelta_days 1) with (Ok (1 * Datetime.MICROS_PER_DAY)).
    cbn [of_result mbind outcome_bind].
    replace (Datetime.wall end_dt - - (1 * Datetime.MICROS_PER_DAY))
      with (Datetime.wall end_dt + Datetime.MICROS_PER_DAY) by lia.
    rewrite Hb. by destruct b. }
  split.
  - intros Hin. by rewrite (Hreq true Hin).
  - intros Hout h. apply download_failed. unfold downloaded_history.
    by rewrite (Hreq false Hout).
Qed.

Lemma download_historical_data_shape_witness :
  exists (h' : heap) (l : loc) fetched d cols,
    requested_history (H := Reference.library) "ACME" None (Some "2024-01-10"%string) "1d"
    = Done fetched
    /\ Frame.empty fetched = false
    /\ h' !! l = Some d /\ (∅ : heap) !! l = None /\ ∅ ⊆ h'
    /\ label <$> rows d = (fun i => CInt (Z.of_nat i)) <$> seq 0 (length (rows fetched))
    /\ Frame.cell_at 0 <$> rows d = label <$> rows fetched
    /\ columns d = default "index"%string (index_name fetched) :: cols
    /\ Forall (fun c => c ∈ PRICE_COLUMNS) cols
    /\ Forall (fun n => n ∈ cols) PRICE_COLUMNS.
Proof.
  eexists _, _.
  apply (download_historical_data_shape (H := Reference.library)
           "ACME" None (Some "2024-01-10"%string) "1d" ∅).
  vm_compute. reflexivity.
Defined.

Lemma download_historical_data_no_history_witness :
  (download_historical_data (H := Reference.library)
     "NONE" None (Some "2024-01-10"%string) "1d" ∅).2
  = Failed (Raised (ValueError "No historical data found for the requested range and symbol.")).
Proof.
  apply (download_historical_data_no_history (H := Reference.library)
           "NONE" None (Some "2024-01-10"%string) "1d" ∅ Sample.nothing);
    vm_compute; reflexivity.
Defined.

Lemma download_historical_data_window_witness :
  requested_history (H := Reference.library)
    "ACME" (Some "2024-01-01"%string) (Some "2024-01-10"%string) "1d"
  = ticker_history "ACME" (Datetime.mk 63839664000000000 None)
      (Datetime.mk (63840441600000000 + Datetime.MICROS_PER_DAY) None) "1d"
  /\ (download_historical_data (H := Reference.library)
        "ACME" (Some "9999-12-01"%string) (Some "9999-12-31"%string) "1d" ∅).2
     = Failed (Raised OverflowError).
Proof.
  split.
  - apply (proj1 (download_historical_data_window (H := Reference.library)
                    "ACME" (Some "2024-01-01"%string) (Some "2024-01-10"%string) "1d"
                    (Datetime.mk 63839664000000000 None)
                    (Datetime.mk 63840441600000000 None) eq_refl)).
    reflexivity.
  - apply (proj2 (download_historical_data_window (H := Reference.library)
                    "ACME" (Some "9999-12-01"%string) (Some "9999-12-31"%string) "1d"
                    (Datetime.mk 315535219200000000 None)
                    (Datetime.mk 315537811200000000 None) eq_refl)).
    reflexivity.
Defined.

(** ** The routes *)

Section Routes.
Context `{Library} `{Provider}.

Lemma try_symbol (sym : option string) (s : string) (k : string -> Call response)
    (h : heap) :
  normalize_symbol sym = Ok s ->
  try_ValueError (Calls.pure (normalize_symbol sym)) k h = k s h.
Proof. intros Hs. unfold try_ValueError, Calls.pure, Calls.lift. by rewrite Hs. Qed.

Lemma download_done sym start end_ interval h d :
  downloaded_history sym start end_ interval = Done d ->
  exists h' l,
    download_historical_data sym start end_ interval h = (h', Done l)
    /\ h' !! l = Some d.
Proof.
  intros Hd. destruct (download_historical_data sym start end_ interval h) as [h' r] eqn:Hrun.
  destruct (run_download _ _ _ _ _ _ _ Hrun) as [_ Hr].
  destruct r as [l|f]; [|congruence]. destruct Hr as (d' & Hd' & Hl & _).
  exists h', l. split; [done|]. congruence.
Qed.

Lemma download_failed_run sym start end_ interval h f :
  downloaded_history sym start end_ interval = Failed f ->
  exists h', download_historical_data sym start end_ interval h = (h', Failed f).
Proof.
  intros Hd. destruct (download_historical_data sym start end_ interval h) as [h' r] eqn:Hrun.
  destruct (run_download _ _ _ _ _ _ _ Hrun) as [_ Hr].
  destruct r as [l|f']; [destruct Hr as (d & Hd' & _); congruence|].
  exists h'. congruence.
Qed.

Lemma flattened_without_date (fetched d : DataFrame) :
  flattened_history fetched = Done d ->
  index_name fetched <> Some "Date"%string ->
  Frame.has_column d "Date" = false /\ index_name d = None /\ rows d <> [].
Proof.
  intros Hd Hname.
  destruct (flattened_history_inv fetched d Hd)
    as (Hne & Hidx & Hlabels & _ & cols & Hcols & Hin & _).
  split; [|split; [done|]].
  - unfold Frame.has_column. rewrite Hcols. cbn [existsb].
    apply orb_false_intro.
    + apply String.eqb_neq. intros Heq. apply Hname.
      destruct (index_name fetched) as [n|]; simpl in Heq; [by subst n | discriminate].
    + apply not_true_is_false. intros (c & Hc & Heq)%existsb_exists.
      apply String.eqb_eq in Heq as <-. apply list_elem_of_In in Hc.
      rewrite Forall_forall in Hin. specialize (Hin _ Hc).
      unfold PRICE_COLUMNS in Hin.
      repeat (apply elem_of_cons in Hin as [Hin|Hin]; [discriminate|]).
      by apply elem_of_nil in Hin.
  - intros Hrows. rewrite Hrows in Hlabels. simpl in Hlabels.
    unfold Frame.empty in Hne. destruct (rows fetched); [done|]. discriminate Hlabels.
Qed.

Lemma records_without_date `{Builtins} (d : DataFrame) :
  rows d <> [] -> Frame.has_column d "Date" = false ->
  historical_records d = Failed (AttributeError "Date").
Proof.
  intros Hrows Hcol. unfold historical_records.
  destruct (rows d) as [|row rest]; [done|].
  pose proof (positions_absent "Date" (columns d) 0 Hcol) as Hpos.
  simpl. unfold historical_record, row_attr. by rewrite Hpos.
Qed.

Lemma insights_without_date (sym : string) (d : DataFrame) :
  Frame.has_column d "Date" = false -> index_name d <> Some "Date"%string ->
  insights_of sym d = Raise MISSING_DATE_COLUMN.
Proof.
  intros Hcol Hidx. unfold insights_of, sorted_by_date, with_date_column.
  rewrite Hcol. cbn [negb]. destruct (index_name d) as [name|]; [|done].
  destruct (String.eqb name "Date") eqn:Hname; [|done].
  apply String.eqb_eq in Hname. by subst name.
Qed.

End Routes.

(** X13: with a symbol that is accepted and a [historical_data] list
    that is not empty, the analysis is made on the payload alone and the
    provider is not asked: a [ValueError] of the normalisation is
    answered with status 400 and its message, a normalised payload with
    status 200, the report on it and the source [payload]; whatever
    [generate_insights_from_history] raises, a [ValueError] included,
    is not caught. (The normalisation is taken not to raise a
    [LinAlgError], see [try_ValueError].) *)
Theorem analytical_insights_payload `{Library} `{Provider}
    (p : Payload) (sym : string) (r : record) (data : list record) (h : heap) :
  normalize_symbol (payload_symbol p) = Ok sym ->
  payload_historical_data p = Some (r :: data) ->
  normalized_payload (r :: data) <> Raise LinAlgError ->
  (analytical_insights (Some p) h).2
  = match normalized_payload (r :: data) with
    | Raise (ValueError msg) => Done (_build_error msg 400)
    | Raise e => Failed (Raised e)
    | Ok d =>
        match insights_of sym d with
        | Ok insights => Done (jsonify (Analysis sym insights "payload"))
        | Raise e => Failed (Raised e)
        end
    end.
Proof.
  intros Hsym Hdata Hlinalg. unfold analytical_insights.
  rewrite (try_symbol _ sym) by done. rewrite Hdata. cbn [given_records]. unfold try_ValueError. rewrite call_bind.
  unfold Calls.run at 1.
  pose proof (wp_normalize_history_payload (r :: data) h) as [Hnorm Hinc].
  destruct (normalize_history_payload (r :: data) h) as [h1 [l|e]]; cbn [fst snd] in *.
  - destruct Hnorm as (d & -> & Hl). cbn [of_result]. unfold mret, Call_ret.
    rewrite call_bind. unfold Calls.run.
    destruct (run_generate_insights sym l h1 d Hl) as [Hrep _].
    destruct (generate_insights_from_history sym l h1) as [h2 rep]. cbn [snd] in Hrep.
    subst rep. by destruct (insights_of sym d).
  - rewrite Hnorm in Hlinalg |- *. cbn [of_result]. by destruct e.
Qed.

(** X14: on the download path the two POST routes answer a
    [ValueError] of [download_historical_data] (a date that is no ISO
    date, a start after the end, no history) with status 400 and its
    message; any other failure of the download, a [LinAlgError] aside
    (see [try_ValueError]), is not caught. *)
Theorem post_routes_download_failure `{Library} `{Provider} `{Builtins}
    (p : Payload) (sym : string) (f : failure) (h : heap) :
  normalize_symbol (payload_symbol p) = Ok sym ->
  downloaded_history sym (payload_start p) (payload_end p)
    (default DEFAULT_INTERVAL (payload_interval p)) = Failed f ->
  f <> Raised LinAlgError ->
  let answer :=
    match f with
    | Raised (ValueError msg) => Done (_build_error msg 400)
    | _ => Failed f
    end in
  (historical_data (Some p) h).2 = answer
  /\ (given_records (payload_historical_data p) = None ->
      (analytical_insights (Some p) h).2 = answer).
Proof.
  intros Hsym Hdown Hlinalg. cbv zeta.
  destruct (download_failed_run _ _ _ _ h f Hdown) as [h' Hrun].
  split; [|intros Hnone].
  - unfold historical_data. rewrite (try_symbol _ sym) by done.
    unfold try_ValueError. rewrite Hrun. by destruct f as [[]|].
  - unfold analytical_insights. rewrite (try_symbol _ sym) by done.
    rewrite Hnone. unfold try_ValueError. rewrite call_bind, Hrun.
    by destruct f as [[]|].
Qed.

(** X15: when the provider names its index otherwise than [Date] (the
    hours of an intraday history are indexed by [Datetime]), the frame
    downloaded has no [Date] column: [historical_data] ends with an
    [AttributeError] for [Date], and the analysis with the
    [ValueError] on the missing column, raised outside of the [try]
    and so not answered with a status 400. *)
Theorem post_routes_need_date_index `{Library} `{Provider} `{Builtins}
    (p : Payload) (sym : string) (fetched d : DataFrame) (h : heap) :
  normalize_symbol (payload_symbol p) = Ok sym ->
  requested_history sym (payload_start p) (payload_end p)
    (default DEFAULT_INTERVAL (payload_interval p)) = Done fetched ->
  flattened_history fetched = Done d ->
  index_name fetched <> Some "Date"%string ->
  (historical_data (Some p) h).2 = Failed (AttributeError "Date")
  /\ (given_records (payload_historical_data p) = None ->
      (analytical_insights (Some p) h).2
      = Failed (Raised (ValueError "Historical data must contain a 'Date' column."))).
Proof.
  intros Hsym Hreq Hflat Hname.
  assert (downloaded_history sym (payload_start p) (payload_end p)
            (default DEFAULT_INTERVAL (payload_interval p)) = Done d) as Hdown
    by (unfold downloaded_history; by rewrite Hreq).
  destruct (download_done _ _ _ _ h d Hdown) as (h' & l & Hrun & Hl).
  destruct (flattened_without_date fetched d Hflat Hname) as (Hcol & Hidx & Hrows).
  split; [|intros Hnone].
  - unfold historical_data. rewrite (try_symbol _ sym) by done.
    unfold try_ValueError. rewrite Hrun.
    rewrite call_bind. unfold historical_records_from_dataframe.
    rewrite (call_get l d) by done.
    unfold Calls.lift. by rewrite (records_without_date d Hrows Hcol).
  - unfold analytical_insights. rewrite (try_symbol _ sym) by done.
    rewrite Hnone. unfold try_ValueError. rewrite call_bind, Hrun.
    unfold mret, Call_ret. rewrite call_bind. unfold Calls.run.
    destruct (run_generate_insights sym l h' d Hl) as [Hrep _].
    destruct (generate_insights_from_history sym l h') as [h2 rep]. cbn [snd] in Hrep.
    subst rep. rewrite (insights_without_date sym d Hcol); [done|]. by rewrite Hidx.
Qed.

Lemma analytical_insights_payload_witness :
  (analytical_insights (H := Reference.library)
     (Some (mkPayload (Some "acme"%string) None None None
              (Some [[("date"%string, CStr "2024-01-02"); ("close"%string, CInt 100)];
                     [("date"%string, CStr "2024-01-03"); ("close"%string, CInt 110)]]))) ∅).2
  = match normalized_payload (H := Reference.library)
            [[("date"%string, CStr "2024-01-02"); ("close"%string, CInt 100)];
             [("date"%string, CStr "2024-01-03"); ("close"%string, CInt 110)]] with
    | Raise (ValueError msg) => Done (_build_error msg 400)
    | Raise e => Failed (Raised e)
    | Ok d =>
        match insights_of (H := Reference.library) "ACME" d with
        | Ok insights => Done (jsonify (Analysis "ACME" insights "payload"))
        | Raise e => Failed (Raised e)
        end
    end.
Proof.
  apply (analytical_insights_payload (H := Reference.library));
    [reflexivity | reflexivity | by vm_compute].
Defined.

Lemma post_routes_download_failure_witness :
  (historical_data (H := Reference.library)
     (Some (mkPayload (Some "acme"%string) None (Some "tomorrow"%string) None None)) ∅).2
  = Done (_build_error "Invalid ISO date: tomorrow" 400)
  /\ (given_records None = None ->
      (analytical_insights (H := Reference.library)
         (Some (mkPayload (Some "acme"%string) None (Some "tomorrow"%string) None None)) ∅).2
      = Done (_build_error "Invalid ISO date: tomorrow" 400)).
Proof.
  apply (post_routes_download_failure (H := Reference.library)
           (mkPayload (Some "acme"%string) None (Some "tomorrow"%string) None None)
           "ACME" (Raised (ValueError "Invalid ISO date: tomorrow")) ∅);
    [vm_compute; reflexivity | vm_compute; reflexivity | discriminate].
Defined.

Lemma post_routes_need_date_index_witness :
  (historical_data (H := Reference.library)
     (Some (Sample.request "ACME" (Some "1h"%string))) ∅).2
  = Failed (AttributeError "Date")
  /\ (given_records (payload_historical_data (Sample.request "ACME" (Some "1h"%string))) = None ->
      (analytical_insights (H := Reference.library)
         (Some (Sample.request "ACME" (Some "1h"%string))) ∅).2
      = Failed (Raised (ValueError "Historical data must contain a 'Date' column."))).
Proof.
  apply (post_routes_need_date_index (H := Reference.library)
           (Sample.request "ACME" (Some "1h"%string)) "ACME" Sample.hourly
           (Frame.reset_index Sample.hourly "Datetime") ∅).
  - reflexivity.
  - vm_compute. reflexivity.
  - vm_compute. reflexivity.
  - discriminate.
Defined.

(** ** [generate_insights_from_history]: the date column and the labels *)

Section Labels.
Context `{Library}.

Lemma insights_with_date_index (sym : string) (d : DataFrame) :
  Frame.has_column d "Date" = false -> index_name d = Some "Date"%string ->
  insights_of sym d = insights_of sym (Frame.reset_index d "Date").
Proof.
  intros Hcol Hidx. unfold insights_of, sorted_by_date, with_date_column.
  rewrite Hcol, Hidx. cbn [negb]. rewrite String.eqb_refl.
  assert (Frame.has_column (Frame.reset_index d "Date") "Date" = true) as ->; [|done].
  unfold Frame.has_column, Frame.reset_index. cbn [columns existsb].
  by rewrite String.eqb_refl.
Qed.

Lemma trend_of_cases (slope : float) :
  trend_of slope = "upward"%string \/ trend_of slope = "downward"%string
  \/ trend_of slope = "flat"%string.
Proof. unfold trend_of. repeat case_match; auto. Qed.

Lemma slope_and_trend_cases (valid : DataFrame) (slope : float) (trend : string) :
  slope_and_trend valid = Ok (slope, trend) ->
  trend = "upward"%string \/ trend = "downward"%string \/ trend = "flat"%string.
Proof.
  unfold slope_and_trend. destruct (2 <=? _)%nat; [|intros [= _ <-]; auto].
  intros Hs. bind_inv Hs. injection Hs as _ <-. apply trend_of_cases.
Qed.

Lemma insights_of_labels sym d rep :
  insights_of sym d = Ok rep ->
  symbol rep = sym
  /\ (trend_direction rep = "upward"%string \/ trend_direction rep = "downward"%string
      \/ trend_direction rep = "flat"%string)
  /\ (exists avg_return, recommendation rep = recommendation_of (trend_direction rep) avg_return)
  /\ (exists vol, volatility_profile rep = volatility_profile_of vol).
Proof.
  unfold insights_of. intros Hrep. bind_inv Hrep. injection Hrep as <-.
  cbn [symbol trend_direction recommendation volatility_profile].
  split; [done|]. split; [by eapply slope_and_trend_cases|]. eauto.
Qed.

End Labels.

(** X16: a frame without a [Date] column is analysed by its index when
    the index is named [Date]: the report is the one of the frame in
    which the index is the [Date] column; with any other index the call
    raises the [ValueError] on the missing column. *)
Theorem generate_insights_date_index `{Library}
    (sym : string) (df : loc) (h : heap) (d : DataFrame) :
  h !! df = Some d ->
  Frame.has_column d "Date" = false ->
  (index_name d = Some "Date"%string ->
   (generate_insights_from_history sym df h).2
   = insights_of sym (Frame.reset_index d "Date"))
  /\ (index_name d <> Some "Date"%string ->
      (generate_insights_from_history sym df h).2
      = Raise (ValueError "Historical data must contain a 'Date' column.")).
Proof.
  intros Hdf Hcol. destruct (run_generate_insights sym df h d Hdf) as [-> _]. split.
  - intros Hidx. by apply insights_with_date_index.
  - intros Hidx. by apply insights_without_date.
Qed.

(** X17: in every report the symbol is the one passed in, the trend is
    upward, downward or flat, the volatility profile is high, moderate
    or low, and the recommendation goes with the trend: bullish only on
    an upward trend, bearish only on a downward one, neutral on a flat
    one. *)
Theorem generate_insights_labels `{Library}
    (sym : string) (df : loc) (h : heap) (rep : Report) :
  (generate_insights_from_history sym df h).2 = Ok rep ->
  symbol rep = sym
  /\ trend_direction rep ∈ ["upward"; "downward"; "flat"]%string
  /\ volatility_profile rep ∈ ["high"; "moderate"; "low"]%string
  /\ (recommendation rep = "Bullish momentum; consider accumulation with risk controls."%string
      -> trend_direction rep = "upward"%string)
  /\ (recommendation rep = "Bearish momentum; prefer defensive posture."%string
      -> trend_direction rep = "downward"%string)
  /\ (trend_direction rep = "flat"%string
      -> recommendation rep = "Neutral momentum; continue observing."%string).
Proof.
  intros Hrep.
  destruct (h !! df) as [d|] eqn:Hdf;
    [|by rewrite (run_generate_insights_dangling sym df h Hdf) in Hrep].
  destruct (run_generate_insights sym df h d Hdf) as [Hrun _]. rewrite Hrun in Hrep.
  destruct (insights_of_labels sym d rep Hrep) as (Hsym & Htrend & [avg Hrec] & [vol Hvol]).
  split; [done|]. split; [|split].
  - destruct Htrend as [->|[->| ->]]; repeat (first [by left | right]).
  - rewrite Hvol. unfold volatility_profile_of.
    repeat case_match; repeat (first [by left | right]).
  - rewrite Hrec. unfold recommendation_of.
    destruct Htrend as [->|[->| ->]]; cbn [String.eqb Ascii.eqb Bool.eqb andb];
      repeat case_match; done.
Qed.

Lemma generate_insights_date_index_witness :
  (generate_insights_from_history (H := Reference.library) "ACME" 1%positive
     {[1%positive := Sample.daily]}).2
  = insights_of (H := Reference.library) "ACME" (Frame.reset_index Sample.daily "Date")
  /\ (generate_insights_from_history (H := Reference.library) "ACME" 1%positive
        {[1%positive := Sample.hourly]}).2
     = Raise (ValueError "Historical data must contain a 'Date' column.").
Proof.
  split.
  - destruct (generate_insights_date_index (H := Reference.library) "ACME" 1%positive
                {[1%positive := Sample.daily]} Sample.daily) as [Hdate _];
      [vm_compute; reflexivity | reflexivity |].
    apply Hdate. reflexivity.
  - destruct (generate_insights_date_index (H := Reference.library) "ACME" 1%positive
                {[1%positive := Sample.hourly]} Sample.hourly) as [_ Hother];
      [vm_compute; reflexivity | reflexivity |].
    apply Hother. discriminate.
Defined.

Lemma generate_insights_labels_witness :
  exists rep : Report,
    symbol rep = "ACME"%string
    /\ trend_direction rep ∈ ["upward"; "downward"; "flat"]%string
    /\ volatility_profile rep ∈ ["high"; "moderate"; "low"]%string
    /\ (recommendation rep
        = "Bullish momentum; consider accumulation with risk controls."%string
        -> trend_direction rep = "upward"%string)
    /\ (recommendation rep = "Bearish momentum; prefer defensive posture."%string
        -> trend_direction rep = "downward"%string)
    /\ (trend_direction rep = "flat"%string
        -> recommendation rep = "Neutral momentum; continue observing."%string).
Proof.
  eexists.
  apply (generate_insights_labels (H := Reference.library) "ACME" 1%positive
           {[1%positive := Sample.table]}).
  vm_compute. reflexivity.
Defined.

(** X18: for an accepted symbol, a provider that fails, in whatever
    way, is answered with status 502 by both lookups; a provider that
    knows nothing of the symbol (no info, or an empty one) is answered
    with status 404 by [company_info], and with status 200 and a
    snapshot without a single value by [market_data]. *)
Theorem lookup_routes_unknown_symbol `{Library} `{Provider}
    (sym : option string) (s : string) (h : heap) :
  normalize_symbol sym = Ok s ->
  (forall f,
      ticker_info s = Failed f ->
      company_info sym h
      = (h, Done (_build_error "Unable to reach Yahoo Finance for the symbol." 502))
      /\ market_data sym h
         = (h, Done (_build_error "Unable to reach Yahoo Finance for the market snapshot."
                       502)))
  /\ (forall info,
         ticker_info s = Done info ->
         Json.truthy info = false ->
         company_info sym h
         = (h, Done (_build_error ("Symbol " +:+ s +:+ " could not be resolved.") 404))
         /\ market_data sym h
            = (h, Done (mkResponse
                          (MarketData s JNull JNull JNull JNull JNull JNull JNull JNull JNull
                             stamp) 200))).
Proof.
  intros Hsym. split.
  - intros f Hinfo. unfold company_info, market_data.
    rewrite !(try_symbol _ s) by done.
    unfold try_Exception, Calls.lift, info_or_empty. by rewrite Hinfo.
  - intros info Hinfo Hfalsy. unfold company_info, market_data.
    rewrite !(try_symbol _ s) by done.
    unfold try_Exception, Calls.lift, info_or_empty. rewrite Hinfo.
    cbn [mbind outcome_bind]. unfold Json.or_else. rewrite Hfalsy. by split.
Qed.

Lemma lookup_routes_unknown_symbol_witness :
  (company_info (H := Reference.library) (Some "down"%string) ∅
   = (∅, Done (_build_error "Unable to reach Yahoo Finance for the symbol." 502))
   /\ market_data (H := Reference.library) (Some "down"%string) ∅
      = (∅, Done (_build_error "Unable to reach Yahoo Finance for the market snapshot." 502)))
  /\ (company_info (H := Reference.library) (Some "zzz"%string) ∅
      = (∅, Done (_build_error ("Symbol " +:+ "ZZZ" +:+ " could not be resolved.") 404))
      /\ market_data (H := Reference.library) (Some "zzz"%string) ∅
         = (∅, Done (mkResponse
                       (MarketData "ZZZ" JNull JNull JNull JNull JNull JNull JNull JNull JNull
                          (stamp (H := Reference.library))) 200))).
Proof.
  split.
  - apply (proj1 (lookup_routes_unknown_symbol (H := Reference.library)
                    (Some "down"%string) "DOWN" ∅ eq_refl) (Raised TypeError)).
    reflexivity.
  - apply (proj2 (lookup_routes_unknown_symbol (H := Reference.library)
                    (Some "zzz"%string) "ZZZ" ∅ eq_refl) JNull); reflexivity.
Defined.
